(** * bookid: query classification and confidence scoring

    A shallow embedding of the Google Books client of the [bookid]
    repository ([googlebooks/parser.go], [googlebooks/client.go],
    [bookfinder.go]) together with the properties of its query classifier
    ([ParseQuery]) and of its result scorer ([calculateConfidence],
    [volumeToBookResult], [extractYear]).

    Conventions of the embedding:
    - a Go [string] holding valid UTF-8 text is the list of its code points
      ([gostring]); [len] is the number of bytes of its UTF-8 encoding;
    - Go [int] is [Z]; [float64] is IEEE 754 binary64 ([PrimFloat.float]),
      each operation rounded on its own to the nearest value, ties to
      even (no fused multiply-add, as in the amd64 build), and each decimal
      constant of the source read as the nearest binary64 value;
    - a nil pointer is [None]; a nil-pointer dereference makes the function
      return [None] ([Panics] at the level of [Search]);
    - the three regular expressions of [parser.go] are terms of a small
      regular-expression syntax, run by a backtracking matcher that
      enumerates matches in the priority order of Go's [regexp] package
      (leftmost match first, greedy repetitions). *)

From Stdlib Require Uint63.
From Stdlib Require Import PrimFloat.
From Stdlib Require Import Ascii String.
From Stdlib Require Import List Bool Arith NArith ZArith Lia.
Import ListNotations.

Set Implicit Arguments.
Set Warnings "-inexact-float".

(* ================================================================= *)
(** ** Go strings *)

Definition rune := N.
Definition gostring := list rune.

(** Code point of an ASCII character and text of an ASCII literal. *)
Definition chr (a : ascii) : rune := N_of_ascii a.
Definition str (s : string) : gostring := map chr (list_ascii_of_string s).
Arguments chr a%_char.
Arguments str s%_string.

(** Number of bytes of the UTF-8 encoding of a code point. *)
Definition RuneLen (r : rune) : nat :=
  if (r <? 128)%N then 1
  else if (r <? 2048)%N then 2
  else if (r <? 65536)%N then 3
  else 4.

(** Go's built-in [len] on strings counts bytes. *)
Fixpoint len (s : gostring) : nat :=
  match s with
  | [] => 0
  | r :: s' => RuneLen r + len s'
  end.

Fixpoint rune_eqb_list (s t : gostring) : bool :=
  match s, t with
  | [], [] => true
  | a :: s', b :: t' => (a =? b)%N && rune_eqb_list s' t'
  | _, _ => false
  end.

(** [s == ""] *)
Definition isEmpty (s : gostring) : bool :=
  match s with [] => true | _ => false end.

(** [strings.HasPrefix] *)
Fixpoint HasPrefix (s prefix : gostring) {struct prefix} : bool :=
  match prefix, s with
  | [], _ => true
  | p :: prefix', c :: s' => (c =? p)%N && HasPrefix s' prefix'
  | _ :: _, [] => false
  end.

(** [unicode.IsSpace]: the Latin-1 spaces and the code points of category
    White_Space. *)
Definition IsSpace (r : rune) : bool :=
  ((9 <=? r) && (r <=? 13) || (r =? 32) || (r =? 133) || (r =? 160)
   || (r =? 5760) || ((8192 <=? r) && (r <=? 8202))
   || (r =? 8232) || (r =? 8233) || (r =? 8239) || (r =? 8287)
   || (r =? 12288))%N.

Fixpoint TrimLeft (s : gostring) : gostring :=
  match s with
  | c :: s' => if IsSpace c then TrimLeft s' else s
  | [] => []
  end.

(** [strings.TrimSpace]: all leading and trailing white space removed. *)
Definition TrimSpace (s : gostring) : gostring :=
  rev (TrimLeft (rev (TrimLeft s))).

(** [strings.ReplaceAll(s, old, "")] for a one-character [old]. *)
Definition removeAll (old : rune) (s : gostring) : gostring :=
  filter (fun c => negb (c =? old)%N) s.

(** First element of [strings.Split(s, sep)] for a one-character [sep]:
    the text before the first separator, the whole text when there is none. *)
Fixpoint SplitHead (sep : rune) (s : gostring) : gostring :=
  match s with
  | [] => []
  | c :: s' => if (c =? sep)%N then [] else c :: SplitHead sep s'
  end.

(* ================================================================= *)
(** ** Regular expressions

    The fragment of Go's [regexp] syntax used by [parser.go]: character
    classes, the word boundary, concatenation, alternation and greedy
    repetition.  [ms r prev s] lists, in priority order, every way [r]
    matches a prefix of [s] when [prev] is the symbol before [s]; a match
    is the last symbol consumed together with the text left over. *)

Section Regexp.

Variable A : Type.
Variable isWord : A -> bool.

Inductive re : Type :=
| Chr (p : A -> bool)            (* one symbol of a class *)
| WordB                          (* \b *)
| Seq (r1 r2 : re)               (* r1 r2 *)
| Alt (r1 r2 : re)               (* r1|r2 *)
| Rep (r : re) (lo hi : nat)     (* r{lo,hi}, greedy; r? is r{0,1} *)
| Plus (r : re).                 (* r+, greedy *)

(** A match: the last symbol consumed (or the symbol before the text)
    and the text left over. *)
Definition mstate : Type := (option A * list A)%type.

Definition wordAt (c : option A) : bool :=
  match c with Some a => isWord a | None => false end.

(** \b holds where exactly one of the two neighbouring symbols is a word
    symbol; the outside of the text counts as a non-word symbol. *)
Definition boundary (prev : option A) (s : list A) : bool :=
  xorb (wordAt prev) (wordAt (hd_error s)).

(** Greedy repetition: one more round of [step] is tried before stopping,
    and stopping is allowed once [lo] rounds are done.  For [r+] the text
    length bounds the rounds, each round of the patterns at hand consuming
    a symbol. *)
Fixpoint rep (step : option A -> list A -> list mstate) (lo hi : nat)
    (prev : option A) (s : list A) : list mstate :=
  match hi with
  | O => if Nat.eqb lo 0 then [(prev, s)] else []
  | S hi' =>
      flat_map (fun x => rep step (pred lo) hi' (fst x) (snd x)) (step prev s)
      ++ (if Nat.eqb lo 0 then [(prev, s)] else [])
  end.

Fixpoint ms (r : re) (prev : option A) (s : list A) : list mstate :=
  match r with
  | Chr p =>
      match s with
      | c :: s' => if p c then [(Some c, s')] else []
      | [] => []
      end
  | WordB => if boundary prev s then [(prev, s)] else []
  | Seq r1 r2 => flat_map (fun x => ms r2 (fst x) (snd x)) (ms r1 prev s)
  | Alt r1 r2 => ms r1 prev s ++ ms r2 prev s
  | Rep r lo hi => rep (ms r) lo hi prev s
  | Plus r => rep (ms r) 1 (length s) prev s
  end.

(** Leftmost match: the first start position with a match, and there the
    match of highest priority.  The result is the matched text. *)
Fixpoint find (r : re) (prev : option A) (s : list A) : option (list A) :=
  match ms r prev s with
  | x :: _ => Some (firstn (length s - length (snd x)) s)
  | [] =>
      match s with
      | c :: s' => find r (Some c) s'
      | [] => None
      end
  end.

End Regexp.

Arguments WordB {A}.
Arguments Chr {A} p.

Declare Scope re_scope.
Delimit Scope re_scope with re.
Notation "r1 ;; r2" := (Seq r1 r2) (at level 61, right associativity) : re_scope.

(** Classes of Go's [regexp]: \d, \s, \w (ASCII only) and [-\s]. *)
Definition isDigit (c : rune) : bool := ((48 <=? c) && (c <=? 57))%N.
Definition isReSpace (c : rune) : bool :=
  ((c =? 9) || (c =? 10) || (c =? 12) || (c =? 13) || (c =? 32))%N.
Definition isHyphen (c : rune) : bool := (c =? 45)%N.
Definition isSep (c : rune) : bool := isHyphen c || isReSpace c.
Definition isUpper (c : rune) : bool := ((65 <=? c) && (c <=? 90))%N.
Definition isLower (c : rune) : bool := ((97 <=? c) && (c <=? 122))%N.
Definition isWordRune (c : rune) : bool :=
  isDigit c || isUpper c || isLower c || (c =? 95)%N.

(** A literal character, and a literal letter under the flag (?i). *)
Definition lit (a : ascii) : re rune := Chr (fun c => (c =? chr a)%N).
Definition lit_i (a : ascii) : re rune :=
  Chr (fun c => (c =? chr a)%N || (isLower (chr a) && (c + 32 =? chr a)%N)).
Arguments lit a%_char.
Arguments lit_i a%_char.

(** [regexp.FindStringSubmatch], reduced to the text of the match: in the
    two ISBN patterns the only group spans everything between the two \b,
    which are of width zero, so that [matches[1]] is the whole match; the
    group of the author pattern is never read. *)
Definition FindStringSubmatch (r : re rune) (s : gostring) : option gostring :=
  find isWordRune r None s.

(* ================================================================= *)
(** ** bookfinder.go *)

Module bookid.

Inductive SearchType : Type :=
| SearchTypeISBN
| SearchTypeTitleAuthor
| SearchTypeTitle
| SearchTypeGeneralQuery.

Record BookResult : Type := mkBookResult {
  Title : gostring;
  Authors : list gostring;
  ISBN10 : gostring;
  ISBN13 : gostring;
  Publisher : gostring;
  PublishedYear : Z;
  Language : gostring;
  GoogleBooksVolumeID : gostring;
  ThumbnailURL : gostring;
  GoogleBooksData : option gostring;
  Confidence : float;
  SearchType_ : SearchType
}.

End bookid.

(* ================================================================= *)
(** ** googlebooks/parser.go *)

Import bookid.
Local Open Scope re_scope.

Definition reDigit : re rune := Chr isDigit.
Definition reDigits (lo hi : nat) : re rune := Rep reDigit lo hi.
Definition reSepOpt : re rune := Rep (Chr isSep) 0 1.

(** [\b(\d{1,5}[-\s]?\d{1,7}[-\s]?\d{1,7}[-\s]?\d)\b] *)
Definition isbn10Body : re rune :=
  reDigits 1 5 ;; reSepOpt ;; reDigits 1 7 ;; reSepOpt ;; reDigits 1 7 ;;
  reSepOpt ;; reDigit.

Definition isbn10Pattern : re rune := WordB ;; isbn10Body ;; WordB.

(** [\b(97[89][-\s]?\d{1,5}[-\s]?\d{1,7}[-\s]?\d{1,7}[-\s]?\d)\b] *)
Definition isbn13Tail : re rune :=
  reSepOpt ;; reDigits 1 5 ;; reSepOpt ;; reDigits 1 7 ;; reSepOpt ;;
  reDigits 1 7 ;; reSepOpt ;; reDigit.

Definition re89 : re rune := Chr (fun c => (c =? 56)%N || (c =? 57)%N).

Definition isbn13Pattern : re rune :=
  WordB ;; (lit "9" ;; lit "7" ;; re89 ;; isbn13Tail) ;; WordB.

(** [(?i)\b(?:by|author:|written by)\s+([^,\n]+)] *)
Definition reBy : re rune := lit_i "b" ;; lit_i "y".
Definition reAuthorColon : re rune :=
  lit_i "a" ;; lit_i "u" ;; lit_i "t" ;; lit_i "h" ;; lit_i "o" ;; lit_i "r" ;;
  lit ":".
Definition reWrittenBy : re rune :=
  lit_i "w" ;; lit_i "r" ;; lit_i "i" ;; lit_i "t" ;; lit_i "t" ;; lit_i "e" ;;
  lit_i "n" ;; lit " " ;; lit_i "b" ;; lit_i "y".
Definition isNameRune (c : rune) : bool := negb ((c =? 44)%N || (c =? 10)%N).

Definition authorPattern : re rune :=
  WordB ;; Alt reBy (Alt reAuthorColon reWrittenBy) ;;
  Plus (Chr isReSpace) ;; Plus (Chr isNameRune).

Local Close Scope re_scope.

(** The double quote of the title query. *)
Definition dquote : rune := 34%N.

(** [cleanISBN] removes dashes and spaces. *)
Definition cleanISBN (isbn : gostring) : gostring :=
  removeAll (chr " ") (removeAll (chr "-") isbn).

(** [isAllDigits]: every rune is a decimal digit. *)
Definition isAllDigits (s : gostring) : bool := forallb isDigit s.

(** [containsNumbers]: some rune is a decimal digit. *)
Definition containsNumbers (s : gostring) : bool := existsb isDigit s.

Definition validateISBN10 (isbn : gostring) : bool :=
  Nat.eqb (len isbn) 10 && isAllDigits isbn.

Definition validateISBN13 (isbn : gostring) : bool :=
  if negb (Nat.eqb (len isbn) 13) || negb (isAllDigits isbn) then false
  else HasPrefix isbn (str "978") || HasPrefix isbn (str "979").

(** One of the two identifier steps of [ParseQuery]: the first match of the
    pattern, cleaned, is kept when it passes validation. *)
Definition isbnStep (pattern : re rune) (validate : gostring -> bool)
    (cleanInput : gostring) : option gostring :=
  match FindStringSubmatch pattern cleanInput with
  | Some m => let isbn := cleanISBN m in
              if validate isbn then Some isbn else None
  | None => None
  end.

Definition isSome {T : Type} (o : option T) : bool :=
  match o with Some _ => true | None => false end.

(** The steps of [ParseQuery] after the two identifier steps. *)
Definition parseText (cleanInput : gostring) : gostring * SearchType * gostring :=
  if isSome (FindStringSubmatch authorPattern cleanInput) then
    (cleanInput, SearchTypeTitleAuthor, [])
  else if negb (containsNumbers cleanInput) && Nat.ltb (len cleanInput) 100 then
    (str "intitle:" ++ [dquote] ++ cleanInput ++ [dquote], SearchTypeTitle, [])
  else
    (cleanInput, SearchTypeGeneralQuery, []).

Definition ParseQuery (input : gostring) : gostring * SearchType * gostring :=
  let cleanInput := TrimSpace input in
  match isbnStep isbn13Pattern validateISBN13 cleanInput with
  | Some isbn => (str "isbn:" ++ isbn, SearchTypeISBN, isbn)
  | None =>
      match isbnStep isbn10Pattern validateISBN10 cleanInput with
      | Some isbn => (str "isbn:" ++ isbn, SearchTypeISBN, isbn)
      | None => parseText cleanInput
      end
  end.

(* ================================================================= *)
(** ** The vendor record (package [books] of the Google API client)

    The declarations of [books.Volume] are not part of the repository;
    the records below hold the fields that [client.go] reads.  The two
    pointers that the code tests against nil or dereferences,
    [VolumeInfo] and [ImageLinks], are options. *)

Module books.

Record VolumeIndustryIdentifier : Type := mkIdentifier {
  Type_ : gostring;
  Identifier : gostring
}.

Record VolumeImageLinks : Type := mkImageLinks {
  Thumbnail : gostring;
  SmallThumbnail : gostring
}.

Record VolumeVolumeInfo : Type := mkVolumeInfo {
  Title : gostring;
  Authors : list gostring;
  IndustryIdentifiers : list VolumeIndustryIdentifier;
  Publisher : gostring;
  Language : gostring;
  PublishedDate : gostring;
  ImageLinks : option VolumeImageLinks
}.

Record Volume : Type := mkVolume {
  Id : gostring;
  VolumeInfo : option VolumeVolumeInfo
}.

End books.

(* ================================================================= *)
(** ** googlebooks/client.go *)

Definition SearchType_eqb (a b : SearchType) : bool :=
  match a, b with
  | SearchTypeISBN, SearchTypeISBN
  | SearchTypeTitleAuthor, SearchTypeTitleAuthor
  | SearchTypeTitle, SearchTypeTitle
  | SearchTypeGeneralQuery, SearchTypeGeneralQuery => true
  | _, _ => false
  end.

(** Indexing a Go map: the value of the first entry with the key, the zero
    value of [float64] when the key is absent. *)
Fixpoint mapIndex (m : list (SearchType * float)) (k : SearchType) : float :=
  match m with
  | [] => 0%float
  | (k', v) :: m' => if SearchType_eqb k' k then v else mapIndex m' k
  end.

(** The map literal of [calculateConfidence]. *)
Definition baseConfidence : list (SearchType * float) :=
  [ (SearchTypeISBN, 0.95%float); (SearchTypeGeneralQuery, 0.70%float) ].

(** The conversion [float64(n)] of an [int]: the nearest binary64 value,
    exact for the counters of [calculateConfidence]. *)
Definition float64 (n : Z) : float :=
  if (n <? 0)%Z then PrimFloat.opp (PrimFloat.of_uint63 (Uint63.of_Z (- n)))
  else PrimFloat.of_uint63 (Uint63.of_Z n).

Definition calculateConfidence (searchType : SearchType) (volume : books.Volume) : float :=
  let confidence := mapIndex baseConfidence searchType in
  match books.VolumeInfo volume with
  | Some info =>
      let dataPoints := 0%Z in
      let totalPoints := 0%Z in
      let dataPoints :=
        if negb (isEmpty (books.Title info)) then (dataPoints + 1)%Z else dataPoints in
      let totalPoints := (totalPoints + 1)%Z in
      let dataPoints :=
        if Nat.ltb 0 (length (books.Authors info)) then (dataPoints + 1)%Z else dataPoints in
      let totalPoints := (totalPoints + 1)%Z in
      let dataPoints :=
        if Nat.ltb 0 (length (books.IndustryIdentifiers info))
        then (dataPoints + 1)%Z else dataPoints in
      let totalPoints := (totalPoints + 1)%Z in
      let dataPoints :=
        if negb (isEmpty (books.Publisher info)) then (dataPoints + 1)%Z else dataPoints in
      let totalPoints := (totalPoints + 1)%Z in
      let completeness := (float64 dataPoints / float64 totalPoints)%float in
      (confidence * (0.7 + 0.3 * completeness))%float
  | None => confidence
  end.

(** [strconv.Atoi]: an optional sign followed by one or more decimal digits,
    within the range of a 64-bit [int]; [None] is a non-nil error. *)
Fixpoint digitsValue (acc : Z) (s : gostring) : option Z :=
  match s with
  | [] => Some acc
  | c :: s' =>
      if isDigit c then digitsValue (acc * 10 + Z.of_N (c - 48)) s' else None
  end.

Definition Atoi (s : gostring) : option Z :=
  let '(neg, body) :=
    match s with
    | c :: s' =>
        if (c =? chr "-")%N then (true, s')
        else if (c =? chr "+")%N then (false, s')
        else (false, s)
    | [] => (false, [])
    end in
  match body with
  | [] => None
  | _ :: _ =>
      match digitsValue 0 body with
      | Some n =>
          let v := if neg then (- n)%Z else n in
          if ((- 2 ^ 63 <=? v) && (v <=? 2 ^ 63 - 1))%Z then Some v else None
      | None => None
      end
  end.

(** The guard [err == nil && year > 1000 && year < 3000]. *)
Definition acceptYear (parsed : option Z) : option Z :=
  match parsed with
  | Some year => if ((1000 <? year) && (year <? 3000))%Z then Some year else None
  | None => None
  end.

Definition extractYear (dateStr : gostring) : Z :=
  match acceptYear (Atoi dateStr) with
  | Some year => year
  | None =>
      (* parts := strings.Split(dateStr, "-"); parts[0] always exists *)
      match acceptYear (Atoi (SplitHead (chr "-") dateStr)) with
      | Some year => year
      | None => 0%Z
      end
  end.

Definition ensureHTTPS (url : gostring) : gostring :=
  if isEmpty url then []
  else if HasPrefix url (str "http://") then
    str "https://" ++ skipn (length (str "http://")) url
  else url.

(** Assignments to the fields of a [BookResult]. *)
Definition setISBN10 (v : gostring) (r : BookResult) : BookResult :=
  mkBookResult (Title r) (Authors r) v (ISBN13 r) (Publisher r)
    (PublishedYear r) (Language r) (GoogleBooksVolumeID r) (ThumbnailURL r)
    (GoogleBooksData r) (Confidence r) (SearchType_ r).

Definition setISBN13 (v : gostring) (r : BookResult) : BookResult :=
  mkBookResult (Title r) (Authors r) (ISBN10 r) v (Publisher r)
    (PublishedYear r) (Language r) (GoogleBooksVolumeID r) (ThumbnailURL r)
    (GoogleBooksData r) (Confidence r) (SearchType_ r).

Definition setPublisher (v : gostring) (r : BookResult) : BookResult :=
  mkBookResult (Title r) (Authors r) (ISBN10 r) (ISBN13 r) v
    (PublishedYear r) (Language r) (GoogleBooksVolumeID r) (ThumbnailURL r)
    (GoogleBooksData r) (Confidence r) (SearchType_ r).

Definition setPublishedYear (v : Z) (r : BookResult) : BookResult :=
  mkBookResult (Title r) (Authors r) (ISBN10 r) (ISBN13 r) (Publisher r)
    v (Language r) (GoogleBooksVolumeID r) (ThumbnailURL r)
    (GoogleBooksData r) (Confidence r) (SearchType_ r).

Definition setLanguage (v : gostring) (r : BookResult) : BookResult :=
  mkBookResult (Title r) (Authors r) (ISBN10 r) (ISBN13 r) (Publisher r)
    (PublishedYear r) v (GoogleBooksVolumeID r) (ThumbnailURL r)
    (GoogleBooksData r) (Confidence r) (SearchType_ r).

Definition setThumbnailURL (v : gostring) (r : BookResult) : BookResult :=
  mkBookResult (Title r) (Authors r) (ISBN10 r) (ISBN13 r) (Publisher r)
    (PublishedYear r) (Language r) (GoogleBooksVolumeID r) v
    (GoogleBooksData r) (Confidence r) (SearchType_ r).

Definition setGoogleBooksData (v : option gostring) (r : BookResult) : BookResult :=
  mkBookResult (Title r) (Authors r) (ISBN10 r) (ISBN13 r) (Publisher r)
    (PublishedYear r) (Language r) (GoogleBooksVolumeID r) (ThumbnailURL r)
    v (Confidence r) (SearchType_ r).

Definition setConfidence (v : float) (r : BookResult) : BookResult :=
  mkBookResult (Title r) (Authors r) (ISBN10 r) (ISBN13 r) (Publisher r)
    (PublishedYear r) (Language r) (GoogleBooksVolumeID r) (ThumbnailURL r)
    (GoogleBooksData r) v (SearchType_ r).

(** The body of the loop over [IndustryIdentifiers]. *)
Definition extractISBN (result : BookResult)
    (identifier : books.VolumeIndustryIdentifier) : BookResult :=
  if rune_eqb_list (books.Type_ identifier) (str "ISBN_10") then
    setISBN10 (books.Identifier identifier) result
  else if rune_eqb_list (books.Type_ identifier) (str "ISBN_13") then
    setISBN13 (books.Identifier identifier) result
  else result.

(** The back-fill of the identifier detected in the query. *)
Definition backfillISBN (detectedISBN : gostring) (result : BookResult) : BookResult :=
  if negb (isEmpty detectedISBN) && isEmpty (ISBN10 result) && isEmpty (ISBN13 result)
  then
    if Nat.eqb (len detectedISBN) 10 then setISBN10 detectedISBN result
    else if Nat.eqb (len detectedISBN) 13 then setISBN13 detectedISBN result
    else result
  else result.

Definition setYear (info : books.VolumeVolumeInfo) (result : BookResult) : BookResult :=
  if negb (isEmpty (books.PublishedDate info)) then
    setPublishedYear (extractYear (books.PublishedDate info)) result
  else result.

Definition setThumbnail (info : books.VolumeVolumeInfo) (result : BookResult) : BookResult :=
  match books.ImageLinks info with
  | Some links =>
      if negb (isEmpty (books.Thumbnail links)) then
        setThumbnailURL (ensureHTTPS (books.Thumbnail links)) result
      else if negb (isEmpty (books.SmallThumbnail links)) then
        setThumbnailURL (ensureHTTPS (books.SmallThumbnail links)) result
      else result
  | None => result
  end.

(** [volumeToBookResult]; [None] is the nil-pointer panic of the first
    statement, which reads [volume.VolumeInfo.Title] without a guard. *)
Definition volumeToBookResult (volume : books.Volume) (searchType : SearchType)
    (detectedISBN : gostring) : option BookResult :=
  match books.VolumeInfo volume with
  | None => None
  | Some info =>
      let result :=
        mkBookResult (books.Title info) (books.Authors info) [] [] [] 0%Z []
          (books.Id volume) [] None 0%float searchType in
      let result := fold_left extractISBN (books.IndustryIdentifiers info) result in
      let result := backfillISBN detectedISBN result in
      let result := setPublisher (books.Publisher info) result in
      let result := setLanguage (books.Language info) result in
      let result := setYear info result in
      let result := setThumbnail info result in
      let result := setConfidence (calculateConfidence searchType volume) result in
      Some result
  end.

(** [Client.Search].  The call to the Google Books service and
    [json.Marshal] are the two collaborators of the client. *)
Section Client.

Variable ServiceError : Type.
(** [c.service.Volumes.List(q).MaxResults(10).Context(ctx).Do()] *)
Variable VolumesList : gostring -> ServiceError + list books.Volume.
(** [json.Marshal(volume)]; [None] is a non-nil error. *)
Variable jsonMarshal : books.Volume -> option gostring.

Inductive error : Type :=
| errorsNew (msg : gostring)
| serviceError (e : ServiceError).

Inductive outcome : Type :=
| Returns (results : list BookResult)
| Fails (err : error)
| Panics.

Fixpoint convertItems (items : list books.Volume) (searchType : SearchType)
    (detectedISBN : gostring) (results : list BookResult) : option (list BookResult) :=
  match items with
  | [] => Some results
  | volume :: items' =>
      let volumeJSON := jsonMarshal volume in
      match volumeToBookResult volume searchType detectedISBN with
      | None => None
      | Some result =>
          let result := setGoogleBooksData volumeJSON result in
          convertItems items' searchType detectedISBN (results ++ [result])
      end
  end.

Definition Search (query : gostring) : outcome :=
  if isEmpty query then Fails (errorsNew (str "query cannot be empty"))
  else
    let '(searchQuery, searchType, detectedISBN) := ParseQuery query in
    match VolumesList searchQuery with
    | inl err => Fails (serviceError err)
    | inr items =>
        match convertItems items searchType detectedISBN [] with
        | Some results => Returns results
        | None => Panics
        end
    end.

End Client.

(* ================================================================= *)
(** ** The scorer of the specification

    Definitions following the words of the specification (section 4.2):
    the four-tier table of base confidences, the completeness of a
    record, which is the share of its four signals that are present, and
    the score [base * (0.7 + 0.3 * completeness)], evaluated as written
    with the operations of [float64]. *)

Module Spec.

Definition base (m : SearchType) : float :=
  match m with
  | SearchTypeISBN => 0.95
  | SearchTypeTitleAuthor => 0.85
  | SearchTypeTitle => 0.70
  | SearchTypeGeneralQuery => 0.50
  end.

Definition nonEmpty {T : Type} (l : list T) : bool :=
  match l with [] => false | _ :: _ => true end.

Definition signals (info : books.VolumeVolumeInfo) : list bool :=
  [ nonEmpty (books.Title info);
    nonEmpty (books.Authors info);
    nonEmpty (books.IndustryIdentifiers info);
    nonEmpty (books.Publisher info) ].

Definition count (l : list bool) : Z := Z.of_nat (length (filter id l)).

Definition completeness (info : books.VolumeVolumeInfo) : float :=
  float64 (count (signals info)) / 4.

Definition Score (m : SearchType) (info : books.VolumeVolumeInfo) : float :=
  base m * (0.7 + 0.3 * completeness info).

(** The published year of the specification (section 4.3): the leading
    numeric token of a date, which is the run of decimal digits it begins
    with, when that number lies strictly between 1000 and 3000, and zero
    (unset) otherwise. *)
Fixpoint leadingDigits (dateStr : gostring) : gostring :=
  match dateStr with
  | c :: s => if isDigit c then c :: leadingDigits s else []
  | [] => []
  end.

Definition publishedYear (dateStr : gostring) : Z :=
  match leadingDigits dateStr with
  | [] => 0%Z
  | c :: ds =>
      match digitsValue 0 (c :: ds) with
      | Some year => if ((1000 <? year) && (year <? 3000))%Z then year else 0%Z
      | None => 0%Z
      end
  end.

End Spec.

(** A record with all four signals: title, one author, one identifier and
    a publisher. *)
Definition gatsbyInfo : books.VolumeVolumeInfo :=
  books.mkVolumeInfo (str "The Great Gatsby") [str "F. Scott Fitzgerald"]
    [books.mkIdentifier (str "ISBN_13") (str "9780743273565")]
    (str "Scribner") (str "en") (str "2004-09-30") None.

Definition gatsby : books.Volume := books.mkVolume (str "iXn5U2IzVH0C") (Some gatsbyInfo).

(** A volume without [VolumeInfo]. *)
Definition bareVolume : books.Volume := books.mkVolume (str "x") None.

(** A record with a given date. *)
Definition datedVolume (date : gostring) : books.Volume :=
  books.mkVolume (str "jkl")
    (Some (books.mkVolumeInfo (str "The Great Gatsby") [str "F. Scott Fitzgerald"] []
             (str "Scribner") (str "en") date None)).


(* ================================================================= *)
(** ** Identifiers and dates of a record *)

(** The value of the last entry of a given type in an identifier list,
    [default] when the list has none: what the loop of
    [volumeToBookResult] leaves in an ISBN slot. *)
Fixpoint lastOfType (ty : gostring) (ids : list books.VolumeIndustryIdentifier)
    (default : gostring) : gostring :=
  match ids with
  | [] => default
  | i :: ids' =>
      lastOfType ty ids'
        (if rune_eqb_list (books.Type_ i) ty then books.Identifier i else default)
  end.

(** The result under construction after the loop over the identifiers. *)
Definition extractedResult (v : books.Volume) (info : books.VolumeVolumeInfo)
    (t : SearchType) : BookResult :=
  fold_left extractISBN (books.IndustryIdentifiers info)
    (mkBookResult (books.Title info) (books.Authors info) [] [] [] 0%Z []
       (books.Id v) [] None 0%float t).

(** The leading token of a date, the text before its first hyphen, read as
    a number. *)
Definition yearToken (dateStr : gostring) : option Z :=
  Atoi (SplitHead (chr "-") dateStr).

(** A year strictly between 1000 and 3000. *)
Definition validYear (y : Z) : bool := ((1000 <? y) && (y <? 3000))%Z.

(** A record of another edition: its only identifier differs from the one
    asked for. *)
Definition otherEditionInfo : books.VolumeVolumeInfo :=
  books.mkVolumeInfo (str "The Great Gatsby") [str "F. Scott Fitzgerald"]
    [books.mkIdentifier (str "ISBN_13") (str "9780000000002")]
    (str "Scribner") (str "en") (str "1925") None.

Definition otherEdition : books.Volume :=
  books.mkVolume (str "abc") (Some otherEditionInfo).

(** A record without identifiers. *)
Definition noIdentifierInfo : books.VolumeVolumeInfo :=
  books.mkVolumeInfo (str "The Great Gatsby") [str "F. Scott Fitzgerald"] []
    (str "Scribner") (str "en") (str "2004-09-30") None.

Definition noIdentifier : books.Volume :=
  books.mkVolume (str "def") (Some noIdentifierInfo).

(** The identifier of the query of the end-to-end scenarios. *)
Definition detected13 : gostring := str "9780743273565".

(** A service that answers every query with one complete record, and a
    marshaller that always fails. *)
Definition oneVolumeService (q : gostring) : unit + list books.Volume := inr [gatsby].
Definition noMarshal (v : books.Volume) : option gostring := None.

(** The title query of an empty title: [intitle:""]. *)
Definition emptyTitleQuery : gostring := str "intitle:" ++ [dquote] ++ [] ++ [dquote].

(* ================================================================= *)
(** ** Reasoning about matches

    Notions used to state facts about [ms] and [find]. *)

Section MatchNotions.

Variables A B : Type.

(** The symbol before the text that follows [pre], when [prev] is the
    symbol before [pre]. *)
Definition lastSymbol (prev : option A) (pre : list A) : option A :=
  fold_left (fun _ c => Some c) pre prev.

(** The text left over by a match, extended by [tail]. *)
Definition ext (tail : list A) (x : mstate A) : mstate A := (fst x, snd x ++ tail).

(** The image of a match under a map of the alphabet. *)
Definition mapState (f : A -> B) (x : mstate A) : mstate B :=
  (option_map f (fst x), map f (snd x)).

(** Length of the text left over by the match of highest priority. *)
Definition firstMatch (isWord : A -> bool) (r : re A) (prev : option A)
    (s : list A) : option nat :=
  match ms isWord r prev s with
  | x :: _ => Some (length (snd x))
  | [] => None
  end.

(** [r] has no unbounded repetition and none of its classes holds [c]. *)
Fixpoint rejects (r : re A) (c : A) : Prop :=
  match r with
  | Chr p => p c = false
  | WordB => True
  | Seq r1 r2 | Alt r1 r2 => rejects r1 c /\ rejects r2 c
  | Rep r' _ _ => rejects r' c
  | Plus _ => False
  end.

(** [r'] is [r] read through the map [f] of the alphabet. *)
Fixpoint sim (f : A -> B) (r : re A) (r' : re B) : Prop :=
  match r, r' with
  | Chr p, Chr p' => forall a, p a = p' (f a)
  | WordB, WordB => True
  | Seq r1 r2, Seq r1' r2' | Alt r1 r2, Alt r1' r2' => sim f r1 r1' /\ sim f r2 r2'
  | Rep r0 lo hi, Rep r0' lo' hi' => sim f r0 r0' /\ lo = lo' /\ hi = hi'
  | Plus r0, Plus r0' => sim f r0 r0'
  | _, _ => False
  end.

End MatchNotions.

(* ================================================================= *)
(** ** Character classes of the ISBN patterns

    The two ISBN patterns test a rune only for being a digit, a separator
    or a word character.  [classify] maps a rune to its class; the
    patterns below are the ISBN patterns read over classes. *)

Inductive cls : Type := CDigit | CSep | CWord | COther.

Definition classify (c : rune) : cls :=
  if isDigit c then CDigit
  else if isSep c then CSep
  else if isWordRune c then CWord
  else COther.

Definition clsDigit (k : cls) : bool := match k with CDigit => true | _ => false end.
Definition clsSep (k : cls) : bool := match k with CSep => true | _ => false end.
Definition clsWord (k : cls) : bool :=
  match k with CDigit | CWord => true | _ => false end.

Definition clsDigits (lo hi : nat) : re cls := Rep (Chr clsDigit) lo hi.
Definition clsSepOpt : re cls := Rep (Chr clsSep) 0 1.

Definition isbn10BodyC : re cls :=
  (clsDigits 1 5 ;; clsSepOpt ;; clsDigits 1 7 ;; clsSepOpt ;; clsDigits 1 7 ;;
   clsSepOpt ;; Chr clsDigit)%re.

Definition isbn13TailC : re cls :=
  (clsSepOpt ;; clsDigits 1 5 ;; clsSepOpt ;; clsDigits 1 7 ;; clsSepOpt ;;
   clsDigits 1 7 ;; clsSepOpt ;; Chr clsDigit)%re.

(** ** Written forms of an ISBN-13

    The elements of an ISBN-13: the prefix 978 or 979, the registration
    group (1 to 5 digits), the registrant and the publication (9 digits
    together with the group), and the check digit.  A written form puts
    nothing, a hyphen or a single space at each of the four boundaries. *)

Record isbn13 : Type := mkIsbn13 {
  prefixEnd : rune;            (* the third digit of the prefix: 8 or 9 *)
  group : gostring;
  registrant : gostring;
  publication : gostring;
  checkDigit : rune
}.

Inductive separator : Type := NoSep | Hyphen | Space.

Definition sepText (x : separator) : gostring :=
  match x with
  | NoSep => []
  | Hyphen => [chr "-"]
  | Space => [chr " "]
  end.

Definition isbn13Tail_written (i : isbn13) (s1 s2 s3 s4 : separator) : gostring :=
  sepText s1 ++ group i ++ sepText s2 ++ registrant i ++ sepText s3 ++
  publication i ++ sepText s4 ++ [checkDigit i].

Definition isbn13Written (i : isbn13) (s1 s2 s3 s4 : separator) : gostring :=
  chr "9" :: chr "7" :: prefixEnd i :: isbn13Tail_written i s1 s2 s3 s4.

(** The 13 digits. *)
Definition isbn13Digits (i : isbn13) : gostring := isbn13Written i NoSep NoSep NoSep NoSep.

Definition validIsbn13 (i : isbn13) : bool :=
  ((prefixEnd i =? chr "8")%N || (prefixEnd i =? chr "9")%N)
  && forallb isDigit (group i) && forallb isDigit (registrant i)
  && forallb isDigit (publication i) && isDigit (checkDigit i)
  && Nat.leb 1 (length (group i)) && Nat.leb (length (group i)) 5
  && Nat.leb 1 (length (registrant i)) && Nat.leb 1 (length (publication i))
  && Nat.eqb (length (group i) + length (registrant i) + length (publication i)) 9.

(** Text before an identifier: it holds no digit and does not end in a
    word character. *)
Definition quietBefore (pre : gostring) : bool :=
  negb (existsb isDigit pre) && negb (wordAt isWordRune (lastSymbol None pre)).

(** Text after an identifier: nothing; or a character that is neither a
    word character nor a separator; or one separator followed by nothing
    or by a character that is neither a digit nor a separator. *)
Definition quietAfter (post : gostring) : bool :=
  match post with
  | [] => true
  | c0 :: post' =>
      if isSep c0 then
        match post' with
        | [] => true
        | c1 :: _ => negb (isDigit c1) && negb (isSep c1)
        end
      else negb (isWordRune c0)
  end.

Definition sepPresent (x : separator) : bool :=
  match x with NoSep => false | _ => true end.

(** The classes of a written tail, and of what may follow it. *)
Definition sepShape (b : bool) : list cls := if b then [CSep] else [].

Definition isbn13Shape (g r p : nat) (b1 b2 b3 b4 : bool) (after : list cls) : list cls :=
  (sepShape b1 ++ repeat CDigit g ++ sepShape b2 ++ repeat CDigit r ++ sepShape b3 ++
   repeat CDigit p ++ sepShape b4 ++ [CDigit]) ++ after.

Definition afterShapes : list (list cls) :=
  [ []; [COther]; [CSep]; [CSep; CWord]; [CSep; COther] ].

Definition option_nat_eqb (a b : option nat) : bool :=
  match a, b with
  | Some x, Some y => Nat.eqb x y
  | None, None => true
  | _, _ => false
  end.

(** Every shape of a written tail, in every context of [afterShapes], is
    matched as a whole by the tail of the ISBN-13 pattern. *)
Definition isbn13ShapeOk (g r : nat) (b1 b2 b3 b4 : bool) (after : list cls) : bool :=
  option_nat_eqb
    (firstMatch clsWord (Seq isbn13TailC WordB) (Some CDigit)
       (isbn13Shape g r (9 - g - r) b1 b2 b3 b4 after))
    (Some (length after)).

Definition checkIsbn13Shapes : bool :=
  forallb (fun g => forallb (fun r =>
    Nat.leb 9 (g + r) ||
    forallb (fun b1 => forallb (fun b2 => forallb (fun b3 => forallb (fun b4 =>
      forallb (isbn13ShapeOk g r b1 b2 b3 b4) afterShapes)
      [true; false]) [true; false]) [true; false]) [true; false])
    (seq 1 7)) (seq 1 5).

(** The identifier of the first end-to-end scenario, by its elements. *)
Definition gatsbyIsbn : isbn13 :=
  mkIsbn13 (chr "8") (str "0") (str "7432") (str "7356") (chr "5").

(* ================================================================= *)
(** ** Author markers

    The markers of the specification: one of the tokens "by", "author:"
    and "written by" in any letter case, at a word boundary, followed by
    white space and a name, which is at least one character other than a
    comma or a line break. *)

Definition toLower (c : rune) : rune := if isUpper c then (c + 32)%N else c.

Definition eqFold (tok literal : gostring) : bool :=
  rune_eqb_list (map toLower tok) literal.

Definition isAuthorToken (tok : gostring) : bool :=
  eqFold tok (str "by") || eqFold tok (str "author:") || eqFold tok (str "written by").

Definition hasAuthorMarker (s : gostring) : Prop :=
  exists pre tok ws c rest,
    s = pre ++ tok ++ ws ++ c :: rest /\
    wordAt isWordRune (lastSymbol None pre) = false /\
    isAuthorToken tok = true /\
    ws <> [] /\ forallb isReSpace ws = true /\
    isNameRune c = true.

(* ================================================================= *)
(** ** Notions for the further properties *)

(** Number of decimal digits of a text. *)
Definition countDigits (s : gostring) : nat := length (filter isDigit s).

(** The title query of [ParseQuery]: [intitle:"..."]. *)
Definition titleQuery (s : gostring) : gostring := str "intitle:" ++ [dquote] ++ s ++ [dquote].

(** ** Written forms of an ISBN-10

    The elements of an ISBN-10: the registration group (1 to 5 digits),
    the registrant and the publication (9 digits together with the group)
    and the check digit; a written form puts nothing, a hyphen or a single
    space at each of the three boundaries. *)

Record isbn10 : Type := mkIsbn10 {
  group10 : gostring;
  registrant10 : gostring;
  publication10 : gostring;
  checkDigit10 : rune
}.

Definition isbn10Written (i : isbn10) (s1 s2 s3 : separator) : gostring :=
  group10 i ++ sepText s1 ++ registrant10 i ++ sepText s2 ++ publication10 i ++
  sepText s3 ++ [checkDigit10 i].

Definition isbn10Digits (i : isbn10) : gostring := isbn10Written i NoSep NoSep NoSep.

Definition validIsbn10 (i : isbn10) : bool :=
  forallb isDigit (group10 i) && forallb isDigit (registrant10 i)
  && forallb isDigit (publication10 i) && isDigit (checkDigit10 i)
  && Nat.leb 1 (length (group10 i)) && Nat.leb (length (group10 i)) 5
  && Nat.leb 1 (length (registrant10 i)) && Nat.leb 1 (length (publication10 i))
  && Nat.eqb (length (group10 i) + length (registrant10 i) + length (publication10 i)) 9.

Definition isbn10PatternC : re cls := Seq WordB (Seq isbn10BodyC WordB).

Definition isbn10Shape (g r p : nat) (b1 b2 b3 : bool) (after : list cls) : list cls :=
  (repeat CDigit g ++ sepShape b1 ++ repeat CDigit r ++ sepShape b2 ++
   repeat CDigit p ++ sepShape b3 ++ [CDigit]) ++ after.

(** The classes of a symbol before a word boundary that is not a word
    symbol. *)
Definition quietPrevs : list (option cls) := [None; Some CSep; Some COther].

Definition isbn10ShapeOk (prev : option cls) (g r : nat) (b1 b2 b3 : bool)
    (after : list cls) : bool :=
  option_nat_eqb
    (firstMatch clsWord isbn10PatternC prev (isbn10Shape g r (9 - g - r) b1 b2 b3 after))
    (Some (length after)).

Definition checkIsbn10Shapes : bool :=
  forallb (fun prev => forallb (fun g => forallb (fun r =>
    Nat.leb 9 (g + r) ||
    forallb (fun b1 => forallb (fun b2 => forallb (fun b3 =>
      forallb (isbn10ShapeOk prev g r b1 b2 b3) afterShapes)
      [true; false]) [true; false]) [true; false])
    (seq 1 7)) (seq 1 5)) quietPrevs.

(** The identifier of the second end-to-end scenario, by its elements. *)
Definition gatsbyIsbn10 : isbn10 :=
  mkIsbn10 (str "0") (str "7432") (str "7356") (chr "7").

(** The thumbnail that [volumeToBookResult] takes from a record: the
    primary one, the small one when that is empty, nothing without image
    links. *)
Definition preferredThumbnail (info : books.VolumeVolumeInfo) : gostring :=
  match books.ImageLinks info with
  | Some links =>
      if isEmpty (books.Thumbnail links) then books.SmallThumbnail links
      else books.Thumbnail links
  | None => []
  end.

(** A record with image links over http. *)
Definition coverInfo : books.VolumeVolumeInfo :=
  books.mkVolumeInfo (str "The Great Gatsby") [str "F. Scott Fitzgerald"] []
    (str "Scribner") (str "en") (str "2004")
    (Some (books.mkImageLinks [] (str "http://books.google.com/c?id=1&u=http://x"))).

Definition cover : books.Volume := books.mkVolume (str "ghi") (Some coverInfo).

Definition hasVolumeInfo (v : books.Volume) : bool := isSome (books.VolumeInfo v).

(** The result that [Search] builds for an item: its projection with the
    marshalled item attached. *)
Definition itemResult (marshal : books.Volume -> option gostring) (t : SearchType)
    (d : gostring) (v : books.Volume) (r : BookResult) : Prop :=
  exists r0, volumeToBookResult v t d = Some r0 /\
             r = setGoogleBooksData (marshal v) r0.

(** A service that answers every query with two items, the second
    without VolumeInfo. *)
Definition brokenService (q : gostring) : unit + list books.Volume :=
  inr [gatsby; bareVolume].

(** A service that answers every query with one record without
    identifiers. *)
Definition noIdentifierService (q : gostring) : unit + list books.Volume :=
  inr [noIdentifier].

(* ================================================================= *)
(** ** Written forms of a 13-digit group

    A group of 13 digits as printed on a book: a prefix of three digits
    followed by the elements of a 10-digit group (registration group,
    registrant, publication and check digit), with nothing, a hyphen or a
    single space at each of the four boundaries.  The prefix is invalid
    when it is neither 978 nor 979. *)

Definition invalidPrefix (p : gostring) : bool :=
  Nat.eqb (length p) 3 && forallb isDigit p
  && negb (rune_eqb_list p (str "978")) && negb (rune_eqb_list p (str "979")).

Definition group13Written (p : gostring) (i : isbn10) (s0 s1 s2 s3 : separator) : gostring :=
  p ++ sepText s0 ++ isbn10Written i s1 s2 s3.

(** The 13 digits. *)
Definition group13Digits (p : gostring) (i : isbn10) : gostring :=
  group13Written p i NoSep NoSep NoSep NoSep.

(** The written forms that end a word after the tenth digit in a way the
    ISBN-10 pattern can use: the publication has two digits, separators
    are written on both sides of the registrant, and a separator follows
    the prefix or the registration group has at least three digits. *)
Definition cutShape (g p : nat) (b0 b1 b2 : bool) : bool :=
  Nat.eqb p 2 && b1 && b2 && (b0 || Nat.leb 3 g).

Definition cutAfterTen (i : isbn10) (s0 s1 s2 : separator) : bool :=
  cutShape (length (group10 i)) (length (publication10 i))
    (sepPresent s0) (sepPresent s1) (sepPresent s2).

(** The characters of a written form. *)
Definition isWrittenRune (c : rune) : bool :=
  isDigit c || (c =? chr "-")%N || (c =? chr " ")%N.

(** The classes of a written group, the number of digits among classes,
    and the length of what the first match of the ISBN-10 pattern leaves
    of a written group of a given shape. *)
Definition countCls (s : list cls) : nat := length (filter clsDigit s).

Definition group13Shape (g r p : nat) (b0 b1 b2 b3 : bool) : list cls :=
  repeat CDigit 3 ++ sepShape b0 ++ isbn10Shape g r p b1 b2 b3 [].

Definition group13Left (g r p : nat) (b0 b1 b2 b3 : bool) : nat :=
  match firstMatch clsWord isbn10PatternC None (group13Shape g r p b0 b1 b2 b3) with
  | Some k => k
  | None => 0
  end.

(** In every quiet context the first match of the ISBN-10 pattern on a
    written group of a given shape ends at the same place inside the
    group, and it holds ten digits exactly for the shapes of [cutShape]. *)
Definition group13ShapeOk (prev : option cls) (g r : nat) (b0 b1 b2 b3 : bool)
    (after : list cls) : bool :=
  let w := group13Shape g r (9 - g - r) b0 b1 b2 b3 in
  let k := group13Left g r (9 - g - r) b0 b1 b2 b3 in
  option_nat_eqb (firstMatch clsWord isbn10PatternC prev (w ++ after))
    (Some (k + length after))
  && Nat.leb k (length w)
  && Bool.eqb (Nat.eqb (countCls (firstn (length w - k) w)) 10)
       (cutShape g (9 - g - r) b0 b1 b2).

Definition checkGroup13Shapes : bool :=
  forallb (fun prev => forallb (fun g => forallb (fun r =>
    Nat.leb 9 (g + r) ||
    forallb (fun b0 => forallb (fun b1 => forallb (fun b2 => forallb (fun b3 =>
      forallb (group13ShapeOk prev g r b0 b1 b2 b3) afterShapes)
      [true; false]) [true; false]) [true; false]) [true; false])
    (seq 1 7)) (seq 1 5)) quietPrevs.

(** The elements of the identifier of the scenarios after a prefix. *)
Definition gatsbyElements : isbn10 :=
  mkIsbn10 (str "0") (str "7432") (str "7356") (chr "5").

(* ================================================================= *)
(** * Properties *)

(* ================================================================= *)
(** ** Properties of the scorer *)

(** With [VolumeInfo] present the code computes the entry of its table
    times the completeness factor of the specification, operation by
    operation. *)
Lemma calculateConfidence_info (m : SearchType) (v : books.Volume)
    (info : books.VolumeVolumeInfo) :
  books.VolumeInfo v = Some info ->
  calculateConfidence m v =
  (mapIndex baseConfidence m * (0.7 + 0.3 * Spec.completeness info))%float.
Proof.
  intros Hinfo. unfold calculateConfidence. rewrite Hinfo.
  unfold Spec.completeness, Spec.signals, Spec.count.
  destruct info as [title authors ids publisher lang date links]; simpl.
  destruct title, authors, ids, publisher; reflexivity.
Qed.

Lemma calculateConfidence_nil (m : SearchType) (v : books.Volume) :
  books.VolumeInfo v = None ->
  calculateConfidence m v = mapIndex baseConfidence m.
Proof. intros Hnil. unfold calculateConfidence. now rewrite Hnil. Qed.

(** The five values of the completeness. *)
Lemma completeness_values (info : books.VolumeVolumeInfo) :
  In (Spec.completeness info) [0; 0.25; 0.5; 0.75; 1]%float.
Proof.
  unfold Spec.completeness, Spec.signals, Spec.count.
  destruct info as [title authors ids publisher lang date links]; simpl.
  destruct title, authors, ids, publisher; vm_compute; tauto.
Qed.

Lemma completeness_range (info : books.VolumeVolumeInfo) :
  (0 <=? Spec.completeness info)%float && (Spec.completeness info <=? 1)%float = true.
Proof.
  destruct (completeness_values info) as [<-|[<-|[<-|[<-|[<-|[]]]]]]; reflexivity.
Qed.

(** C1, as stated, fails: under mode General the code scores a complete
    record 0.70, the specification's table gives 0.50. *)
Lemma C1_counterexample :
  calculateConfidence SearchTypeGeneralQuery gatsby = 0.70%float /\
  Spec.Score SearchTypeGeneralQuery gatsbyInfo = 0.50%float /\
  calculateConfidence SearchTypeGeneralQuery gatsby <>
    Spec.Score SearchTypeGeneralQuery gatsbyInfo /\
  (calculateConfidence SearchTypeGeneralQuery gatsby =?
     Spec.Score SearchTypeGeneralQuery gatsbyInfo)%float = false.
Proof.
  assert (Hc : calculateConfidence SearchTypeGeneralQuery gatsby = 0.70%float)
    by (vm_compute; reflexivity).
  assert (Hs : Spec.Score SearchTypeGeneralQuery gatsbyInfo = 0.50%float)
    by (vm_compute; reflexivity).
  split; [exact Hc|]. split; [exact Hs|]. split.
  - rewrite Hc, Hs. intros H.
    assert (He : (0.70 =? 0.50)%float = true) by (rewrite H; reflexivity).
    vm_compute in He. discriminate He.
  - rewrite Hc, Hs. vm_compute. reflexivity.
Qed.

(** C1 (amended): for a record whose VolumeInfo is present, the confidence
    is [base * (0.7 + 0.3 * completeness)] evaluated as written with the
    operations of [float64], where completeness is the count of the four
    signals divided by 4 and the base is 0.95 for mode Identifier and 0.70
    for mode General. *)
Theorem C1_confidence_formula (v : books.Volume) (info : books.VolumeVolumeInfo) :
  books.VolumeInfo v = Some info ->
  calculateConfidence SearchTypeISBN v =
    (0.95 * (0.7 + 0.3 * Spec.completeness info))%float /\
  calculateConfidence SearchTypeGeneralQuery v =
    (0.70 * (0.7 + 0.3 * Spec.completeness info))%float.
Proof.
  intros Hinfo. split; rewrite (calculateConfidence_info _ v Hinfo); reflexivity.
Qed.

Lemma C1_confidence_formula_witness :
  calculateConfidence SearchTypeISBN gatsby =
    (0.95 * (0.7 + 0.3 * Spec.completeness gatsbyInfo))%float /\
  calculateConfidence SearchTypeGeneralQuery gatsby =
    (0.70 * (0.7 + 0.3 * Spec.completeness gatsbyInfo))%float.
Proof. apply (@C1_confidence_formula gatsby gatsbyInfo). reflexivity. Defined.

(** The scores of the two listed modes by the number of signals present:
    the values that the operations of [float64] give, which for some
    counts lie one unit in the last place below the exact product. *)
Lemma calculateConfidence_table (v : books.Volume) (info : books.VolumeVolumeInfo) :
  books.VolumeInfo v = Some info ->
  calculateConfidence SearchTypeISBN v =
    nth (Z.to_nat (Spec.count (Spec.signals info)))
      [0.66499999999999992; 0.73624999999999985; 0.8075; 0.87874999999999992;
       0.94999999999999996]%float 0%float /\
  calculateConfidence SearchTypeGeneralQuery v =
    nth (Z.to_nat (Spec.count (Spec.signals info)))
      [0.48999999999999994; 0.54249999999999987; 0.59499999999999997;
       0.64749999999999996; 0.69999999999999996]%float 0%float.
Proof.
  intros Hinfo. rewrite !(calculateConfidence_info _ v Hinfo).
  unfold Spec.completeness, Spec.signals, Spec.count.
  destruct info as [title authors ids publisher lang date links]; simpl.
  destruct title, authors, ids, publisher; vm_compute; split; reflexivity.
Qed.

Lemma mapIndex_unlisted (m : SearchType) :
  m = SearchTypeTitleAuthor \/ m = SearchTypeTitle ->
  mapIndex baseConfidence m = 0%float.
Proof. intros [-> | ->]; reflexivity. Qed.

Lemma calculateConfidence_unlisted (m : SearchType) (v : books.Volume) :
  m = SearchTypeTitleAuthor \/ m = SearchTypeTitle ->
  calculateConfidence m v = 0%float.
Proof.
  intros Hm. destruct (books.VolumeInfo v) as [info|] eqn:Hinfo.
  - rewrite (calculateConfidence_info m v Hinfo), (mapIndex_unlisted Hm).
    destruct (completeness_values info) as [<-|[<-|[<-|[<-|[<-|[]]]]]];
      vm_compute; reflexivity.
  - rewrite (calculateConfidence_nil m v Hinfo), (mapIndex_unlisted Hm). reflexivity.
Qed.

(** C2: the classifier returns the modes TitleAuthor and Title, the table
    of [calculateConfidence] has no entry for them, and every record then
    scores 0, below the interval [0.35, 0.95]. *)
Theorem C2_unlisted_modes_score_zero (v : books.Volume) :
  snd (fst (ParseQuery (str "The Great Gatsby by F. Scott Fitzgerald")))
    = SearchTypeTitleAuthor /\
  snd (fst (ParseQuery (str "The Great Gatsby"))) = SearchTypeTitle /\
  calculateConfidence SearchTypeTitleAuthor v = 0%float /\
  calculateConfidence SearchTypeTitle v = 0%float /\
  (0.35 <=? calculateConfidence SearchTypeTitleAuthor v)%float = false /\
  (0.35 <=? calculateConfidence SearchTypeTitle v)%float = false.
Proof.
  assert (Hta : calculateConfidence SearchTypeTitleAuthor v = 0%float)
    by (apply calculateConfidence_unlisted; now left).
  assert (Hti : calculateConfidence SearchTypeTitle v = 0%float)
    by (apply calculateConfidence_unlisted; now right).
  split; [vm_compute; reflexivity|].
  split; [vm_compute; reflexivity|].
  split; [assumption|]. split; [assumption|].
  split; [rewrite Hta | rewrite Hti]; vm_compute; reflexivity.
Qed.

(** For the two modes of the table the score stays in [0.35, 0.95]. *)
Lemma calculateConfidence_listed_range (m : SearchType) (v : books.Volume) :
  m = SearchTypeISBN \/ m = SearchTypeGeneralQuery ->
  (0.35 <=? calculateConfidence m v)%float
  && (calculateConfidence m v <=? 0.95)%float = true.
Proof.
  intros Hm. unfold calculateConfidence.
  destruct v as [id [[title authors ids publisher lang date links]|]]; simpl.
  - destruct Hm as [-> | ->]; destruct title, authors, ids, publisher;
      vm_compute; reflexivity.
  - destruct Hm as [-> | ->]; vm_compute; reflexivity.
Qed.

(** Rounding does not take the score out of the unit interval. *)
Lemma calculateConfidence_unit (m : SearchType) (v : books.Volume) :
  (0 <=? calculateConfidence m v)%float && (calculateConfidence m v <=? 1)%float = true.
Proof.
  unfold calculateConfidence.
  destruct v as [id [[title authors ids publisher lang date links]|]]; simpl.
  - destruct m, title, authors, ids, publisher; vm_compute; reflexivity.
  - destruct m; vm_compute; reflexivity.
Qed.

(** *** The projection *)

Lemma rune_eqb_list_eq (s t : gostring) : rune_eqb_list s t = true <-> s = t.
Proof.
  revert t. induction s as [|a s IH]; intros [|b t]; simpl; split;
    try discriminate; try reflexivity.
  - intros H. apply andb_true_iff in H as [Hab Hst].
    apply N.eqb_eq in Hab. apply IH in Hst. now subst.
  - intros H. injection H as -> ->. rewrite N.eqb_refl. simpl. now apply IH.
Qed.

(** The loop over the identifiers leaves in each ISBN slot the last entry
    of its type and touches nothing else. *)
Lemma fold_extractISBN (ids : list books.VolumeIndustryIdentifier) (r : BookResult) :
  fold_left extractISBN ids r =
  setISBN13 (lastOfType (str "ISBN_13") ids (ISBN13 r))
    (setISBN10 (lastOfType (str "ISBN_10") ids (ISBN10 r)) r).
Proof.
  revert r. induction ids as [|i ids IH]; intros r; simpl fold_left.
  - destruct r; reflexivity.
  - rewrite IH. unfold extractISBN. simpl lastOfType.
    destruct (rune_eqb_list (books.Type_ i) (str "ISBN_10")) eqn:H10.
    + assert (Hty : books.Type_ i = str "ISBN_10") by now apply rune_eqb_list_eq.
      rewrite Hty.
      change (rune_eqb_list (str "ISBN_10") (str "ISBN_13")) with false.
      destruct r; reflexivity.
    + destruct (rune_eqb_list (books.Type_ i) (str "ISBN_13")); destruct r; reflexivity.
Qed.

Section Projection.

Variables (v : books.Volume) (info : books.VolumeVolumeInfo).
Variables (t : SearchType) (d : gostring).
Hypothesis Hinfo : books.VolumeInfo v = Some info.

Lemma volumeToBookResult_info :
  volumeToBookResult v t d =
  Some (setConfidence (calculateConfidence t v)
          (setThumbnail info (setYear info (setLanguage (books.Language info)
             (setPublisher (books.Publisher info) (backfillISBN d (extractedResult v info t))))))).
Proof. unfold volumeToBookResult. rewrite Hinfo. reflexivity. Qed.

Lemma setThumbnail_fields (r : BookResult) :
  ISBN10 (setThumbnail info r) = ISBN10 r /\
  ISBN13 (setThumbnail info r) = ISBN13 r /\
  PublishedYear (setThumbnail info r) = PublishedYear r /\
  SearchType_ (setThumbnail info r) = SearchType_ r.
Proof.
  unfold setThumbnail. destruct (books.ImageLinks info) as [links|]; auto.
  destruct (isEmpty (books.Thumbnail links)), (isEmpty (books.SmallThumbnail links));
    simpl; auto.
Qed.

Lemma setYear_fields (r : BookResult) :
  ISBN10 (setYear info r) = ISBN10 r /\
  ISBN13 (setYear info r) = ISBN13 r /\
  SearchType_ (setYear info r) = SearchType_ r.
Proof. unfold setYear. destruct (isEmpty (books.PublishedDate info)); simpl; auto. Qed.

Lemma backfillISBN_SearchType (r : BookResult) :
  SearchType_ (backfillISBN d r) = SearchType_ r.
Proof.
  unfold backfillISBN.
  destruct (negb (isEmpty d) && isEmpty (ISBN10 r) && isEmpty (ISBN13 r)); auto.
  destruct (Nat.eqb (len d) 10); auto. destruct (Nat.eqb (len d) 13); auto.
Qed.

Lemma extracted_fields :
  ISBN10 (extractedResult v info t) = lastOfType (str "ISBN_10") (books.IndustryIdentifiers info) [] /\
  ISBN13 (extractedResult v info t) = lastOfType (str "ISBN_13") (books.IndustryIdentifiers info) [] /\
  SearchType_ (extractedResult v info t) = t.
Proof. unfold extractedResult. rewrite fold_extractISBN. simpl. auto. Qed.

(** What a projected record holds in the fields studied below. *)
Lemma volumeToBookResult_fields :
  exists r, volumeToBookResult v t d = Some r /\
    Confidence r = calculateConfidence t v /\
    SearchType_ r = t /\
    ISBN10 r = ISBN10 (backfillISBN d (extractedResult v info t)) /\
    ISBN13 r = ISBN13 (backfillISBN d (extractedResult v info t)) /\
    PublishedYear r =
      (if isEmpty (books.PublishedDate info) then 0%Z
       else extractYear (books.PublishedDate info)).
Proof.
  eexists. split; [apply volumeToBookResult_info|].
  repeat split.
  - simpl. destruct (setThumbnail_fields (setYear info (setLanguage (books.Language info)
      (setPublisher (books.Publisher info) (backfillISBN d (extractedResult v info t))))))
      as (_ & _ & _ & ->).
    destruct (setYear_fields (setLanguage (books.Language info)
      (setPublisher (books.Publisher info) (backfillISBN d (extractedResult v info t))))) as (_ & _ & ->).
    simpl. rewrite backfillISBN_SearchType. apply extracted_fields.
  - simpl. destruct (setThumbnail_fields (setYear info (setLanguage (books.Language info)
      (setPublisher (books.Publisher info) (backfillISBN d (extractedResult v info t))))))
      as (-> & _).
    destruct (setYear_fields (setLanguage (books.Language info)
      (setPublisher (books.Publisher info) (backfillISBN d (extractedResult v info t))))) as (-> & _).
    reflexivity.
  - simpl. destruct (setThumbnail_fields (setYear info (setLanguage (books.Language info)
      (setPublisher (books.Publisher info) (backfillISBN d (extractedResult v info t))))))
      as (_ & -> & _).
    destruct (setYear_fields (setLanguage (books.Language info)
      (setPublisher (books.Publisher info) (backfillISBN d (extractedResult v info t))))) as (_ & -> & _).
    reflexivity.
  - simpl. destruct (setThumbnail_fields (setYear info (setLanguage (books.Language info)
      (setPublisher (books.Publisher info) (backfillISBN d (extractedResult v info t))))))
      as (_ & _ & -> & _).
    unfold setYear. destruct (isEmpty (books.PublishedDate info)); simpl; [|reflexivity].
    unfold backfillISBN.
    destruct (negb (isEmpty d) && isEmpty (ISBN10 (extractedResult v info t)) && isEmpty (ISBN13 (extractedResult v info t)));
      [destruct (Nat.eqb (len d) 10); [|destruct (Nat.eqb (len d) 13)]|]; simpl;
      unfold extractedResult; rewrite fold_extractISBN; reflexivity.
Qed.

End Projection.

(** *** Identifier back-fill *)

(** C5, as stated, fails: the record lists only the ISBN-13 of another
    edition, the detected identifier is not in its list, and the ISBN-13
    slot keeps the record's value. *)
Lemma C5_counterexample :
  detected13 <> [] /\ len detected13 = 13%nat /\
  ~ In detected13 (map books.Identifier (books.IndustryIdentifiers otherEditionInfo)) /\
  exists r, volumeToBookResult otherEdition SearchTypeISBN detected13 = Some r /\
            ISBN13 r = str "9780000000002" /\ ISBN13 r <> detected13 /\
            ISBN10 r <> detected13.
Proof.
  split; [discriminate|]. split; [reflexivity|]. split.
  - simpl. intros [H | []]. discriminate H.
  - eexists. split; [reflexivity|]. simpl. repeat split; discriminate.
Qed.

(** C5 (amended): for a record with VolumeInfo and a non-empty detected
    identifier, when the record's identifier list leaves both ISBN slots
    empty the detected identifier is written to the ISBN-10 slot if its
    length is 10 and to the ISBN-13 slot if its length is 13; when the
    list fills one of the slots, both slots keep the record's values. *)
Theorem C5_backfill (v : books.Volume) (info : books.VolumeVolumeInfo)
    (t : SearchType) (d : gostring) :
  books.VolumeInfo v = Some info ->
  d <> [] ->
  let own10 := lastOfType (str "ISBN_10") (books.IndustryIdentifiers info) [] in
  let own13 := lastOfType (str "ISBN_13") (books.IndustryIdentifiers info) [] in
  exists r, volumeToBookResult v t d = Some r /\
    (own10 = [] -> own13 = [] -> len d = 10%nat -> ISBN10 r = d /\ ISBN13 r = []) /\
    (own10 = [] -> own13 = [] -> len d = 13%nat -> ISBN13 r = d /\ ISBN10 r = []) /\
    (own10 <> [] \/ own13 <> [] -> ISBN10 r = own10 /\ ISBN13 r = own13).
Proof.
  intros Hinfo Hd own10 own13.
  destruct (@volumeToBookResult_fields v info t d Hinfo) as (r & Hr & _ & _ & H10 & H13 & _).
  destruct (@extracted_fields v info t) as (E10 & E13 & _).
  fold own10 in E10. fold own13 in E13.
  exists r. split; [exact Hr|].
  rewrite H10, H13. unfold backfillISBN. rewrite E10, E13.
  assert (Hne : negb (isEmpty d) = true) by (destruct d; [contradiction|reflexivity]).
  rewrite Hne. simpl andb.
  split; [|split].
  - intros O10 O13 Hlen. rewrite O10, O13, Hlen. simpl. now rewrite E13, O13.
  - intros O10 O13 Hlen. rewrite O10, O13, Hlen. simpl. now rewrite E10, O10.
  - intros Hown.
    assert (Hguard : isEmpty own10 && isEmpty own13 = false).
    { destruct own10; [destruct own13; [destruct Hown; contradiction|]|]; reflexivity. }
    rewrite Hguard. auto.
Qed.

Lemma C5_backfill_witness :
  exists r, volumeToBookResult noIdentifier SearchTypeISBN detected13 = Some r /\
            ISBN13 r = detected13 /\ ISBN10 r = [].
Proof.
  destruct (@C5_backfill noIdentifier noIdentifierInfo SearchTypeISBN detected13)
    as (r & Hr & _ & H13 & _).
  - reflexivity.
  - discriminate.
  - exists r. split; [exact Hr|]. apply H13; reflexivity.
Defined.

(** *** Published year *)

Lemma digitsValue_spec (s : gostring) : forall acc n,
  (0 <= acc)%Z -> digitsValue acc s = Some n ->
  forallb isDigit s = true /\ (0 <= n)%Z.
Proof.
  induction s as [|c s IH]; intros acc n Hacc H; simpl in *.
  - injection H as <-. auto.
  - destruct (isDigit c); [|discriminate]. simpl. eapply IH; [|exact H].
    pose proof (N2Z.is_nonneg (c - 48)). lia.
Qed.

Lemma SplitHead_id (sep : rune) (s : gostring) :
  forallb (fun c => negb (c =? sep)%N) s = true -> SplitHead sep s = s.
Proof.
  induction s as [|c s IH]; simpl; [reflexivity|].
  intros H. apply andb_true_iff in H as [Hc Hs].
  destruct (c =? sep)%N; [discriminate|]. now rewrite IH.
Qed.

Lemma digits_no_hyphen (s : gostring) :
  forallb isDigit s = true -> forallb (fun c => negb (c =? chr "-")%N) s = true.
Proof.
  induction s as [|c s IH]; simpl; [reflexivity|].
  intros H. apply andb_true_iff in H as [Hc Hs].
  apply andb_true_iff. split; [|now apply IH].
  unfold isDigit in Hc. apply andb_true_iff in Hc as [Hlo _].
  apply N.leb_le in Hlo. apply negb_true_iff, N.eqb_neq. lia.
Qed.

(** A date that parses as a whole to an accepted year holds no hyphen. *)
Lemma accepted_no_hyphen (s : gostring) (y : Z) :
  acceptYear (Atoi s) = Some y -> SplitHead (chr "-") s = s.
Proof.
  unfold acceptYear, Atoi. intros H.
  destruct s as [|c s]; [discriminate|].
  change (chr "-") with 45%N in *. change (chr "+") with 43%N in *.
  destruct (c =? 45)%N eqn:Hminus.
  - destruct s as [|c' s']; [discriminate|].
    destruct (digitsValue 0 (c' :: s')) as [n|] eqn:Hn; [|discriminate].
    destruct (digitsValue_spec _ (Z.le_refl 0) Hn) as [_ Hpos].
    destruct ((- 2 ^ 63 <=? - n) && (- n <=? 2 ^ 63 - 1))%Z; [|discriminate].
    destruct (1000 <? - n)%Z eqn:Hlt; [|discriminate].
    apply Z.ltb_lt in Hlt. lia.
  - destruct (c =? 43)%N eqn:Hplus.
    + destruct s as [|c' s']; [discriminate|].
      destruct (digitsValue 0 (c' :: s')) as [n|] eqn:Hn; [|discriminate].
      destruct (digitsValue_spec _ (Z.le_refl 0) Hn) as [Hdig _].
      apply SplitHead_id. simpl forallb at 1. rewrite Hminus. simpl.
      apply (digits_no_hyphen _ Hdig).
    + destruct (digitsValue 0 (c :: s)) as [n|] eqn:Hn; [|discriminate].
      destruct (digitsValue_spec _ (Z.le_refl 0) Hn) as [Hdig _].
      apply SplitHead_id, digits_no_hyphen, Hdig.
Qed.

(** [extractYear] reads the leading token only. *)
Lemma extractYear_token (dateStr : gostring) :
  extractYear dateStr =
  match yearToken dateStr with
  | Some y => if validYear y then y else 0%Z
  | None => 0%Z
  end.
Proof.
  unfold extractYear, yearToken.
  destruct (acceptYear (Atoi dateStr)) as [y|] eqn:Hwhole.
  - rewrite (accepted_no_hyphen _ Hwhole).
    unfold acceptYear in Hwhole. destruct (Atoi dateStr) as [y'|]; [|discriminate].
    unfold validYear. destruct ((1000 <? y') && (y' <? 3000))%Z; [|discriminate].
    now injection Hwhole as ->.
  - unfold acceptYear, validYear.
    destruct (Atoi (SplitHead (chr "-") dateStr)) as [y'|]; [|reflexivity].
    destruct ((1000 <? y') && (y' <? 3000))%Z; reflexivity.
Qed.

(** C7, as stated, fails in both directions.  The date [2004/09/30]
    begins with the number 2004, a year in the range, and the projected
    year is 0, because the code cuts the date at its first hyphen and
    reads all of what comes before it.  The date [+2004-01-01] begins
    with no digit, and the projected year is 2004, because [strconv.Atoi]
    accepts a sign. *)
Lemma C7_counterexample :
  Spec.leadingDigits (str "2004/09/30") = str "2004" /\
  Spec.publishedYear (str "2004/09/30") = 2004%Z /\
  (exists r, volumeToBookResult (datedVolume (str "2004/09/30")) SearchTypeGeneralQuery []
             = Some r /\
             PublishedYear r = 0%Z /\
             PublishedYear r <> Spec.publishedYear (str "2004/09/30")) /\
  Spec.leadingDigits (str "+2004-01-01") = [] /\
  Spec.publishedYear (str "+2004-01-01") = 0%Z /\
  (exists r, volumeToBookResult (datedVolume (str "+2004-01-01")) SearchTypeGeneralQuery []
             = Some r /\
             PublishedYear r = 2004%Z /\
             PublishedYear r <> Spec.publishedYear (str "+2004-01-01")).
Proof.
  split; [reflexivity|]. split; [reflexivity|]. split.
  - eexists. split; [reflexivity|]. split; [reflexivity|]. discriminate.
  - split; [reflexivity|]. split; [reflexivity|].
    eexists. split; [reflexivity|]. split; [reflexivity|]. discriminate.
Qed.

(** C7 (amended): projection of a record with VolumeInfo does not fail
    whatever its date, and the published year is decided by the text
    before the first hyphen of the date (the whole date when it has no
    hyphen): when [strconv.Atoi] reads that text as a number, which takes
    an optional sign followed by decimal digits and nothing else, and the
    number lies strictly between 1000 and 3000, the year is that number;
    in every other case, the empty date included, the year is 0. *)
Theorem C7_published_year (v : books.Volume) (info : books.VolumeVolumeInfo)
    (t : SearchType) (d : gostring) :
  books.VolumeInfo v = Some info ->
  exists r, volumeToBookResult v t d = Some r /\
    PublishedYear r =
      match yearToken (books.PublishedDate info) with
      | Some y => if validYear y then y else 0%Z
      | None => 0%Z
      end.
Proof.
  intros Hinfo.
  destruct (@volumeToBookResult_fields v info t d Hinfo) as (r & Hr & _ & _ & _ & _ & Hy).
  exists r. split; [exact Hr|]. rewrite Hy.
  destruct (books.PublishedDate info) as [|c s] eqn:Hdate; [reflexivity|].
  simpl isEmpty. cbv iota. apply extractYear_token.
Qed.

Lemma C7_published_year_witness :
  exists r, volumeToBookResult gatsby SearchTypeISBN detected13 = Some r /\
            PublishedYear r = 2004%Z.
Proof.
  destruct (@C7_published_year gatsby gatsbyInfo SearchTypeISBN detected13 eq_refl)
    as (r & Hr & Hy).
  exists r. split; [exact Hr|]. rewrite Hy. reflexivity.
Defined.

(** *** Invariant of the results *)

Lemma volumeToBookResult_invariant (v : books.Volume) (t : SearchType)
    (d : gostring) (r : BookResult) :
  volumeToBookResult v t d = Some r ->
  (0 <=? Confidence r)%float && (Confidence r <=? 1)%float = true /\
  SearchType_ r = t.
Proof.
  intros Hr. destruct (books.VolumeInfo v) as [info|] eqn:Hinfo.
  - destruct (@volumeToBookResult_fields v info t d Hinfo) as (r' & Hr' & Hc & Ht & _).
    rewrite Hr in Hr'. injection Hr' as <-. rewrite Hc, Ht.
    split; [apply calculateConfidence_unit | reflexivity].
  - unfold volumeToBookResult in Hr. rewrite Hinfo in Hr. discriminate.
Qed.

Lemma convertItems_invariant (marshal : books.Volume -> option gostring)
    (P : BookResult -> Prop) (t : SearchType) (d : gostring)
    (HP : forall v r, volumeToBookResult v t d = Some r ->
                      P (setGoogleBooksData (marshal v) r))
    (items : list books.Volume) : forall acc results,
  convertItems marshal items t d acc = Some results ->
  Forall P acc -> Forall P results.
Proof.
  induction items as [|v items IH]; intros acc results H Hacc; simpl in H.
  - now injection H as <-.
  - destruct (volumeToBookResult v t d) as [r|] eqn:Hr; [|discriminate].
    apply (IH _ _ H). apply Forall_app. split; [exact Hacc|].
    constructor; [|constructor]. now apply HP.
Qed.

(** C8: every BookResult returned by [Search] has a confidence in [0,1]
    and carries the search type that [ParseQuery] chose for the query. *)
Theorem C8_result_invariant (E : Type) (service : gostring -> E + list books.Volume)
    (marshal : books.Volume -> option gostring) (query : gostring)
    (results : list BookResult) :
  Search service marshal query = Returns E results ->
  Forall (fun r => (0 <=? Confidence r)%float && (Confidence r <=? 1)%float = true /\
                   SearchType_ r = snd (fst (ParseQuery query))) results.
Proof.
  unfold Search. destruct (isEmpty query); [discriminate|].
  destruct (ParseQuery query) as [[q t] d]. simpl.
  destruct (service q) as [err|items]; [discriminate|].
  destruct (convertItems marshal items t d []) as [rs|] eqn:Hrs; [|discriminate].
  intros H. injection H as <-.
  refine (@convertItems_invariant marshal _ t d _ items [] rs Hrs (Forall_nil _)).
  intros v r Hr. destruct (volumeToBookResult_invariant _ _ _ Hr) as [Hc Ht].
  destruct r; simpl in *. auto.
Qed.

Lemma C8_result_invariant_witness :
  Forall (fun r => (0 <=? Confidence r)%float && (Confidence r <=? 1)%float = true /\
                   SearchType_ r = SearchTypeISBN)
    (match Search oneVolumeService noMarshal detected13 with
     | Returns _ results => results
     | _ => []
     end).
Proof.
  exact (@C8_result_invariant unit oneVolumeService noMarshal detected13 _ eq_refl).
Defined.

(** *** Blank queries *)

Lemma TrimLeft_spaces (s : gostring) :
  Forall (fun c => IsSpace c = true) s -> TrimLeft s = [].
Proof. induction 1 as [|c s Hc _ IH]; simpl; [reflexivity|]. now rewrite Hc. Qed.

Lemma TrimSpace_spaces (s : gostring) :
  Forall (fun c => IsSpace c = true) s -> TrimSpace s = [].
Proof. intros H. unfold TrimSpace. now rewrite (TrimLeft_spaces H). Qed.

(** C9: a non-empty query made of white space only passes the empty-query
    check of [Search]; [ParseQuery] trims it to the empty string and
    returns mode Title with the query [intitle:""], which is what the
    service is asked. *)
Theorem C9_blank_query (E : Type) (service : gostring -> E + list books.Volume)
    (marshal : books.Volume -> option gostring) (query : gostring) :
  query <> [] ->
  Forall (fun c => IsSpace c = true) query ->
  ParseQuery query = (emptyTitleQuery, SearchTypeTitle, []) /\
  Search service marshal query <> Fails (errorsNew E (str "query cannot be empty")) /\
  Search service marshal query =
    match service emptyTitleQuery with
    | inl err => Fails (serviceError err)
    | inr items =>
        match convertItems marshal items SearchTypeTitle [] [] with
        | Some results => Returns E results
        | None => Panics E
        end
    end.
Proof.
  intros Hne Hsp.
  assert (HP : ParseQuery query = (emptyTitleQuery, SearchTypeTitle, [])).
  { unfold ParseQuery. rewrite (TrimSpace_spaces Hsp). reflexivity. }
  assert (HS : Search service marshal query =
    match service emptyTitleQuery with
    | inl err => Fails (serviceError err)
    | inr items =>
        match convertItems marshal items SearchTypeTitle [] [] with
        | Some results => Returns E results
        | None => Panics E
        end
    end).
  { unfold Search. rewrite HP. destruct query; [contradiction|reflexivity]. }
  split; [exact HP|]. split; [|exact HS].
  rewrite HS. destruct (service emptyTitleQuery) as [err|items]; [discriminate|].
  destruct (convertItems marshal items SearchTypeTitle [] []); discriminate.
Qed.

Lemma C9_blank_query_witness :
  ParseQuery (str "   ") = (emptyTitleQuery, SearchTypeTitle, []) /\
  Search oneVolumeService noMarshal (str "   ")
    <> Fails (errorsNew unit (str "query cannot be empty")).
Proof.
  destruct (@C9_blank_query unit oneVolumeService noMarshal (str "   ")) as (HP & HS & _).
  - discriminate.
  - repeat constructor.
  - split; assumption.
Defined.

(** *** Nil VolumeInfo *)

(** C10: [volumeToBookResult] fails exactly on the volumes without
    VolumeInfo; on those [calculateConfidence] returns the bare entry of
    its table; with VolumeInfo present the projection succeeds and the
    confidence is the entry times [0.7 + 0.3 * completeness], evaluated
    with the operations of [float64]. *)
Theorem C10_projection_needs_VolumeInfo (v : books.Volume) (t : SearchType)
    (d : gostring) :
  (volumeToBookResult v t d = None <-> books.VolumeInfo v = None) /\
  match books.VolumeInfo v with
  | None =>
      volumeToBookResult v t d = None /\
      calculateConfidence t v = mapIndex baseConfidence t
  | Some info =>
      exists r, volumeToBookResult v t d = Some r /\
        Confidence r =
        (mapIndex baseConfidence t * (0.7 + 0.3 * Spec.completeness info))%float
  end.
Proof.
  destruct (books.VolumeInfo v) as [info|] eqn:Hinfo.
  - destruct (@volumeToBookResult_fields v info t d Hinfo) as (r & Hr & Hc & _).
    split.
    + rewrite Hr. split; discriminate.
    + exists r. split; [exact Hr|]. rewrite Hc. now apply calculateConfidence_info.
  - assert (Hnone : volumeToBookResult v t d = None)
      by (unfold volumeToBookResult; now rewrite Hinfo).
    split; [tauto|]. split; [exact Hnone|]. now apply calculateConfidence_nil.
Qed.

(* ================================================================= *)
(** ** Facts about the matcher *)

Section RegexpFacts.

Variable A : Type.
Variable isWord : A -> bool.

Lemma lastSymbol_cons (prev : option A) (c : A) (pre : list A) :
  lastSymbol prev (c :: pre) = lastSymbol (Some c) pre.
Proof. reflexivity. Qed.

Lemma ms_Seq_in (r1 r2 : re A) (prev : option A) (s : list A) (x y : mstate A) :
  In x (ms isWord r1 prev s) -> In y (ms isWord r2 (fst x) (snd x)) ->
  In y (ms isWord (Seq r1 r2) prev s).
Proof. intros Hx Hy. simpl. apply in_flat_map. now exists x. Qed.

(** A match somewhere in the text makes [find] succeed. *)
Lemma find_some (r : re A) (pre : list A) : forall prev s,
  ms isWord r (lastSymbol prev pre) s <> [] -> find isWord r prev (pre ++ s) <> None.
Proof.
  induction pre as [|c pre IH]; intros prev s Hm.
  - simpl in *. destruct s; simpl; destruct (ms isWord r prev _); congruence.
  - simpl app. simpl find. destruct (ms isWord r prev (c :: pre ++ s)); [|discriminate].
    apply IH. exact Hm.
Qed.

(** [find] passes over a stretch of text where no match starts. *)
Lemma find_skip (r : re A) (pre : list A) :
  (forall c, In c pre -> forall prev s, ms isWord r prev (c :: s) = []) ->
  forall prev s, find isWord r prev (pre ++ s) = find isWord r (lastSymbol prev pre) s.
Proof.
  induction pre as [|c pre IH]; intros Hpre prev s; [reflexivity|].
  simpl app. rewrite lastSymbol_cons, <- IH by (intros; apply Hpre; now right).
  destruct s; simpl; rewrite (Hpre c (or_introl eq_refl)); reflexivity.
Qed.

(** The match found at the start of the text. *)
Lemma find_first (r : re A) (prev : option A) (s : list A) (k : nat) :
  firstMatch isWord r prev s = Some k ->
  find isWord r prev s = Some (firstn (length s - k) s).
Proof.
  unfold firstMatch. destruct s; simpl; destruct (ms isWord r prev _);
    try discriminate; intros H; injection H as <-; reflexivity.
Qed.

(** No match starts inside a run of word symbols when the pattern begins
    with a word boundary and needs a symbol. *)
Lemma find_inside_word (r : re A) (s : list A) : forall c,
  (forall prev, ms isWord r prev [] = []) ->
  isWord c = true -> forallb isWord s = true ->
  find isWord (Seq WordB r) (Some c) s = None.
Proof.
  induction s as [|d s IH]; intros c Hnil Hc Hs; simpl.
  - unfold boundary. simpl. rewrite Hc. simpl. now rewrite Hnil.
  - apply andb_true_iff in Hs as [Hd Hs].
    unfold boundary. simpl. rewrite Hc, Hd. simpl. now apply IH.
Qed.

(** *** Text after a symbol that the pattern rejects *)

Lemma flat_map_tail (c : A) (g : mstate A -> list (mstate A)) (L1 : list (mstate A)) :
  (forall x, exists L, forall rest,
      g (ext (c :: rest) x) = map (ext (c :: rest)) L) ->
  exists L, forall rest,
      flat_map g (map (ext (c :: rest)) L1) = map (ext (c :: rest)) L.
Proof.
  intros Hg. induction L1 as [|x L1 [L IH]].
  - exists []. reflexivity.
  - destruct (Hg x) as [Lx Hx]. exists (Lx ++ L). intros rest.
    simpl. now rewrite Hx, IH, map_app.
Qed.

Lemma rep_tail (c : A) (step : option A -> list A -> list (mstate A)) :
  (forall prev u, exists L, forall rest,
      step prev (u ++ c :: rest) = map (ext (c :: rest)) L) ->
  forall hi lo prev u, exists L, forall rest,
      rep step lo hi prev (u ++ c :: rest) = map (ext (c :: rest)) L.
Proof.
  intros Hstep. induction hi as [|hi IH]; intros lo prev u; simpl.
  - destruct (Nat.eqb lo 0); [exists [(prev, u)] | exists []]; reflexivity.
  - destruct (Hstep prev u) as [L1 H1].
    destruct (@flat_map_tail c (fun x => rep step (pred lo) hi (fst x) (snd x)) L1)
      as [L2 H2].
    { intros x. destruct (IH (pred lo) (fst x) (snd x)) as [L HL].
      exists L. intros rest. apply HL. }
    exists (L2 ++ (if Nat.eqb lo 0 then [(prev, u)] else [])).
    intros rest. rewrite H1, H2, map_app. destruct (Nat.eqb lo 0); reflexivity.
Qed.

Lemma ms_tail (c : A) (r : re A) :
  rejects r c ->
  forall prev u, exists L, forall rest,
      ms isWord r prev (u ++ c :: rest) = map (ext (c :: rest)) L.
Proof.
  induction r as [p| |r1 IH1 r2 IH2|r1 IH1 r2 IH2|r IH lo hi|r IH]; simpl; intros Hrej prev u.
  - destruct u as [|a u]; simpl.
    + rewrite Hrej. exists []. reflexivity.
    + destruct (p a); [exists [(Some a, u)] | exists []]; reflexivity.
  - assert (Hb : forall rest, boundary isWord prev (u ++ c :: rest)
                              = boundary isWord prev (u ++ [c]))
      by (intros rest; destruct u; reflexivity).
    destruct (boundary isWord prev (u ++ [c])) eqn:Hbd;
      [exists [(prev, u)] | exists []]; intros rest; rewrite Hb; reflexivity.
  - destruct Hrej as [Hr1 Hr2]. destruct (IH1 Hr1 prev u) as [L1 H1].
    destruct (@flat_map_tail c (fun x => ms isWord r2 (fst x) (snd x)) L1) as [L2 H2].
    { intros x. destruct (IH2 Hr2 (fst x) (snd x)) as [L HL]. exists L. apply HL. }
    exists L2. intros rest. now rewrite H1, H2.
  - destruct Hrej as [Hr1 Hr2].
    destruct (IH1 Hr1 prev u) as [L1 H1], (IH2 Hr2 prev u) as [L2 H2].
    exists (L1 ++ L2). intros rest. now rewrite H1, H2, map_app.
  - apply rep_tail. intros prev' u'. apply (IH Hrej).
  - contradiction.
Qed.

(** What follows a rejected symbol does not change the first match. *)
Lemma firstMatch_tail (c : A) (r : re A) (prev : option A) (u rest : list A) :
  rejects r c ->
  firstMatch isWord r prev (u ++ c :: rest) =
  option_map (fun k => (k + length rest)%nat) (firstMatch isWord r prev (u ++ [c])).
Proof.
  intros Hrej. destruct (ms_tail c r Hrej prev u) as [L HL].
  unfold firstMatch. rewrite (HL rest), (HL []).
  destruct L as [|x L]; simpl; [reflexivity|].
  rewrite !length_app. simpl. f_equal. lia.
Qed.

End RegexpFacts.

(** *** Reading a pattern through a map of the alphabet *)

Section RegexpMap.

Variables A B : Type.
Variable f : A -> B.
Variable isWordA : A -> bool.
Variable isWordB : B -> bool.
Hypothesis isWord_f : forall a, isWordA a = isWordB (f a).

Lemma boundary_map (prev : option A) (s : list A) :
  boundary isWordB (option_map f prev) (map f s) = boundary isWordA prev s.
Proof.
  unfold boundary. destruct prev as [a|], s as [|b s]; simpl;
    rewrite <- ?isWord_f; reflexivity.
Qed.

Lemma flat_map_mapState (g : mstate A -> list (mstate A))
    (g' : mstate B -> list (mstate B)) (L : list (mstate A)) :
  (forall x, g' (mapState f x) = map (mapState f) (g x)) ->
  flat_map g' (map (mapState f) L) = map (mapState f) (flat_map g L).
Proof.
  intros Hg. induction L as [|x L IH]; simpl; [reflexivity|].
  now rewrite Hg, IH, map_app.
Qed.

Lemma rep_map (step : option A -> list A -> list (mstate A))
    (step' : option B -> list B -> list (mstate B)) :
  (forall prev s, step' (option_map f prev) (map f s) = map (mapState f) (step prev s)) ->
  forall hi lo prev s,
    rep step' lo hi (option_map f prev) (map f s) =
    map (mapState f) (rep step lo hi prev s).
Proof.
  intros Hstep. induction hi as [|hi IH]; intros lo prev s; simpl.
  - destruct (Nat.eqb lo 0); reflexivity.
  - rewrite Hstep, map_app.
    rewrite (@flat_map_mapState (fun x => rep step (pred lo) hi (fst x) (snd x))).
    + destruct (Nat.eqb lo 0); reflexivity.
    + intros x. apply IH.
Qed.

Lemma ms_map (r : re A) : forall (r' : re B), sim f r r' ->
  forall prev s,
    ms isWordB r' (option_map f prev) (map f s) = map (mapState f) (ms isWordA r prev s).
Proof.
  induction r as [p| |r1 IH1 r2 IH2|r1 IH1 r2 IH2|r IH lo hi|r IH];
    intros [p'| |r1' r2'|r1' r2'|r' lo' hi'|r'] Hsim prev s; simpl in Hsim;
    try contradiction; simpl.
  - destruct s as [|a s]; simpl; [reflexivity|].
    rewrite <- Hsim. destruct (p a); reflexivity.
  - rewrite boundary_map. destruct (boundary isWordA prev s); reflexivity.
  - destruct Hsim as [H1 H2]. rewrite (IH1 _ H1).
    apply flat_map_mapState. intros x. apply (IH2 _ H2).
  - destruct Hsim as [H1 H2]. now rewrite (IH1 _ H1), (IH2 _ H2), map_app.
  - destruct Hsim as (H & <- & <-). apply rep_map. apply (IH _ H).
  - rewrite length_map. apply rep_map. apply (IH _ Hsim).
Qed.

Lemma firstMatch_map (r : re A) (r' : re B) (prev : option A) (s : list A) :
  sim f r r' ->
  firstMatch isWordA r prev s = firstMatch isWordB r' (option_map f prev) (map f s).
Proof.
  intros Hsim. unfold firstMatch. rewrite (ms_map _ _ Hsim).
  destruct (ms isWordA r prev s) as [|x L]; simpl; [reflexivity|].
  now rewrite length_map.
Qed.

End RegexpMap.

(* ================================================================= *)
(** ** The ISBN-13 step *)

Lemma checkIsbn13Shapes_true : checkIsbn13Shapes = true.
Proof. vm_compute. reflexivity. Qed.

Ltac split_comparisons :=
  repeat match goal with
  | |- context [(?a =? ?b)%N] => destruct (N.eqb_spec a b)
  | |- context [(?a <=? ?b)%N] => destruct (N.leb_spec a b)
  end.

Lemma classify_digit (c : rune) : isDigit c = clsDigit (classify c).
Proof.
  unfold classify. destruct (isDigit c); [reflexivity|].
  destruct (isSep c); [reflexivity|]. destruct (isWordRune c); reflexivity.
Qed.

Lemma digit_not_sep (c : rune) : isDigit c = true -> isSep c = false.
Proof.
  unfold isDigit, isSep, isHyphen, isReSpace. intros H.
  apply andb_true_iff in H as [Hlo Hhi]. apply N.leb_le in Hlo, Hhi.
  split_comparisons; simpl; try reflexivity; lia.
Qed.

Lemma digit_word (c : rune) : isDigit c = true -> isWordRune c = true.
Proof. unfold isWordRune. now intros ->. Qed.

Lemma sep_not_word (c : rune) : isSep c = true -> isWordRune c = false.
Proof.
  unfold isSep, isHyphen, isReSpace, isWordRune, isDigit, isUpper, isLower. intros H.
  repeat (apply orb_true_iff in H as [H|H]); apply N.eqb_eq in H; subst c; reflexivity.
Qed.

Lemma classify_sep (c : rune) : isSep c = clsSep (classify c).
Proof.
  unfold classify. destruct (isDigit c) eqn:Hd; [now rewrite digit_not_sep|].
  destruct (isSep c); [reflexivity|]. destruct (isWordRune c); reflexivity.
Qed.

Lemma classify_word (c : rune) : isWordRune c = clsWord (classify c).
Proof.
  unfold classify. destruct (isDigit c) eqn:Hd; [now rewrite digit_word|].
  destruct (isSep c) eqn:Hs; [now rewrite sep_not_word|].
  destruct (isWordRune c); reflexivity.
Qed.

Lemma sim_isbn13Tail : sim classify (Seq isbn13Tail WordB) (Seq isbn13TailC WordB).
Proof.
  simpl. repeat split; intros a; first [apply classify_digit | apply classify_sep].
Qed.

Lemma sim_isbn10Pattern :
  sim classify isbn10Pattern (Seq WordB (Seq isbn10BodyC WordB)).
Proof.
  simpl. repeat split; intros a; first [apply classify_digit | apply classify_sep].
Qed.

(** The first match of a pattern over runes, computed over classes. *)
Lemma firstMatch_classify (r : re rune) (r' : re cls) (prev : option rune) (s : gostring) :
  sim classify r r' ->
  firstMatch isWordRune r prev s =
  firstMatch clsWord r' (option_map classify prev) (map classify s).
Proof. apply firstMatch_map. exact classify_word. Qed.

Lemma classify_digits (s : gostring) :
  forallb isDigit s = true -> map classify s = repeat CDigit (length s).
Proof.
  induction s as [|c s IH]; simpl; [reflexivity|].
  intros H. apply andb_true_iff in H as [Hc Hs].
  rewrite (IH Hs). unfold classify. now rewrite Hc.
Qed.

Lemma classify_sepText (x : separator) :
  map classify (sepText x) = sepShape (sepPresent x).
Proof. destruct x; reflexivity. Qed.

(** *** Shapes of written identifiers *)

Lemma isbn13_shape_match (g r p : nat) (b1 b2 b3 b4 : bool) (after : list cls) :
  (1 <= g <= 5)%nat -> (1 <= r)%nat -> (1 <= p)%nat -> (g + r + p = 9)%nat ->
  In after afterShapes ->
  firstMatch clsWord (Seq isbn13TailC WordB) (Some CDigit)
    (isbn13Shape g r p b1 b2 b3 b4 after) = Some (length after).
Proof.
  intros Hg Hr Hp Hsum Hafter.
  pose proof checkIsbn13Shapes_true as Hall. unfold checkIsbn13Shapes in Hall.
  rewrite forallb_forall in Hall. specialize (Hall g).
  rewrite in_seq in Hall. specialize (Hall ltac:(lia)).
  rewrite forallb_forall in Hall. specialize (Hall r).
  rewrite in_seq in Hall. specialize (Hall ltac:(lia)).
  apply orb_true_iff in Hall as [Hall|Hall]; [apply Nat.leb_le in Hall; lia|].
  assert (Hbool : forall b : bool, In b [true; false]) by (intros []; simpl; auto).
  rewrite forallb_forall in Hall. specialize (Hall b1 (Hbool b1)).
  rewrite forallb_forall in Hall. specialize (Hall b2 (Hbool b2)).
  rewrite forallb_forall in Hall. specialize (Hall b3 (Hbool b3)).
  rewrite forallb_forall in Hall. specialize (Hall b4 (Hbool b4)).
  rewrite forallb_forall in Hall. specialize (Hall after Hafter).
  unfold isbn13ShapeOk in Hall. replace (9 - g - r)%nat with p in Hall by lia.
  destruct (firstMatch clsWord (Seq isbn13TailC WordB) (Some CDigit)
              (isbn13Shape g r p b1 b2 b3 b4 after)) as [k|]; [|discriminate].
  simpl in Hall. apply Nat.eqb_eq in Hall. now subst.
Qed.

Section WrittenIsbn13.

Variable i : isbn13.
Variables s1 s2 s3 s4 : separator.
Hypothesis Hvalid : validIsbn13 i = true.

Lemma validIsbn13_parts :
  (prefixEnd i = chr "8" \/ prefixEnd i = chr "9") /\
  forallb isDigit (group i) = true /\ forallb isDigit (registrant i) = true /\
  forallb isDigit (publication i) = true /\ isDigit (checkDigit i) = true /\
  (1 <= length (group i) <= 5)%nat /\ (1 <= length (registrant i))%nat /\
  (1 <= length (publication i))%nat /\
  (length (group i) + length (registrant i) + length (publication i) = 9)%nat.
Proof.
  unfold validIsbn13 in Hvalid.
  repeat (apply andb_true_iff in Hvalid as [Hvalid ?]).
  apply orb_true_iff in Hvalid.
  repeat match goal with
  | H : Nat.leb _ _ = true |- _ => apply Nat.leb_le in H
  | H : Nat.eqb _ _ = true |- _ => apply Nat.eqb_eq in H
  end.
  repeat split; try assumption.
  destruct Hvalid as [H8|H9]; [left|right]; now apply N.eqb_eq.
Qed.

Lemma classify_tail (after : gostring) :
  map classify (isbn13Tail_written i s1 s2 s3 s4 ++ after) =
  isbn13Shape (length (group i)) (length (registrant i)) (length (publication i))
    (sepPresent s1) (sepPresent s2) (sepPresent s3) (sepPresent s4) (map classify after).
Proof.
  destruct validIsbn13_parts as (_ & Hg & Hr & Hp & Hc & _).
  unfold isbn13Tail_written, isbn13Shape.
  rewrite !map_app, !classify_sepText, (classify_digits _ Hg), (classify_digits _ Hr),
    (classify_digits _ Hp).
  simpl map. unfold classify at 1. rewrite Hc. reflexivity.
Qed.

(** The tail of the pattern matches a written tail as a whole when what
    follows has one of the shapes of [afterShapes]. *)
Lemma tail_match (after : gostring) :
  In (map classify after) afterShapes ->
  firstMatch isWordRune (Seq isbn13Tail WordB) (Some (prefixEnd i))
    (isbn13Tail_written i s1 s2 s3 s4 ++ after) = Some (length after).
Proof.
  intros Hafter.
  destruct validIsbn13_parts as (Hpre & _ & _ & _ & _ & Hlg & Hlr & Hlp & Hsum).
  rewrite (@firstMatch_classify _ _ _ _ sim_isbn13Tail), classify_tail.
  replace (option_map classify (Some (prefixEnd i))) with (Some CDigit)
    by (destruct Hpre as [-> | ->]; reflexivity).
  rewrite (@isbn13_shape_match _ _ _ _ _ _ _ _ Hlg Hlr Hlp Hsum Hafter).
  now rewrite length_map.
Qed.

End WrittenIsbn13.

(** *** Stepping through the head of a pattern *)

Section HeadSteps.

Variable A : Type.
Variable isWord : A -> bool.

Lemma ms_WordB_Seq (r : re A) (prev : option A) (s : list A) :
  boundary isWord prev s = true ->
  ms isWord (Seq WordB r) prev s = ms isWord r prev s.
Proof. intros Hb. simpl. rewrite Hb. simpl. apply app_nil_r. Qed.

Lemma ms_WordB_Seq_nil (r : re A) (prev : option A) (s : list A) :
  ms isWord r prev s = [] -> ms isWord (Seq WordB r) prev s = [].
Proof.
  intros Hr. simpl. destruct (boundary isWord prev s); simpl; [|reflexivity].
  now rewrite Hr.
Qed.

Lemma ms_Chr_Seq (p : A -> bool) (r : re A) (prev : option A) (c : A) (s : list A) :
  p c = true -> ms isWord (Seq (Chr p) r) prev (c :: s) = ms isWord r (Some c) s.
Proof. intros Hp. simpl. rewrite Hp. simpl. apply app_nil_r. Qed.

Lemma ms_Chr_Seq_nil (p : A -> bool) (r : re A) (prev : option A) (c : A) (s : list A) :
  p c = false -> ms isWord (Seq (Chr p) r) prev (c :: s) = [].
Proof. intros Hp. simpl. now rewrite Hp. Qed.

Lemma ms_Seq_nil (r1 r2 : re A) (prev : option A) (s : list A) :
  ms isWord r1 prev s = [] -> ms isWord (Seq r1 r2) prev s = [].
Proof. intros H. simpl. now rewrite H. Qed.

Lemma ms_Seq_eq (r1 r1' r2 : re A) (prev prev' : option A) (s s' : list A) :
  ms isWord r1 prev s = ms isWord r1' prev' s' ->
  ms isWord (Seq r1 r2) prev s = ms isWord (Seq r1' r2) prev' s'.
Proof. intros H. simpl. now rewrite H. Qed.

Lemma ms_Alt_nil (r1 r2 : re A) (prev : option A) (s : list A) :
  ms isWord r1 prev s = [] -> ms isWord r2 prev s = [] ->
  ms isWord (Alt r1 r2) prev s = [].
Proof. intros H1 H2. simpl. now rewrite H1, H2. Qed.

End HeadSteps.

(** *** The head of the ISBN-13 pattern *)

Lemma isbn13Pattern_head (prev : option rune) (x : rune) (t : gostring) :
  wordAt isWordRune prev = false ->
  x = chr "8" \/ x = chr "9" ->
  ms isWordRune isbn13Pattern prev (chr "9" :: chr "7" :: x :: t) =
  ms isWordRune (Seq isbn13Tail WordB) (Some x) t.
Proof.
  intros Hprev Hx. unfold isbn13Pattern.
  rewrite ms_WordB_Seq by (unfold boundary; now rewrite Hprev).
  apply ms_Seq_eq. unfold lit.
  rewrite ms_Chr_Seq by reflexivity. rewrite ms_Chr_Seq by reflexivity.
  unfold re89. rewrite ms_Chr_Seq by (destruct Hx as [-> | ->]; reflexivity).
  reflexivity.
Qed.

(** No match of the ISBN-13 pattern starts at a rune other than 9. *)
Lemma isbn13Pattern_not9 (prev : option rune) (c : rune) (s : gostring) :
  (c =? chr "9")%N = false -> ms isWordRune isbn13Pattern prev (c :: s) = [].
Proof.
  intros Hc. unfold isbn13Pattern. apply ms_WordB_Seq_nil, ms_Seq_nil.
  unfold lit. now apply ms_Chr_Seq_nil.
Qed.

Lemma not_digit_not9 (c : rune) : isDigit c = false -> (c =? chr "9")%N = false.
Proof.
  intros Hd. destruct (N.eqb_spec c (chr "9")) as [->|]; [discriminate|reflexivity].
Qed.

(** *** Cleaning a written identifier *)

Lemma removeAll_app (old : rune) (s t : gostring) :
  removeAll old (s ++ t) = removeAll old s ++ removeAll old t.
Proof. apply filter_app. Qed.

Lemma removeAll_digits (old : rune) (s : gostring) :
  isDigit old = false -> forallb isDigit s = true -> removeAll old s = s.
Proof.
  intros Hold. induction s as [|c s IH]; simpl; [reflexivity|].
  intros H. apply andb_true_iff in H as [Hc Hs].
  destruct (N.eqb_spec c old) as [->|]; [congruence|]. simpl. now rewrite IH.
Qed.

Lemma cleanISBN_app (s t : gostring) : cleanISBN (s ++ t) = cleanISBN s ++ cleanISBN t.
Proof. unfold cleanISBN. now rewrite !removeAll_app. Qed.

Lemma cleanISBN_digits (s : gostring) : forallb isDigit s = true -> cleanISBN s = s.
Proof.
  intros H. unfold cleanISBN.
  rewrite (@removeAll_digits (chr "-") s eq_refl H).
  exact (@removeAll_digits (chr " ") s eq_refl H).
Qed.

Lemma cleanISBN_sepText (x : separator) : cleanISBN (sepText x) = [].
Proof. destruct x; reflexivity. Qed.

Lemma len_digits (s : gostring) : forallb isDigit s = true -> len s = length s.
Proof.
  induction s as [|c s IH]; simpl; [reflexivity|].
  intros H. apply andb_true_iff in H as [Hc Hs]. rewrite (IH Hs).
  unfold isDigit in Hc. apply andb_true_iff in Hc as [_ Hhi]. apply N.leb_le in Hhi.
  unfold RuneLen. destruct (N.ltb_spec c 128); [reflexivity|lia].
Qed.

Lemma firstn_app_exact (T : Type) (w post : list T) :
  firstn (length (w ++ post) - length post) (w ++ post) = w.
Proof.
  rewrite length_app. replace (length w + length post - length post)%nat
    with (length w + 0)%nat by lia.
  rewrite firstn_app_2. simpl. apply app_nil_r.
Qed.

Lemma classify_sep_rune (c : rune) : isSep c = true -> classify c = CSep.
Proof.
  intros Hs. unfold classify. rewrite Hs.
  destruct (isDigit c) eqn:Hd; [|reflexivity].
  rewrite (digit_not_sep _ Hd) in Hs. discriminate.
Qed.

Lemma rejects_isbn13Tail (c : rune) :
  isDigit c = false -> isSep c = false -> rejects (Seq isbn13Tail WordB) c.
Proof. intros Hd Hs. simpl. tauto. Qed.

Section IdentifiedIsbn13.

Variable i : isbn13.
Variables s1 s2 s3 s4 : separator.
Hypothesis Hvalid : validIsbn13 i = true.

Lemma isbn13Digits_digits : forallb isDigit (isbn13Digits i) = true.
Proof.
  destruct (@validIsbn13_parts i Hvalid) as (Hpre & Hg & Hr & Hp & Hc & _).
  unfold isbn13Digits, isbn13Written, isbn13Tail_written. simpl.
  rewrite !forallb_app, Hg, Hr, Hp. simpl. rewrite Hc.
  destruct Hpre as [-> | ->]; reflexivity.
Qed.

Lemma cleanISBN_written :
  cleanISBN (isbn13Written i s1 s2 s3 s4) = isbn13Digits i.
Proof.
  destruct (@validIsbn13_parts i Hvalid) as (Hpre & Hg & Hr & Hp & Hc & _).
  unfold isbn13Digits, isbn13Written, isbn13Tail_written.
  change (chr "9" :: chr "7" :: prefixEnd i :: ?t)
    with ([chr "9"; chr "7"; prefixEnd i] ++ t).
  rewrite !cleanISBN_app, !cleanISBN_sepText, (cleanISBN_digits _ Hg),
    (cleanISBN_digits _ Hr), (cleanISBN_digits _ Hp).
  rewrite (cleanISBN_digits [checkDigit i]) by (simpl; now rewrite Hc).
  rewrite (cleanISBN_digits [chr "9"; chr "7"; prefixEnd i])
    by (destruct Hpre as [-> | ->]; reflexivity).
  reflexivity.
Qed.

Lemma validateISBN13_digits : validateISBN13 (isbn13Digits i) = true.
Proof.
  pose proof isbn13Digits_digits as Hd.
  destruct (@validIsbn13_parts i Hvalid) as (Hpre & _ & _ & _ & _ & _ & _ & _ & Hsum).
  unfold validateISBN13, isAllDigits. rewrite Hd, (len_digits _ Hd).
  assert (Hlen : length (isbn13Digits i) = 13%nat).
  { unfold isbn13Digits, isbn13Written, isbn13Tail_written. simpl.
    rewrite !length_app. simpl. lia. }
  rewrite Hlen. simpl.
  unfold isbn13Digits, isbn13Written. destruct Hpre as [-> | ->]; reflexivity.
Qed.

(** The pattern matches the written identifier as a whole in a quiet
    context. *)
Lemma isbn13_firstMatch (prev : option rune) (post : gostring) :
  wordAt isWordRune prev = false ->
  quietAfter post = true ->
  firstMatch isWordRune isbn13Pattern prev (isbn13Written i s1 s2 s3 s4 ++ post)
  = Some (length post).
Proof.
  intros Hprev Hpost.
  destruct (@validIsbn13_parts i Hvalid) as (Hpre & _).
  unfold firstMatch, isbn13Written. simpl app.
  rewrite (@isbn13Pattern_head prev (prefixEnd i) _ Hprev Hpre).
  change (firstMatch isWordRune (Seq isbn13Tail WordB) (Some (prefixEnd i))
            (isbn13Tail_written i s1 s2 s3 s4 ++ post) = Some (length post)).
  destruct post as [|c0 rest].
  - apply (@tail_match i s1 s2 s3 s4 Hvalid). simpl. auto.
  - simpl in Hpost. destruct (isSep c0) eqn:Hs0.
    + destruct rest as [|c1 rest'].
      * apply (@tail_match i s1 s2 s3 s4 Hvalid). simpl.
        rewrite (classify_sep_rune _ Hs0). auto.
      * apply andb_true_iff in Hpost as [Hd1 Hs1].
        apply negb_true_iff in Hd1, Hs1.
        change (isbn13Tail_written i s1 s2 s3 s4 ++ c0 :: c1 :: rest')
          with (isbn13Tail_written i s1 s2 s3 s4 ++ [c0] ++ c1 :: rest').
        rewrite app_assoc, firstMatch_tail by now apply rejects_isbn13Tail.
        rewrite <- app_assoc.
        rewrite (@tail_match i s1 s2 s3 s4 Hvalid ([c0] ++ [c1])).
        -- reflexivity.
        -- simpl. rewrite (classify_sep_rune _ Hs0). unfold classify.
           rewrite Hd1, Hs1. destruct (isWordRune c1); auto 6.
    + apply negb_true_iff in Hpost.
      assert (Hd0 : isDigit c0 = false).
      { destruct (isDigit c0) eqn:Hd; [|reflexivity].
        rewrite (digit_word _ Hd) in Hpost. discriminate. }
      rewrite firstMatch_tail by now apply rejects_isbn13Tail.
      rewrite (@tail_match i s1 s2 s3 s4 Hvalid [c0]).
      * reflexivity.
      * simpl. unfold classify. rewrite Hd0, Hs0, Hpost. auto.
Qed.

(** The ISBN-13 step of [ParseQuery] on a written identifier. *)
Lemma isbn13_step (pre post : gostring) :
  quietBefore pre = true ->
  quietAfter post = true ->
  isbnStep isbn13Pattern validateISBN13 (pre ++ isbn13Written i s1 s2 s3 s4 ++ post)
  = Some (isbn13Digits i).
Proof.
  intros Hpre Hpost. unfold quietBefore in Hpre.
  apply andb_true_iff in Hpre as [Hnodigit Hlast].
  apply negb_true_iff in Hnodigit, Hlast.
  unfold isbnStep, FindStringSubmatch.
  rewrite find_skip.
  - rewrite (@find_first _ _ _ _ _ _ (@isbn13_firstMatch _ post Hlast Hpost)).
    rewrite firstn_app_exact, cleanISBN_written, validateISBN13_digits. reflexivity.
  - intros c Hc prev s. apply isbn13Pattern_not9, not_digit_not9.
    destruct (isDigit c) eqn:Hd; [|reflexivity].
    assert (Hex : existsb isDigit pre = true) by (apply existsb_exists; now exists c).
    congruence.
Qed.

End IdentifiedIsbn13.

(** C3, as stated, fails for an identifier inside longer text: followed by
    a space and a digit, the pattern matches 14 digits, validation fails
    and the query is classified General. *)
Lemma C3_counterexample :
  validIsbn13 gatsbyIsbn = true /\
  str "9780743273565 1" = isbn13Written gatsbyIsbn NoSep NoSep NoSep NoSep ++ str " 1" /\
  ParseQuery (str "9780743273565 1") =
  (str "9780743273565 1", SearchTypeGeneralQuery, []).
Proof. repeat split; vm_compute; reflexivity. Qed.

(** C3 (amended): let the trimmed input hold a 13-digit identifier with
    prefix 978 or 979, written with nothing, a hyphen or a single space at
    each of the four boundaries of its elements (registration group of 1
    to 5 digits), such that the text before it holds no digit and does not
    end in a word character, and the text after it is empty, or begins
    with a character that is neither a word character nor a hyphen or
    white space, or begins with one hyphen or white space followed by
    nothing or by a character that is neither a digit nor a hyphen or white
    space.  Then [ParseQuery] returns mode Identifier, the 13 digits as
    detected identifier and the query [isbn:] followed by the 13 digits. *)
Theorem C3_isbn13_identified (input pre post : gostring) (i : isbn13)
    (s1 s2 s3 s4 : separator) :
  validIsbn13 i = true ->
  quietBefore pre = true ->
  quietAfter post = true ->
  TrimSpace input = pre ++ isbn13Written i s1 s2 s3 s4 ++ post ->
  ParseQuery input = (str "isbn:" ++ isbn13Digits i, SearchTypeISBN, isbn13Digits i).
Proof.
  intros Hvalid Hpre Hpost Htrim. unfold ParseQuery. rewrite Htrim.
  now rewrite (@isbn13_step i s1 s2 s3 s4 Hvalid pre post Hpre Hpost).
Qed.

Lemma C3_isbn13_identified_witness :
  ParseQuery (str "The Great Gatsby ISBN: 978-0-7432-7356-5, 2004") =
  (str "isbn:9780743273565", SearchTypeISBN, str "9780743273565").
Proof.
  exact (@C3_isbn13_identified (str "The Great Gatsby ISBN: 978-0-7432-7356-5, 2004")
           (str "The Great Gatsby ISBN: ") (str ", 2004") gatsbyIsbn
           Hyphen Hyphen Hyphen Hyphen eq_refl eq_refl eq_refl eq_refl).
Defined.

(* ================================================================= *)
(** ** Runs of digits that are no identifier *)

Lemma find_cons_nil (A : Type) (isWord : A -> bool) (r : re A) (prev : option A)
    (c : A) (s : list A) :
  ms isWord r prev (c :: s) = [] ->
  find isWord r prev (c :: s) = find isWord r (Some c) s.
Proof. intros H. simpl. now rewrite H. Qed.

Lemma digits_words (s : gostring) :
  forallb isDigit s = true -> forallb isWordRune s = true.
Proof.
  induction s as [|c s IH]; simpl; [reflexivity|].
  intros H. apply andb_true_iff in H as [Hc Hs].
  now rewrite (digit_word _ Hc), IH.
Qed.

(** Under (?i) a letter of a pattern matches no digit. *)
Lemma digit_not_letter (c l : rune) :
  isDigit c = true -> (90 <= l)%N ->
  ((c =? l)%N || (isLower l && (c + 32 =? l)%N)) = false.
Proof.
  unfold isDigit. intros H Hl. apply andb_true_iff in H as [Hlo Hhi].
  apply N.leb_le in Hlo, Hhi.
  destruct (N.eqb_spec c l); [lia|]. destruct (N.eqb_spec (c + 32) l); [lia|].
  now rewrite andb_false_r.
Qed.

Lemma authorPattern_not_digit (prev : option rune) (c : rune) (s : gostring) :
  isDigit c = true -> ms isWordRune authorPattern prev (c :: s) = [].
Proof.
  intros Hc. unfold authorPattern.
  apply ms_WordB_Seq_nil, ms_Seq_nil, ms_Alt_nil; [|apply ms_Alt_nil];
    unfold reBy, reAuthorColon, reWrittenBy, lit_i;
    apply ms_Chr_Seq_nil, digit_not_letter; try assumption; discriminate.
Qed.

(** No part of a run of digits matches the author pattern. *)
Lemma authorPattern_digits (s : gostring) :
  forallb isDigit s = true -> FindStringSubmatch authorPattern s = None.
Proof.
  intros Hs. unfold FindStringSubmatch. destruct s as [|c s]; [reflexivity|].
  simpl in Hs. apply andb_true_iff in Hs as [Hc Hs].
  rewrite (@find_cons_nil _ _ _ _ _ _ (@authorPattern_not_digit None c s Hc)).
  unfold authorPattern. apply find_inside_word.
  - reflexivity.
  - now apply digit_word.
  - now apply digits_words.
Qed.

(** The ISBN-13 pattern matches nothing in a run of 13 digits whose prefix
    is neither 978 nor 979. *)
Lemma isbn13Pattern_invalid_run (s : gostring) :
  length s = 13%nat -> forallb isDigit s = true -> validateISBN13 s = false ->
  FindStringSubmatch isbn13Pattern s = None.
Proof.
  intros Hlen Hs Hinvalid. unfold FindStringSubmatch.
  assert (Hv : HasPrefix s (str "978") || HasPrefix s (str "979") = false).
  { unfold validateISBN13, isAllDigits in Hinvalid.
    now rewrite (@len_digits s Hs), Hlen, Hs in Hinvalid. }
  destruct s as [|a [|b [|c t]]]; try discriminate Hlen.
  assert (Ha : isDigit a = true) by (simpl in Hs; now apply andb_true_iff in Hs as [? _]).
  assert (Hrest : forallb isWordRune (b :: c :: t) = true).
  { apply digits_words. simpl in Hs. now apply andb_true_iff in Hs as [_ ?]. }
  assert (Hfirst : ms isWordRune isbn13Pattern None (a :: b :: c :: t) = []).
  { destruct (a =? chr "9")%N eqn:E9; [|now apply isbn13Pattern_not9].
    apply N.eqb_eq in E9. subst a.
    unfold isbn13Pattern. rewrite ms_WordB_Seq by reflexivity.
    apply ms_Seq_nil. unfold lit. rewrite ms_Chr_Seq by reflexivity.
    destruct (b =? chr "7")%N eqn:E7; [|now apply ms_Chr_Seq_nil].
    rewrite ms_Chr_Seq by exact E7. unfold re89.
    destruct ((c =? 56) || (c =? 57))%N eqn:E89; [|now apply ms_Chr_Seq_nil].
    exfalso. apply N.eqb_eq in E7. subst b. simpl in Hv.
    rewrite !andb_true_r in Hv. congruence. }
  rewrite (@find_cons_nil _ _ _ _ _ _ Hfirst). unfold isbn13Pattern. apply find_inside_word.
  - reflexivity.
  - now apply digit_word.
  - exact Hrest.
Qed.

Lemma isbn10Pattern_run13 :
  firstMatch clsWord (Seq WordB (Seq isbn10BodyC WordB)) None (repeat CDigit 13) = Some 0%nat.
Proof. vm_compute. reflexivity. Qed.

(** The ISBN-10 pattern matches a run of 13 digits as a whole. *)
Lemma isbn10Pattern_matches_run (s : gostring) :
  length s = 13%nat -> forallb isDigit s = true ->
  FindStringSubmatch isbn10Pattern s = Some s.
Proof.
  intros Hlen Hs. unfold FindStringSubmatch.
  assert (Hm : firstMatch isWordRune isbn10Pattern None s = Some 0%nat).
  { rewrite (@firstMatch_classify _ _ None s sim_isbn10Pattern),
      (@classify_digits s Hs), Hlen.
    exact isbn10Pattern_run13. }
  rewrite (@find_first _ _ _ _ _ _ Hm), Nat.sub_0_r. now rewrite firstn_all.
Qed.

(** C4, as stated, fails: in a hyphenated 13-digit group with prefix 977
    the ISBN-10 pattern matches the first three elements, ten digits that
    pass validation, and the mode is Identifier. *)
Lemma C4_counterexample :
  ParseQuery (str "977-07-43273-565") =
  (str "isbn:9770743273", SearchTypeISBN, str "9770743273").
Proof. vm_compute. reflexivity. Qed.

(** When the trimmed input is a run of 13 digits whose prefix is neither
    978 nor 979, neither identifier step accepts it (the ISBN-13 pattern
    does not match, the ISBN-10 pattern matches the whole run, which fails
    validation) and the mode is General. *)
Lemma invalid_prefix_run (input s : gostring) :
  TrimSpace input = s ->
  length s = 13%nat -> forallb isDigit s = true -> validateISBN13 s = false ->
  isbnStep isbn13Pattern validateISBN13 s = None /\
  isbnStep isbn10Pattern validateISBN10 s = None /\
  ParseQuery input = parseText s /\
  ParseQuery input = (s, SearchTypeGeneralQuery, []).
Proof.
  intros Htrim Hlen Hs Hinvalid.
  assert (H13 : isbnStep isbn13Pattern validateISBN13 s = None).
  { unfold isbnStep. now rewrite isbn13Pattern_invalid_run. }
  assert (H10 : isbnStep isbn10Pattern validateISBN10 s = None).
  { unfold isbnStep. rewrite (@isbn10Pattern_matches_run s Hlen Hs), (@cleanISBN_digits s Hs).
    unfold validateISBN10. now rewrite (@len_digits s Hs), Hlen. }
  assert (HP : ParseQuery input = parseText s).
  { unfold ParseQuery. now rewrite Htrim, H13, H10. }
  repeat split; try assumption.
  rewrite HP. unfold parseText. rewrite (@authorPattern_digits s Hs).
  destruct s as [|c s]; [discriminate|]. simpl in Hs.
  apply andb_true_iff in Hs as [Hc _]. simpl. now rewrite Hc.
Qed.

(* ================================================================= *)
(** ** The author step *)

(** A run of a class is matched, among others, as a whole by a greedy
    repetition of the class. *)
Lemma rep_class_in (A : Type) (isWord : A -> bool) (p : A -> bool) (t : list A)
    (ws : list A) : forall lo hi prev,
  forallb p ws = true -> (lo <= length ws <= hi)%nat ->
  In (lastSymbol prev ws, t) (rep (ms isWord (Chr p)) lo hi prev (ws ++ t)).
Proof.
  induction ws as [|a ws IH]; intros lo hi prev Hp Hlen; simpl in Hlen.
  - assert (lo = 0%nat) by lia. subst lo.
    destruct hi; simpl; [now left|]. apply in_or_app. right. now left.
  - simpl in Hp. apply andb_true_iff in Hp as [Ha Hws].
    destruct hi as [|hi]; [lia|]. simpl. rewrite Ha. simpl.
    apply in_or_app. left. rewrite app_nil_r.
    apply (IH (pred lo) hi (Some a) Hws). lia.
Qed.

Lemma Plus_class_in (p : rune -> bool) (prev : option rune) (ws t : gostring) :
  ws <> [] -> forallb p ws = true ->
  In (lastSymbol prev ws, t) (ms isWordRune (Plus (Chr p)) prev (ws ++ t)).
Proof.
  intros Hne Hp.
  change (ms isWordRune (Plus (Chr p)) prev (ws ++ t))
    with (rep (ms isWordRune (Chr p)) 1 (length (ws ++ t)) prev (ws ++ t)).
  apply rep_class_in; [exact Hp|].
  rewrite length_app. destruct ws; [contradiction|]. simpl. lia.
Qed.

(** A letter of a token, in either case, is matched under (?i). *)
Lemma toLower_letter (c l : rune) :
  toLower c = l -> ((c =? l)%N || (isLower l && (c + 32 =? l)%N)) = true.
Proof.
  unfold toLower. intros H. destruct (isUpper c) eqn:Hu.
  - subst l. rewrite N.eqb_refl, andb_true_r.
    unfold isUpper in Hu. apply andb_true_iff in Hu as [Hlo Hhi].
    apply N.leb_le in Hlo, Hhi. apply orb_true_iff. right.
    unfold isLower. apply andb_true_iff. split; apply N.leb_le; lia.
  - subst l. now rewrite N.eqb_refl.
Qed.

Lemma toLower_other (c l : rune) :
  toLower c = l -> isLower l = false -> (c =? l)%N = true.
Proof.
  unfold toLower. intros H Hl. destruct (isUpper c) eqn:Hu.
  - exfalso. subst l. unfold isUpper in Hu. apply andb_true_iff in Hu as [Hlo Hhi].
    apply N.leb_le in Hlo, Hhi. unfold isLower in Hl.
    apply andb_false_iff in Hl as [Hl|Hl]; apply N.leb_gt in Hl; lia.
  - subst l. apply N.eqb_refl.
Qed.

Lemma toLower_word (c l : rune) : toLower c = l -> isLower l = true -> isWordRune c = true.
Proof.
  unfold toLower, isWordRune. intros H Hl. destruct (isUpper c) eqn:Hu.
  - now rewrite orb_true_r.
  - subst l. now rewrite Hl, !orb_true_r.
Qed.

Ltac peel_runes H :=
  lazymatch type of H with
  | map toLower ?t = [] => destruct t; [clear H | discriminate H]
  | map toLower ?t = _ :: _ =>
      destruct t as [|? t]; [discriminate H|];
      cbn [map] in H; injection H as ? H; peel_runes H
  end.

Ltac token_runes H :=
  unfold eqFold in H; apply rune_eqb_list_eq in H;
  match type of H with
  | _ = ?l => let l' := eval vm_compute in l in change l with l' in H
  end;
  peel_runes H.

Ltac step_letter :=
  first [ rewrite ms_Chr_Seq by (apply toLower_letter; assumption)
        | rewrite ms_Chr_Seq by (apply toLower_other; [assumption|reflexivity]) ].

(** The alternation of the author pattern matches each of the tokens. *)
Lemma token_match (tok : gostring) :
  isAuthorToken tok = true ->
  wordAt isWordRune (hd_error tok) = true /\
  forall prev t, exists l,
    In (Some l, t)
       (ms isWordRune (Alt reBy (Alt reAuthorColon reWrittenBy)) prev (tok ++ t)).
Proof.
  unfold isAuthorToken. intros H.
  apply orb_true_iff in H as [H|H]; [apply orb_true_iff in H as [H|H]|].
  - token_runes H. split; [simpl; eapply toLower_word; [eassumption|reflexivity]|].
    intros prev t. eexists. simpl app. cbn [ms]. apply in_or_app. left.
    unfold reBy, lit_i. repeat step_letter. simpl.
    rewrite toLower_letter by assumption. now left.
  - token_runes H. split; [simpl; eapply toLower_word; [eassumption|reflexivity]|].
    intros prev t. eexists. simpl app. cbn [ms]. apply in_or_app. right.
    apply in_or_app. left.
    unfold reAuthorColon, lit_i, lit. repeat step_letter. simpl.
    rewrite toLower_other by (assumption || reflexivity). now left.
  - token_runes H. split; [simpl; eapply toLower_word; [eassumption|reflexivity]|].
    intros prev t. eexists. simpl app. cbn [ms]. apply in_or_app. right.
    apply in_or_app. right.
    unfold reWrittenBy, lit_i, lit. repeat step_letter. simpl.
    rewrite toLower_letter by assumption. now left.
Qed.

(** The author pattern finds a match in every text with an author marker. *)
Lemma authorPattern_marker (s : gostring) :
  hasAuthorMarker s -> FindStringSubmatch authorPattern s <> None.
Proof.
  intros (pre & tok & ws & c & rest & -> & Hpre & Htok & Hne & Hws & Hc).
  destruct (token_match tok Htok) as [Hhead Halt].
  unfold FindStringSubmatch. apply find_some.
  destruct (Halt (lastSymbol None pre) (ws ++ c :: rest)) as [l Hl].
  assert (Hin : In (Some c, rest)
                  (ms isWordRune authorPattern (lastSymbol None pre)
                     (tok ++ ws ++ c :: rest))).
  { unfold authorPattern. rewrite ms_WordB_Seq.
    - eapply ms_Seq_in; [exact Hl|]. simpl fst. simpl snd.
      eapply ms_Seq_in; [apply (Plus_class_in isReSpace (Some l) (c :: rest) Hne Hws)|].
      simpl fst. simpl snd.
      apply (@Plus_class_in isNameRune (lastSymbol (Some l) ws) [c] rest).
      + discriminate.
      + simpl. now rewrite Hc.
    - unfold boundary. rewrite Hpre. destruct tok; [discriminate|]. exact Hhead. }
  intros Hnil. rewrite Hnil in Hin. exact Hin.
Qed.

(** C6, as stated, fails for an input with surrounding white space: the
    rewritten query is the trimmed text, not the original input. *)
Lemma C6_counterexample :
  isbnStep isbn13Pattern validateISBN13 (str " The Great Gatsby by F. Scott Fitzgerald ") = None /\
  isbnStep isbn10Pattern validateISBN10 (str " The Great Gatsby by F. Scott Fitzgerald ") = None /\
  hasAuthorMarker (str " The Great Gatsby by F. Scott Fitzgerald ") /\
  ParseQuery (str " The Great Gatsby by F. Scott Fitzgerald ") =
    (str "The Great Gatsby by F. Scott Fitzgerald", SearchTypeTitleAuthor, []) /\
  fst (fst (ParseQuery (str " The Great Gatsby by F. Scott Fitzgerald ")))
    <> str " The Great Gatsby by F. Scott Fitzgerald ".
Proof.
  split; [vm_compute; reflexivity|]. split; [vm_compute; reflexivity|].
  split.
  - exists (str " The Great Gatsby "), (str "by"), (str " "), (chr "F"),
      (str ". Scott Fitzgerald ").
    repeat split; try reflexivity. discriminate.
  - split; [vm_compute; reflexivity|]. vm_compute. discriminate.
Qed.

(** C6 (amended): when neither identifier step accepts the trimmed input
    and the trimmed input holds an author marker, [ParseQuery] returns mode
    TitleAuthor, no identifier, and as rewritten query the input with its
    surrounding white space trimmed and nothing else changed. *)
Theorem C6_author_marker (input : gostring) :
  isbnStep isbn13Pattern validateISBN13 (TrimSpace input) = None ->
  isbnStep isbn10Pattern validateISBN10 (TrimSpace input) = None ->
  hasAuthorMarker (TrimSpace input) ->
  ParseQuery input = (TrimSpace input, SearchTypeTitleAuthor, []).
Proof.
  intros H13 H10 Hmarker. unfold ParseQuery. rewrite H13, H10. unfold parseText.
  destruct (FindStringSubmatch authorPattern (TrimSpace input)) eqn:Hfind; [reflexivity|].
  exfalso. now apply (authorPattern_marker Hmarker).
Qed.

Lemma C6_author_marker_witness :
  ParseQuery (str "The Great Gatsby by F. Scott Fitzgerald") =
  (str "The Great Gatsby by F. Scott Fitzgerald", SearchTypeTitleAuthor, []).
Proof.
  apply (@C6_author_marker (str "The Great Gatsby by F. Scott Fitzgerald")).
  - vm_compute. reflexivity.
  - vm_compute. reflexivity.
  - exists (str "The Great Gatsby "), (str "by"), (str " "), (chr "F"),
      (str ". Scott Fitzgerald").
    repeat split; try reflexivity. discriminate.
Defined.

(** *** Inputs without digits *)

Lemma isbn10Pattern_not_digit (prev : option rune) (c : rune) (s : gostring) :
  isDigit c = false -> ms isWordRune isbn10Pattern prev (c :: s) = [].
Proof.
  intros Hc. unfold isbn10Pattern, isbn10Body.
  apply ms_WordB_Seq_nil, ms_Seq_nil, ms_Seq_nil. simpl. now rewrite Hc.
Qed.

Lemma find_nowhere (r : re rune) (s : gostring) :
  (forall c, In c s -> forall prev t, ms isWordRune r prev (c :: t) = []) ->
  (forall prev, ms isWordRune r prev [] = []) ->
  FindStringSubmatch r s = None.
Proof.
  intros Hs Hnil. unfold FindStringSubmatch.
  rewrite <- (app_nil_r s), (find_skip _ _ s Hs). simpl. now rewrite Hnil.
Qed.

(** Neither identifier step accepts a text without digits. *)
Lemma no_digit_no_isbn (s : gostring) :
  existsb isDigit s = false ->
  isbnStep isbn13Pattern validateISBN13 s = None /\
  isbnStep isbn10Pattern validateISBN10 s = None.
Proof.
  intros Hs.
  assert (Hc : forall c, In c s -> isDigit c = false).
  { intros c Hin. destruct (isDigit c) eqn:Hd; [|reflexivity].
    assert (existsb isDigit s = true) by (apply existsb_exists; now exists c).
    congruence. }
  unfold isbnStep. split.
  - rewrite find_nowhere; [reflexivity| |].
    + intros c Hin prev t. apply isbn13Pattern_not9, not_digit_not9, Hc, Hin.
    + intros [p|]; simpl; [destruct (boundary isWordRune (Some p) [])|]; reflexivity.
  - rewrite find_nowhere; [reflexivity| |].
    + intros c Hin prev t. apply isbn10Pattern_not_digit, Hc, Hin.
    + intros [p|]; simpl; [destruct (boundary isWordRune (Some p) [])|]; reflexivity.
Qed.

(** An author marker in a text without digits decides the mode. *)
Corollary author_marker_no_digit (input : gostring) :
  existsb isDigit (TrimSpace input) = false ->
  hasAuthorMarker (TrimSpace input) ->
  ParseQuery input = (TrimSpace input, SearchTypeTitleAuthor, []).
Proof.
  intros Hd Hm. destruct (no_digit_no_isbn _ Hd) as [H13 H10].
  unfold ParseQuery. rewrite H13, H10. unfold parseText.
  destruct (FindStringSubmatch authorPattern (TrimSpace input)) eqn:Hfind; [reflexivity|].
  exfalso. now apply (authorPattern_marker Hm).
Qed.

(* ================================================================= *)
(** ** The scenarios of the tests and of the specification *)

Example parse_isbn10_only :
  ParseQuery (str "0743273567") = (str "isbn:0743273567", SearchTypeISBN, str "0743273567").
Proof. vm_compute. reflexivity. Qed.

Example parse_isbn13_only :
  ParseQuery (str "9780743273565") =
  (str "isbn:9780743273565", SearchTypeISBN, str "9780743273565").
Proof. vm_compute. reflexivity. Qed.

Example parse_isbn10_with_dashes :
  ParseQuery (str "0-7432-7356-7") = (str "isbn:0743273567", SearchTypeISBN, str "0743273567").
Proof. vm_compute. reflexivity. Qed.

Example parse_isbn13_with_dashes :
  ParseQuery (str "978-0-7432-7356-5") =
  (str "isbn:9780743273565", SearchTypeISBN, str "9780743273565").
Proof. vm_compute. reflexivity. Qed.

Example parse_isbn_in_mixed_text :
  ParseQuery (str "The Great Gatsby ISBN: 9780743273565") =
  (str "isbn:9780743273565", SearchTypeISBN, str "9780743273565").
Proof. vm_compute. reflexivity. Qed.

Example parse_title_and_author :
  ParseQuery (str "The Great Gatsby by F. Scott Fitzgerald") =
  (str "The Great Gatsby by F. Scott Fitzgerald", SearchTypeTitleAuthor, []).
Proof. vm_compute. reflexivity. Qed.

Example parse_title_only :
  ParseQuery (str "The Great Gatsby") =
  (str "intitle:" ++ [dquote] ++ str "The Great Gatsby" ++ [dquote], SearchTypeTitle, []).
Proof. vm_compute. reflexivity. Qed.

Example parse_general_query :
  ParseQuery (str "classic american literature 1920s") =
  (str "classic american literature 1920s", SearchTypeGeneralQuery, []).
Proof. vm_compute. reflexivity. Qed.

Example score_complete_record :
  calculateConfidence SearchTypeISBN gatsby = 0.95%float.
Proof. vm_compute. reflexivity. Qed.

(** Without a publisher the exact product would be 0.87875; the
    operations of [float64] give the value just below it. *)
Example score_without_publisher :
  calculateConfidence SearchTypeISBN
    (books.mkVolume (str "x")
       (Some (books.mkVolumeInfo (str "The Great Gatsby") [str "F. Scott Fitzgerald"]
                [books.mkIdentifier (str "ISBN_13") (str "9780743273565")]
                [] (str "en") (str "2004") None)))
  = 0.87874999999999992%float.
Proof. vm_compute. reflexivity. Qed.

Example year_of_full_date : extractYear (str "2004-09-30") = 2004%Z.
Proof. reflexivity. Qed.

Example year_of_bare_year : extractYear (str "1925") = 1925%Z.
Proof. reflexivity. Qed.

Example year_out_of_range : extractYear (str "3000-01-01") = 0%Z.
Proof. reflexivity. Qed.

Example year_malformed : extractYear (str "c2004") = 0%Z.
Proof. reflexivity. Qed.

(** A year followed by anything but a hyphen is not read. *)
Example year_of_timestamp : extractYear (str "2004T00:00:00Z") = 0%Z.
Proof. reflexivity. Qed.

Example year_with_trailing_space : extractYear (str "2004 ") = 0%Z.
Proof. reflexivity. Qed.

(** What follows the first hyphen is not looked at. *)
Example year_before_any_rest : extractYear (str "2004-xyz") = 2004%Z.
Proof. reflexivity. Qed.

Example https_only_scheme :
  ensureHTTPS (str "http://books.google.com/x?u=http://a") =
  str "https://books.google.com/x?u=http://a".
Proof. reflexivity. Qed.

(* ================================================================= *)
(** * Further properties of the parser *)

(** ** White space around a query *)

Lemma TrimLeft_spaces_app (ws s : gostring) :
  Forall (fun c => IsSpace c = true) ws -> TrimLeft (ws ++ s) = TrimLeft s.
Proof. induction 1 as [|c ws Hc _ IH]; simpl; [reflexivity|]. now rewrite Hc. Qed.

Lemma TrimLeft_nil_spaces (s : gostring) :
  TrimLeft s = [] -> Forall (fun c => IsSpace c = true) s.
Proof.
  induction s as [|c s IH]; simpl; [constructor|].
  destruct (IsSpace c) eqn:Hc; [|discriminate]. intros H. constructor; auto.
Qed.

Lemma TrimLeft_app (s t : gostring) :
  TrimLeft s <> [] -> TrimLeft (s ++ t) = TrimLeft s ++ t.
Proof.
  induction s as [|c s IH]; simpl; [congruence|].
  destruct (IsSpace c); [exact IH|reflexivity].
Qed.

Lemma Forall_spaces_rev (s : gostring) :
  Forall (fun c => IsSpace c = true) s -> Forall (fun c => IsSpace c = true) (rev s).
Proof. intros H. apply Forall_forall. intros c Hc. apply in_rev in Hc.
  rewrite Forall_forall in H. now apply H. Qed.

(** White space around a text does not change what [TrimSpace] returns. *)
Lemma TrimSpace_surrounded (ws1 s ws2 : gostring) :
  Forall (fun c => IsSpace c = true) ws1 -> Forall (fun c => IsSpace c = true) ws2 ->
  TrimSpace (ws1 ++ s ++ ws2) = TrimSpace s.
Proof.
  intros H1 H2. unfold TrimSpace. rewrite (TrimLeft_spaces_app _ H1).
  destruct (TrimLeft s) as [|c t] eqn:Hs.
  - assert (Hall : Forall (fun c => IsSpace c = true) (s ++ ws2)).
    { apply Forall_app. split; [now apply TrimLeft_nil_spaces|exact H2]. }
    now rewrite (TrimLeft_spaces Hall).
  - rewrite TrimLeft_app by congruence. rewrite Hs, rev_app_distr.
    now rewrite (TrimLeft_spaces_app _ (Forall_spaces_rev H2)).
Qed.

(** X1: white space before and after a query changes nothing of what
    [ParseQuery] returns. *)
Theorem X1_surrounding_space_ignored (ws1 s ws2 : gostring) :
  Forall (fun c => IsSpace c = true) ws1 -> Forall (fun c => IsSpace c = true) ws2 ->
  ParseQuery (ws1 ++ s ++ ws2) = ParseQuery s.
Proof.
  intros H1 H2. unfold ParseQuery. now rewrite (TrimSpace_surrounded s H1 H2).
Qed.

Lemma X1_surrounding_space_ignored_witness :
  ParseQuery (str "  " ++ str "The Great Gatsby" ++ [9%N; 10%N]) =
  ParseQuery (str "The Great Gatsby").
Proof.
  apply (@X1_surrounding_space_ignored (str "  ") (str "The Great Gatsby") [9%N; 10%N]);
    repeat constructor.
Defined.

(** ** What the steps return *)

Lemma isbnStep_valid (pattern : re rune) (validate : gostring -> bool)
    (s isbn : gostring) :
  isbnStep pattern validate s = Some isbn -> validate isbn = true.
Proof.
  unfold isbnStep. destruct (FindStringSubmatch pattern s) as [m|]; [|discriminate].
  simpl. destruct (validate (cleanISBN m)) eqn:Hv; [|discriminate].
  intros H. now injection H as <-.
Qed.

(** The text found by [find] is a part of the text searched. *)
Lemma find_part (A : Type) (isWord : A -> bool) (r : re A) (s : list A) :
  forall prev m, find isWord r prev s = Some m -> exists pre post, s = pre ++ m ++ post.
Proof.
  induction s as [|c s IH]; intros prev m; simpl.
  - destruct (ms isWord r prev []); [discriminate|].
    intros H. injection H as <-. now exists [], [].
  - destruct (ms isWord r prev (c :: s)) as [|x L].
    + intros H. destruct (IH _ _ H) as (pre & post & ->). now exists (c :: pre), post.
    + intros H. injection H as <-.
      exists [], (skipn (length (c :: s) - length (snd x)) (c :: s)).
      simpl app. now rewrite firstn_skipn.
Qed.

Lemma isbnStep_part (pattern : re rune) (validate : gostring -> bool)
    (s isbn : gostring) :
  isbnStep pattern validate s = Some isbn ->
  exists pre m post, s = pre ++ m ++ post /\ cleanISBN m = isbn.
Proof.
  unfold isbnStep, FindStringSubmatch.
  destruct (find isWordRune pattern None s) as [m|] eqn:Hfind; [|discriminate].
  simpl. destruct (validate (cleanISBN m)); [|discriminate].
  intros H. injection H as <-.
  destruct (find_part _ _ _ _ Hfind) as (pre & post & ->). now exists pre, m, post.
Qed.

Lemma validateISBN10_spec (s : gostring) :
  validateISBN10 s = true -> forallb isDigit s = true /\ length s = 10%nat.
Proof.
  unfold validateISBN10, isAllDigits. intros H. apply andb_true_iff in H as [Hlen Hd].
  split; [exact Hd|]. rewrite <- (len_digits _ Hd). now apply Nat.eqb_eq.
Qed.

Lemma validateISBN13_spec (s : gostring) :
  validateISBN13 s = true ->
  forallb isDigit s = true /\ length s = 13%nat /\
  (HasPrefix s (str "978") = true \/ HasPrefix s (str "979") = true).
Proof.
  unfold validateISBN13, isAllDigits.
  destruct (Nat.eqb (len s) 13) eqn:Hlen; [|discriminate].
  destruct (forallb isDigit s) eqn:Hd; [|discriminate]. simpl.
  intros H. apply orb_true_iff in H.
  split; [reflexivity|]. split; [|exact H].
  rewrite <- (len_digits _ Hd). now apply Nat.eqb_eq.
Qed.

(** X2: what [ParseQuery] returns has the shape of its mode.  Under mode
    ISBN the identifier consists of 10 decimal digits, or of 13 with prefix
    978 or 979, and the query is [isbn:] followed by it; under the other
    modes no identifier is returned and the query is the trimmed input,
    inside [intitle:"..."] under mode Title, which is chosen only for a
    trimmed input without digits and shorter than 100 bytes. *)
Theorem X2_parse_result_shape (input : gostring) :
  let query := fst (fst (ParseQuery input)) in
  let isbn := snd (ParseQuery input) in
  match snd (fst (ParseQuery input)) with
  | SearchTypeISBN =>
      query = str "isbn:" ++ isbn /\ forallb isDigit isbn = true /\
      (length isbn = 10%nat \/
       length isbn = 13%nat /\
       (HasPrefix isbn (str "978") = true \/ HasPrefix isbn (str "979") = true))
  | SearchTypeTitleAuthor => query = TrimSpace input /\ isbn = []
  | SearchTypeTitle =>
      query = titleQuery (TrimSpace input) /\ isbn = [] /\
      existsb isDigit (TrimSpace input) = false /\ (len (TrimSpace input) < 100)%nat
  | SearchTypeGeneralQuery => query = TrimSpace input /\ isbn = []
  end.
Proof.
  unfold ParseQuery.
  destruct (isbnStep isbn13Pattern validateISBN13 (TrimSpace input)) as [i|] eqn:H13.
  - simpl. destruct (validateISBN13_spec _ (isbnStep_valid _ _ _ H13)) as (Hd & Hl & Hp).
    auto.
  - destruct (isbnStep isbn10Pattern validateISBN10 (TrimSpace input)) as [i|] eqn:H10.
    + simpl. destruct (validateISBN10_spec _ (isbnStep_valid _ _ _ H10)) as (Hd & Hl).
      auto.
    + unfold parseText.
      destruct (isSome (FindStringSubmatch authorPattern (TrimSpace input))); simpl; [auto|].
      unfold containsNumbers.
      destruct (existsb isDigit (TrimSpace input)) eqn:Hd; simpl; [auto|].
      destruct (Nat.ltb (len (TrimSpace input)) 100) eqn:Hlen; simpl; [|auto].
      apply Nat.ltb_lt in Hlen. auto.
Qed.

(** X3: an identifier returned by [ParseQuery] is a part of the trimmed
    input with its hyphens and spaces removed. *)
Theorem X3_identifier_from_input (input : gostring) :
  snd (fst (ParseQuery input)) = SearchTypeISBN ->
  exists pre m post,
    TrimSpace input = pre ++ m ++ post /\ cleanISBN m = snd (ParseQuery input).
Proof.
  unfold ParseQuery.
  destruct (isbnStep isbn13Pattern validateISBN13 (TrimSpace input)) as [i|] eqn:H13.
  - intros _. simpl. exact (isbnStep_part _ _ _ H13).
  - destruct (isbnStep isbn10Pattern validateISBN10 (TrimSpace input)) as [i|] eqn:H10.
    + intros _. simpl. exact (isbnStep_part _ _ _ H10).
    + unfold parseText.
      destruct (isSome (FindStringSubmatch authorPattern (TrimSpace input))); simpl;
        [discriminate|].
      destruct (negb (containsNumbers (TrimSpace input))
                && Nat.ltb (len (TrimSpace input)) 100); simpl; discriminate.
Qed.

Lemma X3_identifier_from_input_witness :
  exists pre m post,
    TrimSpace (str "ISBN 0-7432-7356-7 ") = pre ++ m ++ post /\
    cleanISBN m = str "0743273567".
Proof.
  apply (@X3_identifier_from_input (str "ISBN 0-7432-7356-7 ")). vm_compute. reflexivity.
Defined.

(** X4: a query whose trimmed text holds no digit is never classified as
    an identifier: it is TitleAuthor when the author pattern matches,
    otherwise Title when shorter than 100 bytes and General from 100 bytes
    on. *)
Theorem X4_no_digit_query (input : gostring) :
  existsb isDigit (TrimSpace input) = false ->
  ParseQuery input =
    if isSome (FindStringSubmatch authorPattern (TrimSpace input)) then
      (TrimSpace input, SearchTypeTitleAuthor, [])
    else if Nat.ltb (len (TrimSpace input)) 100 then
      (titleQuery (TrimSpace input), SearchTypeTitle, [])
    else (TrimSpace input, SearchTypeGeneralQuery, []).
Proof.
  intros Hd. destruct (no_digit_no_isbn _ Hd) as [H13 H10].
  unfold ParseQuery. rewrite H13, H10. unfold parseText, containsNumbers.
  rewrite Hd. reflexivity.
Qed.

Lemma X4_no_digit_query_witness :
  ParseQuery (str "Pride and Prejudice") =
  (titleQuery (str "Pride and Prejudice"), SearchTypeTitle, []).
Proof.
  exact (@X4_no_digit_query (str "Pride and Prejudice") eq_refl).
Defined.

(** ** The ISBN-10 step *)

Lemma checkIsbn10Shapes_true : checkIsbn10Shapes = true.
Proof. vm_compute. reflexivity. Qed.

Lemma isbn10_shape_match (prev : option cls) (g r p : nat) (b1 b2 b3 : bool)
    (after : list cls) :
  In prev quietPrevs ->
  (1 <= g <= 5)%nat -> (1 <= r)%nat -> (1 <= p)%nat -> (g + r + p = 9)%nat ->
  In after afterShapes ->
  firstMatch clsWord isbn10PatternC prev (isbn10Shape g r p b1 b2 b3 after)
  = Some (length after).
Proof.
  intros Hprev Hg Hr Hp Hsum Hafter.
  pose proof checkIsbn10Shapes_true as Hall. unfold checkIsbn10Shapes in Hall.
  rewrite forallb_forall in Hall. specialize (Hall prev Hprev).
  rewrite forallb_forall in Hall. specialize (Hall g).
  rewrite in_seq in Hall. specialize (Hall ltac:(lia)).
  rewrite forallb_forall in Hall. specialize (Hall r).
  rewrite in_seq in Hall. specialize (Hall ltac:(lia)).
  apply orb_true_iff in Hall as [Hall|Hall]; [apply Nat.leb_le in Hall; lia|].
  assert (Hbool : forall b : bool, In b [true; false]) by (intros []; simpl; auto).
  rewrite forallb_forall in Hall. specialize (Hall b1 (Hbool b1)).
  rewrite forallb_forall in Hall. specialize (Hall b2 (Hbool b2)).
  rewrite forallb_forall in Hall. specialize (Hall b3 (Hbool b3)).
  rewrite forallb_forall in Hall. specialize (Hall after Hafter).
  unfold isbn10ShapeOk in Hall. replace (9 - g - r)%nat with p in Hall by lia.
  destruct (firstMatch clsWord isbn10PatternC prev (isbn10Shape g r p b1 b2 b3 after))
    as [k|]; [|discriminate].
  simpl in Hall. apply Nat.eqb_eq in Hall. now subst.
Qed.

(** The classes of a symbol that is not a word symbol. *)
Lemma classify_quiet_prev (prev : option rune) :
  wordAt isWordRune prev = false -> In (option_map classify prev) quietPrevs.
Proof.
  destruct prev as [c|]; simpl; [|auto]. intros Hw. unfold classify.
  destruct (isDigit c) eqn:Hd; [rewrite (digit_word _ Hd) in Hw; discriminate|].
  rewrite Hw. destruct (isSep c); auto.
Qed.

(** The classes of the start of a quiet text after an identifier, and a
    first match that only depends on them. *)
Lemma quiet_firstMatch (r : re rune) (prev : option rune) (w post : gostring) :
  (forall c, isDigit c = false -> isSep c = false -> rejects r c) ->
  (forall after, In (map classify after) afterShapes ->
     firstMatch isWordRune r prev (w ++ after) = Some (length after)) ->
  quietAfter post = true ->
  firstMatch isWordRune r prev (w ++ post) = Some (length post).
Proof.
  intros Hrej Hshape Hpost. destruct post as [|c0 rest].
  - apply Hshape. simpl. auto.
  - simpl in Hpost. destruct (isSep c0) eqn:Hs0.
    + destruct rest as [|c1 rest'].
      * apply Hshape. simpl. rewrite (classify_sep_rune _ Hs0). auto.
      * apply andb_true_iff in Hpost as [Hd1 Hs1].
        apply negb_true_iff in Hd1, Hs1.
        change (w ++ c0 :: c1 :: rest') with (w ++ [c0] ++ c1 :: rest').
        rewrite app_assoc, firstMatch_tail by now apply Hrej.
        rewrite <- app_assoc, (Hshape ([c0] ++ [c1])); [reflexivity|].
        simpl. rewrite (classify_sep_rune _ Hs0). unfold classify.
        rewrite Hd1, Hs1. destruct (isWordRune c1); auto 6.
    + apply negb_true_iff in Hpost.
      assert (Hd0 : isDigit c0 = false).
      { destruct (isDigit c0) eqn:Hd; [|reflexivity].
        rewrite (digit_word _ Hd) in Hpost. discriminate. }
      rewrite firstMatch_tail by now apply Hrej.
      rewrite (Hshape [c0]); [reflexivity|].
      simpl. unfold classify. rewrite Hd0, Hs0, Hpost. auto.
Qed.

Lemma rejects_isbn10Pattern (c : rune) :
  isDigit c = false -> isSep c = false -> rejects isbn10Pattern c.
Proof. intros Hd Hs. simpl. tauto. Qed.

(** *** Counting digits *)

Lemma countDigits_app (s t : gostring) :
  countDigits (s ++ t) = (countDigits s + countDigits t)%nat.
Proof. unfold countDigits. now rewrite filter_app, length_app. Qed.

Lemma countDigits_none (s : gostring) : existsb isDigit s = false -> countDigits s = 0%nat.
Proof.
  unfold countDigits. induction s as [|c s IH]; simpl; [reflexivity|].
  destruct (isDigit c); simpl; [discriminate|exact IH].
Qed.

Lemma countDigits_all (s : gostring) : forallb isDigit s = true -> countDigits s = length s.
Proof.
  unfold countDigits. induction s as [|c s IH]; simpl; [reflexivity|].
  destruct (isDigit c); simpl; [|discriminate]. intros H. now rewrite IH.
Qed.

Lemma countDigits_sepText (x : separator) : countDigits (sepText x) = 0%nat.
Proof. destruct x; reflexivity. Qed.

Lemma countDigits_removeAll (old : rune) (s : gostring) :
  isDigit old = false -> countDigits (removeAll old s) = countDigits s.
Proof.
  intros Hold. unfold countDigits, removeAll.
  induction s as [|c s IH]; simpl; [reflexivity|].
  destruct (N.eqb_spec c old) as [->|]; simpl.
  - now rewrite Hold.
  - destruct (isDigit c); simpl; now rewrite IH.
Qed.

Lemma countDigits_cleanISBN (s : gostring) : countDigits (cleanISBN s) = countDigits s.
Proof. unfold cleanISBN. now rewrite !countDigits_removeAll. Qed.

(** A text in which the ISBN-13 step finds an identifier holds at least
    13 digits. *)
Lemma isbn13_step_digits (s isbn : gostring) :
  isbnStep isbn13Pattern validateISBN13 s = Some isbn -> (13 <= countDigits s)%nat.
Proof.
  intros H. destruct (isbnStep_part _ _ _ H) as (pre & m & post & -> & Hm).
  destruct (validateISBN13_spec _ (isbnStep_valid _ _ _ H)) as (Hd & Hl & _).
  rewrite !countDigits_app, <- (countDigits_cleanISBN m), Hm, (countDigits_all _ Hd). lia.
Qed.

Section IdentifiedIsbn10.

Variable i : isbn10.
Variables s1 s2 s3 : separator.
Hypothesis Hvalid : validIsbn10 i = true.

Lemma validIsbn10_parts :
  forallb isDigit (group10 i) = true /\ forallb isDigit (registrant10 i) = true /\
  forallb isDigit (publication10 i) = true /\ isDigit (checkDigit10 i) = true /\
  (1 <= length (group10 i) <= 5)%nat /\ (1 <= length (registrant10 i))%nat /\
  (1 <= length (publication10 i))%nat /\
  (length (group10 i) + length (registrant10 i) + length (publication10 i) = 9)%nat.
Proof.
  unfold validIsbn10 in Hvalid.
  repeat (apply andb_true_iff in Hvalid as [Hvalid ?]).
  repeat match goal with
  | H : Nat.leb _ _ = true |- _ => apply Nat.leb_le in H
  | H : Nat.eqb _ _ = true |- _ => apply Nat.eqb_eq in H
  end.
  repeat split; assumption.
Qed.

Lemma classify_isbn10 (after : gostring) :
  map classify (isbn10Written i s1 s2 s3 ++ after) =
  isbn10Shape (length (group10 i)) (length (registrant10 i)) (length (publication10 i))
    (sepPresent s1) (sepPresent s2) (sepPresent s3) (map classify after).
Proof.
  destruct validIsbn10_parts as (Hg & Hr & Hp & Hc & _).
  unfold isbn10Written, isbn10Shape.
  rewrite !map_app, !classify_sepText, (classify_digits _ Hg), (classify_digits _ Hr),
    (classify_digits _ Hp).
  simpl map. unfold classify at 1. rewrite Hc. reflexivity.
Qed.

Lemma isbn10_firstMatch (prev : option rune) (post : gostring) :
  wordAt isWordRune prev = false ->
  quietAfter post = true ->
  firstMatch isWordRune isbn10Pattern prev (isbn10Written i s1 s2 s3 ++ post)
  = Some (length post).
Proof.
  intros Hprev Hpost.
  destruct validIsbn10_parts as (_ & _ & _ & _ & Hlg & Hlr & Hlp & Hsum).
  apply quiet_firstMatch; [exact rejects_isbn10Pattern| |exact Hpost].
  intros after Hafter.
  rewrite (@firstMatch_classify _ _ prev _ sim_isbn10Pattern), classify_isbn10.
  rewrite (@isbn10_shape_match _ _ _ _ _ _ _ _ (classify_quiet_prev _ Hprev)
             Hlg Hlr Hlp Hsum Hafter).
  now rewrite length_map.
Qed.

Lemma isbn10Digits_digits : forallb isDigit (isbn10Digits i) = true.
Proof.
  destruct validIsbn10_parts as (Hg & Hr & Hp & Hc & _).
  unfold isbn10Digits, isbn10Written. simpl.
  rewrite !forallb_app, Hg, Hr, Hp. simpl. now rewrite Hc.
Qed.

Lemma isbn10Digits_length : length (isbn10Digits i) = 10%nat.
Proof.
  destruct validIsbn10_parts as (_ & _ & _ & _ & _ & _ & _ & Hsum).
  unfold isbn10Digits, isbn10Written. simpl. rewrite !length_app. simpl. lia.
Qed.

Lemma cleanISBN_isbn10 : cleanISBN (isbn10Written i s1 s2 s3) = isbn10Digits i.
Proof.
  destruct validIsbn10_parts as (Hg & Hr & Hp & Hc & _).
  unfold isbn10Digits, isbn10Written.
  rewrite !cleanISBN_app, !cleanISBN_sepText, (cleanISBN_digits _ Hg),
    (cleanISBN_digits _ Hr), (cleanISBN_digits _ Hp).
  rewrite (cleanISBN_digits [checkDigit10 i]) by (simpl; now rewrite Hc).
  reflexivity.
Qed.

Lemma countDigits_isbn10 : countDigits (isbn10Written i s1 s2 s3) = 10%nat.
Proof.
  rewrite <- countDigits_cleanISBN, cleanISBN_isbn10,
    (countDigits_all _ isbn10Digits_digits).
  apply isbn10Digits_length.
Qed.

End IdentifiedIsbn10.

(** X5: let the trimmed input hold a 10-digit identifier, written with
    nothing, a hyphen or a single space at each of the three boundaries of
    its elements (registration group of 1 to 5 digits), in a text without
    other digits, such that the text before it does not end in a word
    character and the text after it is empty, or begins with a character
    that is neither a word character nor a hyphen or white space, or
    begins with one hyphen or white space followed by nothing or by a
    character that is no hyphen or white space.  Then [ParseQuery] returns
    mode ISBN, the 10 digits as identifier and the query [isbn:] followed
    by the 10 digits. *)
Theorem X5_isbn10_identified (input pre post : gostring) (i : isbn10)
    (s1 s2 s3 : separator) :
  validIsbn10 i = true ->
  quietBefore pre = true ->
  quietAfter post = true ->
  existsb isDigit post = false ->
  TrimSpace input = pre ++ isbn10Written i s1 s2 s3 ++ post ->
  ParseQuery input = (str "isbn:" ++ isbn10Digits i, SearchTypeISBN, isbn10Digits i).
Proof.
  intros Hvalid Hpre Hpost Hnodigit Htrim. unfold ParseQuery. rewrite Htrim.
  unfold quietBefore in Hpre. apply andb_true_iff in Hpre as [Hpre Hlast].
  apply negb_true_iff in Hpre, Hlast.
  destruct (isbnStep isbn13Pattern validateISBN13
              (pre ++ isbn10Written i s1 s2 s3 ++ post)) as [x|] eqn:H13.
  - exfalso. pose proof (isbn13_step_digits _ H13) as Hcount.
    rewrite !countDigits_app, (countDigits_none _ Hpre), (countDigits_none _ Hnodigit),
      (@countDigits_isbn10 i s1 s2 s3 Hvalid) in Hcount. lia.
  - assert (H10 : isbnStep isbn10Pattern validateISBN10
                    (pre ++ isbn10Written i s1 s2 s3 ++ post) = Some (isbn10Digits i)).
    { unfold isbnStep, FindStringSubmatch. rewrite find_skip.
      - rewrite (@find_first _ _ _ _ _ _ (@isbn10_firstMatch i s1 s2 s3 Hvalid _ post
                                           Hlast Hpost)).
        rewrite firstn_app_exact, (@cleanISBN_isbn10 i s1 s2 s3 Hvalid).
        unfold validateISBN10, isAllDigits.
        rewrite (@isbn10Digits_digits i Hvalid),
          (len_digits _ (@isbn10Digits_digits i Hvalid)), (@isbn10Digits_length i Hvalid).
        reflexivity.
      - intros c Hc prev s. apply isbn10Pattern_not_digit.
        destruct (isDigit c) eqn:Hd; [|reflexivity].
        assert (Hex : existsb isDigit pre = true) by (apply existsb_exists; now exists c).
        congruence. }
    now rewrite H10.
Qed.

Lemma X5_isbn10_identified_witness :
  ParseQuery (str "ISBN: 0-7432-7356-7 (Scribner)") =
  (str "isbn:0743273567", SearchTypeISBN, str "0743273567").
Proof.
  exact (@X5_isbn10_identified (str "ISBN: 0-7432-7356-7 (Scribner)")
           (str "ISBN: ") (str " (Scribner)") gatsbyIsbn10
           Hyphen Hyphen Hyphen eq_refl eq_refl eq_refl eq_refl eq_refl).
Defined.

(** ** A run of digits followed by a letter *)

Lemma firstMatch_None (A : Type) (isWord : A -> bool) (r : re A) (prev : option A)
    (s : list A) :
  firstMatch isWord r prev s = None -> ms isWord r prev s = [].
Proof. unfold firstMatch. destruct (ms isWord r prev s); [reflexivity|discriminate]. Qed.

(** The match of the ISBN-13 pattern at the start of a text goes through
    the prefix 978 or 979. *)
Lemma isbn13Pattern_start (prev : option rune) (a b c : rune) (t : gostring) :
  wordAt isWordRune prev = false ->
  ms isWordRune isbn13Pattern prev (a :: b :: c :: t) =
  if ((a =? chr "9") && (b =? chr "7") && ((c =? chr "8") || (c =? chr "9")))%N
  then ms isWordRune (Seq isbn13Tail WordB) (Some c) t
  else [].
Proof.
  intros Hprev.
  destruct (a =? chr "9")%N eqn:Ea; [|now apply isbn13Pattern_not9].
  apply N.eqb_eq in Ea. subst a.
  destruct (b =? chr "7")%N eqn:Eb.
  - apply N.eqb_eq in Eb. subst b.
    destruct ((c =? chr "8") || (c =? chr "9"))%N eqn:Ec.
    + apply isbn13Pattern_head; [exact Hprev|].
      apply orb_true_iff in Ec as [Ec|Ec]; apply N.eqb_eq in Ec; auto.
    + simpl andb. unfold isbn13Pattern.
      rewrite ms_WordB_Seq by (unfold boundary; now rewrite Hprev).
      apply ms_Seq_nil. unfold lit. rewrite !ms_Chr_Seq by reflexivity.
      unfold re89. now apply ms_Chr_Seq_nil.
  - simpl andb. unfold isbn13Pattern.
    rewrite ms_WordB_Seq by (unfold boundary; now rewrite Hprev).
    apply ms_Seq_nil. unfold lit. rewrite ms_Chr_Seq by reflexivity.
    now apply ms_Chr_Seq_nil.
Qed.

Lemma isbn13Tail_six_digits_letter :
  firstMatch clsWord (Seq isbn13TailC WordB) (Some CDigit) (repeat CDigit 6 ++ [CWord]) = None.
Proof. vm_compute. reflexivity. Qed.

Lemma isbn10Pattern_nine_digits_letter :
  firstMatch clsWord isbn10PatternC None (repeat CDigit 9 ++ [CWord]) = None.
Proof. vm_compute. reflexivity. Qed.

Lemma classify_letter (x : rune) :
  isWordRune x = true -> isDigit x = false -> classify x = CWord.
Proof.
  intros Hw Hd. unfold classify. rewrite Hd, Hw.
  destruct (isSep x) eqn:Hs; [|reflexivity].
  rewrite (sep_not_word _ Hs) in Hw. discriminate.
Qed.

(** X6: a trimmed input of nine digits directly followed by a letter or an
    underscore, as an ISBN-10 whose check character is X, is accepted by
    neither identifier step and classified General. *)
Theorem X6_isbn10_with_letter (input ds : gostring) (x : rune) :
  TrimSpace input = ds ++ [x] ->
  length ds = 9%nat -> forallb isDigit ds = true ->
  isWordRune x = true -> isDigit x = false ->
  ParseQuery input = (ds ++ [x], SearchTypeGeneralQuery, []).
Proof.
  intros Htrim Hlen Hd Hw Hx.
  assert (Hcls : map classify (ds ++ [x]) = repeat CDigit 9 ++ [CWord]).
  { rewrite map_app, (classify_digits _ Hd), Hlen. simpl.
    now rewrite (classify_letter _ Hw Hx). }
  assert (Hwords : forallb isWordRune (ds ++ [x]) = true).
  { rewrite forallb_app, (digits_words _ Hd). simpl. now rewrite Hw. }
  destruct ds as [|a [|b [|c t]]]; try discriminate Hlen.
  assert (Ha : isDigit a = true) by (simpl in Hd; now apply andb_true_iff in Hd as [? _]).
  assert (Hrest : forallb isWordRune ((b :: c :: t) ++ [x]) = true).
  { simpl in Hwords. now apply andb_true_iff in Hwords as [_ ?]. }
  assert (H13 : FindStringSubmatch isbn13Pattern ((a :: b :: c :: t) ++ [x]) = None).
  { unfold FindStringSubmatch. simpl app. rewrite find_cons_nil.
    - unfold isbn13Pattern. apply find_inside_word;
        [reflexivity|now apply digit_word|exact Hrest].
    - rewrite isbn13Pattern_start by reflexivity.
      destruct ((a =? chr "9") && (b =? chr "7") && ((c =? chr "8") || (c =? chr "9")))%N;
        [|reflexivity].
      apply firstMatch_None.
      rewrite (@firstMatch_classify _ _ (Some c) (t ++ [x]) sim_isbn13Tail).
      simpl in Hcls. injection Hcls as _ _ Hc Ht. rewrite Ht.
      simpl option_map. rewrite Hc. exact isbn13Tail_six_digits_letter. }
  assert (H10 : FindStringSubmatch isbn10Pattern ((a :: b :: c :: t) ++ [x]) = None).
  { unfold FindStringSubmatch. simpl app. rewrite find_cons_nil.
    - unfold isbn10Pattern. apply find_inside_word;
        [reflexivity|now apply digit_word|exact Hrest].
    - apply firstMatch_None.
      rewrite (@firstMatch_classify _ _ None _ sim_isbn10Pattern).
      change (a :: b :: c :: t ++ [x]) with ((a :: b :: c :: t) ++ [x]).
      rewrite Hcls. exact isbn10Pattern_nine_digits_letter. }
  assert (Hau : FindStringSubmatch authorPattern ((a :: b :: c :: t) ++ [x]) = None).
  { unfold FindStringSubmatch. simpl app.
    rewrite (@find_cons_nil _ _ _ _ _ _ (@authorPattern_not_digit None a _ Ha)).
    unfold authorPattern. apply find_inside_word;
      [reflexivity|now apply digit_word|exact Hrest]. }
  unfold ParseQuery, isbnStep. rewrite Htrim, H13, H10.
  unfold parseText. rewrite Hau. simpl. now rewrite Ha.
Qed.

Lemma X6_isbn10_with_letter_witness :
  ParseQuery (str "080442957X") = (str "080442957X", SearchTypeGeneralQuery, []).
Proof.
  exact (@X6_isbn10_with_letter (str "080442957X") (str "080442957") (chr "X")
           eq_refl eq_refl eq_refl eq_refl eq_refl).
Defined.

(* ================================================================= *)
(** * Further properties of the client *)

(** ** Thumbnails *)

Lemma HasPrefix_split (s p : gostring) :
  HasPrefix s p = true -> s = p ++ skipn (length p) s.
Proof.
  revert s. induction p as [|a p IH]; intros s; simpl; [reflexivity|].
  destruct s as [|c s]; [discriminate|]. intros H.
  apply andb_true_iff in H as [Hc Hs]. apply N.eqb_eq in Hc. subst c.
  simpl. f_equal. now apply IH.
Qed.

Lemma ensureHTTPS_not_http (url : gostring) :
  HasPrefix (ensureHTTPS url) (str "http://") = false.
Proof.
  unfold ensureHTTPS. destruct url as [|c url]; [reflexivity|]. simpl isEmpty. cbv iota.
  destruct (HasPrefix (c :: url) (str "http://")) eqn:Hp; [reflexivity|exact Hp].
Qed.

(** X7: [ensureHTTPS] replaces the leading [http://] by [https://] and
    leaves what follows as it is; its result never begins with [http://],
    and applying it twice is applying it once. *)
Theorem X7_ensureHTTPS (url rest : gostring) :
  ensureHTTPS (str "http://" ++ rest) = str "https://" ++ rest /\
  HasPrefix (ensureHTTPS url) (str "http://") = false /\
  ensureHTTPS (ensureHTTPS url) = ensureHTTPS url.
Proof.
  split; [reflexivity|]. split; [apply ensureHTTPS_not_http|].
  pose proof (ensureHTTPS_not_http url) as Hn.
  unfold ensureHTTPS at 1. rewrite Hn.
  destruct (ensureHTTPS url); reflexivity.
Qed.

Lemma ThumbnailURL_setThumbnail (info : books.VolumeVolumeInfo) (r : BookResult) :
  ThumbnailURL r = [] ->
  ThumbnailURL (setThumbnail info r) = ensureHTTPS (preferredThumbnail info).
Proof.
  intros Hr. unfold setThumbnail, preferredThumbnail.
  destruct (books.ImageLinks info) as [links|]; [|exact Hr].
  destruct (books.Thumbnail links) as [|c t]; simpl; [|reflexivity].
  destruct (books.SmallThumbnail links) as [|c t]; simpl; [exact Hr|reflexivity].
Qed.

Lemma ThumbnailURL_before (v : books.Volume) (info : books.VolumeVolumeInfo)
    (t : SearchType) (d : gostring) :
  ThumbnailURL (setYear info (setLanguage (books.Language info)
    (setPublisher (books.Publisher info) (backfillISBN d (extractedResult v info t))))) = [].
Proof.
  unfold setYear. destruct (isEmpty (books.PublishedDate info)); simpl;
    unfold backfillISBN;
    destruct (negb (isEmpty d) && isEmpty (ISBN10 (extractedResult v info t))
              && isEmpty (ISBN13 (extractedResult v info t)));
    try destruct (Nat.eqb (len d) 10); try destruct (Nat.eqb (len d) 13); simpl;
    unfold extractedResult; rewrite fold_extractISBN; reflexivity.
Qed.

(** X8: the thumbnail of a projected record is the record's primary
    thumbnail, or its small thumbnail when the primary one is empty, passed
    through [ensureHTTPS] (empty when the record has neither); it never
    begins with [http://]. *)
Theorem X8_projected_thumbnail (v : books.Volume) (info : books.VolumeVolumeInfo)
    (t : SearchType) (d : gostring) :
  books.VolumeInfo v = Some info ->
  exists r, volumeToBookResult v t d = Some r /\
    ThumbnailURL r = ensureHTTPS (preferredThumbnail info) /\
    HasPrefix (ThumbnailURL r) (str "http://") = false.
Proof.
  intros Hinfo. eexists. split; [apply (@volumeToBookResult_info v info t d Hinfo)|].
  assert (Hurl : ThumbnailURL (setConfidence (calculateConfidence t v)
            (setThumbnail info (setYear info (setLanguage (books.Language info)
               (setPublisher (books.Publisher info)
                  (backfillISBN d (extractedResult v info t)))))))
          = ensureHTTPS (preferredThumbnail info)).
  { simpl. apply ThumbnailURL_setThumbnail, ThumbnailURL_before. }
  split; [exact Hurl|]. rewrite Hurl. apply ensureHTTPS_not_http.
Qed.

Lemma X8_projected_thumbnail_witness :
  exists r, volumeToBookResult cover SearchTypeTitle [] = Some r /\
    ThumbnailURL r = str "https://books.google.com/c?id=1&u=http://x".
Proof.
  destruct (@X8_projected_thumbnail cover coverInfo SearchTypeTitle [] eq_refl)
    as (r & Hr & Hurl & _).
  exists r. split; [exact Hr|]. rewrite Hurl. reflexivity.
Defined.

(** ** Published years *)

Lemma extractYear_range (dateStr : gostring) :
  extractYear dateStr = 0%Z \/ (1000 < extractYear dateStr < 3000)%Z.
Proof.
  rewrite extractYear_token. destruct (yearToken dateStr) as [y|]; [|now left].
  unfold validYear. destruct (1000 <? y)%Z eqn:Hlo; simpl; [|now left].
  destruct (y <? 3000)%Z eqn:Hhi; [|now left].
  right. apply Z.ltb_lt in Hlo, Hhi. lia.
Qed.

(** X9: the published year of a projected record is 0 (unset) or lies
    strictly between 1000 and 3000. *)
Theorem X9_published_year_range (v : books.Volume) (t : SearchType) (d : gostring)
    (r : BookResult) :
  volumeToBookResult v t d = Some r ->
  PublishedYear r = 0%Z \/ (1000 < PublishedYear r < 3000)%Z.
Proof.
  intros Hr. destruct (books.VolumeInfo v) as [info|] eqn:Hinfo.
  - destruct (@volumeToBookResult_fields v info t d Hinfo)
      as (r' & Hr' & _ & _ & _ & _ & Hy).
    rewrite Hr in Hr'. injection Hr' as <-. rewrite Hy.
    destruct (isEmpty (books.PublishedDate info)); [now left|apply extractYear_range].
  - unfold volumeToBookResult in Hr. rewrite Hinfo in Hr. discriminate.
Qed.

Lemma X9_published_year_range_witness :
  exists r, volumeToBookResult gatsby SearchTypeISBN detected13 = Some r /\
    (PublishedYear r = 0%Z \/ (1000 < PublishedYear r < 3000)%Z).
Proof.
  eexists. split; [reflexivity|].
  apply (@X9_published_year_range gatsby SearchTypeISBN detected13). reflexivity.
Defined.

Lemma SplitHead_app (sep : rune) (s rest : gostring) :
  forallb (fun c => negb (c =? sep)%N) s = true ->
  SplitHead sep (s ++ sep :: rest) = s.
Proof.
  induction s as [|c s IH]; simpl.
  - now rewrite N.eqb_refl.
  - intros H. apply andb_true_iff in H as [Hc Hs].
    destruct (c =? sep)%N; [discriminate|]. now rewrite IH.
Qed.

Lemma digitsValue_digits (s : gostring) : forall acc n,
  digitsValue acc s = Some n -> forallb isDigit s = true.
Proof.
  induction s as [|c s IH]; intros acc n H; simpl in *; [reflexivity|].
  destruct (isDigit c); [|discriminate]. simpl. exact (IH _ _ H).
Qed.

Lemma Atoi_year (ds : gostring) (y : Z) :
  digitsValue 0 ds = Some y -> validYear y = true -> Atoi ds = Some y.
Proof.
  intros Hv Hy. unfold validYear in Hy. apply andb_true_iff in Hy as [Hlo Hhi].
  apply Z.ltb_lt in Hlo, Hhi.
  destruct ds as [|c s]; [simpl in Hv; injection Hv as <-; lia|].
  pose proof (digitsValue_digits _ _ Hv) as Hd. simpl in Hd.
  apply andb_true_iff in Hd as [Hc _]. unfold isDigit in Hc.
  apply andb_true_iff in Hc as [Hc1 Hc2]. apply N.leb_le in Hc1, Hc2.
  unfold Atoi. change (chr "-") with 45%N. change (chr "+") with 43%N.
  destruct (N.eqb_spec c 45); [lia|]. destruct (N.eqb_spec c 43); [lia|].
  rewrite Hv.
  destruct (Z.leb_spec (- 2 ^ 63) y); [|lia].
  destruct (Z.leb_spec y (2 ^ 63 - 1)); [reflexivity|lia].
Qed.

(** X10: a date that is a run of decimal digits denoting a year strictly
    between 1000 and 3000, alone or followed by a hyphen and anything,
    gives that year. *)
Theorem X10_year_before_hyphen (ds rest : gostring) (y : Z) :
  digitsValue 0 ds = Some y -> validYear y = true ->
  extractYear ds = y /\ extractYear (ds ++ chr "-" :: rest) = y.
Proof.
  intros Hv Hy. pose proof (Atoi_year _ Hv Hy) as Ha.
  pose proof (digits_no_hyphen _ (digitsValue_digits _ _ Hv)) as Hn.
  rewrite !extractYear_token. unfold yearToken.
  rewrite (@SplitHead_id _ ds Hn), (@SplitHead_app _ ds rest Hn), Ha, Hy. auto.
Qed.

Lemma X10_year_before_hyphen_witness :
  extractYear (str "1925") = 1925%Z /\
  extractYear (str "1925" ++ chr "-" :: str "04-10T00:00") = 1925%Z.
Proof.
  exact (@X10_year_before_hyphen (str "1925") (str "04-10T00:00") 1925%Z eq_refl eq_refl).
Defined.

(** ** Scores *)

Lemma mapIndex_nonneg (m : SearchType) :
  (0 <=? mapIndex baseConfidence m)%float = true.
Proof. destruct m; vm_compute; reflexivity. Qed.

(** X11: for a fixed mode, a record with at least as many of the four
    signals (title, authors, identifiers, publisher) as another never
    scores lower. *)
Theorem X11_score_monotone (m : SearchType) (va vb : books.Volume)
    (a b : books.VolumeVolumeInfo) :
  books.VolumeInfo va = Some a -> books.VolumeInfo vb = Some b ->
  (Spec.count (Spec.signals a) <= Spec.count (Spec.signals b))%Z ->
  (calculateConfidence m va <=? calculateConfidence m vb)%float = true.
Proof.
  intros Ha Hb Hle.
  rewrite (calculateConfidence_info m va Ha), (calculateConfidence_info m vb Hb).
  unfold Spec.completeness. revert Hle.
  assert (Hca : In (Spec.count (Spec.signals a)) [0; 1; 2; 3; 4]%Z).
  { unfold Spec.signals, Spec.count.
    destruct a as [title authors ids publisher lang date links]; simpl.
    destruct title, authors, ids, publisher; simpl; tauto. }
  assert (Hcb : In (Spec.count (Spec.signals b)) [0; 1; 2; 3; 4]%Z).
  { unfold Spec.signals, Spec.count.
    destruct b as [title authors ids publisher lang date links]; simpl.
    destruct title, authors, ids, publisher; simpl; tauto. }
  destruct Hca as [<-|[<-|[<-|[<-|[<-|[]]]]]];
    destruct Hcb as [<-|[<-|[<-|[<-|[<-|[]]]]]];
    intros Hle; try (exfalso; lia); destruct m; vm_compute; reflexivity.
Qed.

Lemma X11_score_monotone_witness :
  (calculateConfidence SearchTypeISBN noIdentifier <=?
   calculateConfidence SearchTypeISBN gatsby)%float = true.
Proof.
  apply (@X11_score_monotone SearchTypeISBN noIdentifier gatsby noIdentifierInfo gatsbyInfo);
    [reflexivity|reflexivity|]. vm_compute. discriminate.
Defined.

(** ** The results of a search *)

Lemma convertItems_complete (marshal : books.Volume -> option gostring)
    (t : SearchType) (d : gostring) (items : list books.Volume) : forall acc,
  forallb hasVolumeInfo items = true ->
  exists rs, convertItems marshal items t d acc = Some (acc ++ rs) /\
             Forall2 (itemResult marshal t d) items rs.
Proof.
  induction items as [|v items IH]; intros acc Hall; simpl.
  - exists []. rewrite app_nil_r. split; [reflexivity|constructor].
  - simpl in Hall. apply andb_true_iff in Hall as [Hv Hitems].
    unfold hasVolumeInfo in Hv.
    destruct (books.VolumeInfo v) as [info|] eqn:Hinfo; [|discriminate].
    destruct (@volumeToBookResult_fields v info t d Hinfo) as (r & Hr & _).
    rewrite Hr.
    destruct (IH (acc ++ [setGoogleBooksData (marshal v) r]) Hitems) as (rs & Hrs & HF).
    exists (setGoogleBooksData (marshal v) r :: rs). split.
    + rewrite Hrs, <- app_assoc. reflexivity.
    + constructor; [now exists r|exact HF].
Qed.

Lemma convertItems_panics (marshal : books.Volume -> option gostring)
    (t : SearchType) (d : gostring) (items : list books.Volume) : forall acc,
  forallb hasVolumeInfo items = false ->
  convertItems marshal items t d acc = None.
Proof.
  induction items as [|v items IH]; intros acc Hall; simpl in *; [discriminate|].
  unfold hasVolumeInfo in Hall at 1.
  destruct (books.VolumeInfo v) as [info|] eqn:Hinfo.
  - destruct (@volumeToBookResult_fields v info t d Hinfo) as (r & Hr & _).
    rewrite Hr. apply IH. exact Hall.
  - unfold volumeToBookResult. now rewrite Hinfo.
Qed.

(** X13: when the service answers a non-empty query with a list of
    items, [Search] panics if some item has no VolumeInfo; otherwise it
    returns one result per item, in the order of the service, each the
    projection of its item under the mode and identifier of the query with
    the marshalled item attached (nothing when marshalling fails).  An
    empty list of items gives an empty list of results. *)
Theorem X13_search_results (E : Type) (service : gostring -> E + list books.Volume)
    (marshal : books.Volume -> option gostring) (query : gostring)
    (items : list books.Volume) :
  query <> [] ->
  service (fst (fst (ParseQuery query))) = inr items ->
  if forallb hasVolumeInfo items then
    exists results, Search service marshal query = Returns E results /\
      Forall2 (itemResult marshal (snd (fst (ParseQuery query))) (snd (ParseQuery query)))
        items results
  else Search service marshal query = Panics E.
Proof.
  intros Hne Hservice. unfold Search.
  destruct query as [|c query]; [contradiction|]. simpl isEmpty. cbv iota.
  destruct (ParseQuery (c :: query)) as [[q t] d]. simpl in *. rewrite Hservice.
  destruct (forallb hasVolumeInfo items) eqn:Hall.
  - destruct (convertItems_complete marshal t d items [] Hall) as (rs & Hrs & HF).
    exists rs. now rewrite Hrs.
  - now rewrite (convertItems_panics marshal t d items [] Hall).
Qed.

Lemma X13_search_results_witness :
  (exists results,
     Search oneVolumeService noMarshal detected13 = Returns unit results /\
     Forall2 (itemResult noMarshal SearchTypeISBN detected13) [gatsby] results) /\
  Search brokenService noMarshal detected13 = Panics unit.
Proof.
  split.
  - apply (@X13_search_results unit oneVolumeService noMarshal detected13 [gatsby]);
      [discriminate|reflexivity].
  - apply (@X13_search_results unit brokenService noMarshal detected13 [gatsby; bareVolume]);
      [discriminate|reflexivity].
Defined.

(** ** Fields copied by the projection *)

Ltac projection_cases v info t d :=
  simpl; unfold setThumbnail;
  destruct (books.ImageLinks info) as [links|];
  [destruct (isEmpty (books.Thumbnail links)), (isEmpty (books.SmallThumbnail links))|];
  simpl; unfold setYear; destruct (isEmpty (books.PublishedDate info)); simpl;
  unfold backfillISBN;
  destruct (negb (isEmpty d) && isEmpty (ISBN10 (extractedResult v info t))
            && isEmpty (ISBN13 (extractedResult v info t)));
  try destruct (Nat.eqb (len d) 10); try destruct (Nat.eqb (len d) 13); simpl;
  unfold extractedResult; rewrite ?fold_extractISBN; reflexivity.

(** X14: the projection copies the title, the list of authors (order and
    duplicates kept), the publisher, the language and the volume id of the
    record unchanged, and attaches no raw data itself. *)
Theorem X14_projection_copies (v : books.Volume) (info : books.VolumeVolumeInfo)
    (t : SearchType) (d : gostring) :
  books.VolumeInfo v = Some info ->
  exists r, volumeToBookResult v t d = Some r /\
    Title r = books.Title info /\ Authors r = books.Authors info /\
    Publisher r = books.Publisher info /\ Language r = books.Language info /\
    GoogleBooksVolumeID r = books.Id v /\ GoogleBooksData r = None.
Proof.
  intros Hinfo. eexists. split; [apply (@volumeToBookResult_info v info t d Hinfo)|].
  repeat split; projection_cases v info t d.
Qed.

Lemma X14_projection_copies_witness :
  exists r, volumeToBookResult gatsby SearchTypeISBN detected13 = Some r /\
    Title r = str "The Great Gatsby" /\ Authors r = [str "F. Scott Fitzgerald"] /\
    Publisher r = str "Scribner".
Proof.
  destruct (@X14_projection_copies gatsby gatsbyInfo SearchTypeISBN detected13 eq_refl)
    as (r & Hr & Ht & Ha & Hp & _).
  exists r. repeat split; assumption.
Defined.

(** ** Identifier queries *)

Lemma ParseQuery_isbn_len (query : gostring) :
  snd (fst (ParseQuery query)) = SearchTypeISBN ->
  len (snd (ParseQuery query)) = 10%nat \/ len (snd (ParseQuery query)) = 13%nat.
Proof.
  unfold ParseQuery.
  destruct (isbnStep isbn13Pattern validateISBN13 (TrimSpace query)) as [i|] eqn:H13.
  - intros _. simpl. right.
    destruct (validateISBN13_spec _ (isbnStep_valid _ _ _ H13)) as (Hd & Hl & _).
    now rewrite (len_digits _ Hd).
  - destruct (isbnStep isbn10Pattern validateISBN10 (TrimSpace query)) as [i|] eqn:H10.
    + intros _. simpl. left.
      destruct (validateISBN10_spec _ (isbnStep_valid _ _ _ H10)) as (Hd & Hl).
      now rewrite (len_digits _ Hd).
    + unfold parseText.
      destruct (isSome (FindStringSubmatch authorPattern (TrimSpace query))); simpl;
        [discriminate|].
      destruct (negb (containsNumbers (TrimSpace query))
                && Nat.ltb (len (TrimSpace query)) 100); simpl; discriminate.
Qed.

Lemma len_nonempty (d : gostring) :
  len d = 10%nat \/ len d = 13%nat -> isEmpty d = false.
Proof. destruct d; simpl; [intros [H|H]; discriminate|reflexivity]. Qed.

Lemma backfillISBN_filled (d : gostring) (r : BookResult) :
  len d = 10%nat \/ len d = 13%nat ->
  ISBN10 (backfillISBN d r) <> [] \/ ISBN13 (backfillISBN d r) <> [].
Proof.
  intros Hlen. pose proof (len_nonempty _ Hlen) as Hne.
  unfold backfillISBN. rewrite Hne. simpl negb. simpl andb at 1.
  destruct (ISBN10 r) as [|c10 r10] eqn:E10; simpl.
  - destruct (ISBN13 r) as [|c13 r13] eqn:E13; simpl.
    + destruct Hlen as [H|H]; rewrite H; simpl.
      * left. destruct d; [discriminate|]. discriminate.
      * right. destruct d; [discriminate|]. discriminate.
    + right. rewrite E13. discriminate.
  - left. rewrite E10. discriminate.
Qed.

(** X15: for a query classified as an identifier, every result that
    [Search] returns holds an identifier, and which one is determined by
    its item: when the identifier list of the item fills one of the two
    ISBN fields (the last entry of each type counts), both fields hold the
    item's own values; when it fills neither, the field that matches the
    length of the identifier detected in the query holds that identifier
    and the other field is empty. *)
Theorem X15_isbn_query_results (E : Type) (service : gostring -> E + list books.Volume)
    (marshal : books.Volume -> option gostring) (query : gostring)
    (items : list books.Volume) (results : list BookResult) :
  snd (fst (ParseQuery query)) = SearchTypeISBN ->
  service (fst (fst (ParseQuery query))) = inr items ->
  Search service marshal query = Returns E results ->
  Forall2 (fun v r =>
    exists info, books.VolumeInfo v = Some info /\
      let own10 := lastOfType (str "ISBN_10") (books.IndustryIdentifiers info) [] in
      let own13 := lastOfType (str "ISBN_13") (books.IndustryIdentifiers info) [] in
      let d := snd (ParseQuery query) in
      (ISBN10 r <> [] \/ ISBN13 r <> []) /\
      (own10 <> [] \/ own13 <> [] -> ISBN10 r = own10 /\ ISBN13 r = own13) /\
      (own10 = [] -> own13 = [] ->
         (len d = 10%nat /\ ISBN10 r = d /\ ISBN13 r = []) \/
         (len d = 13%nat /\ ISBN10 r = [] /\ ISBN13 r = d)))
    items results.
Proof.
  intros Hmode Hservice. pose proof (ParseQuery_isbn_len query Hmode) as Hlen.
  unfold Search. destruct (isEmpty query); [discriminate|].
  destruct (ParseQuery query) as [[q t] d]. simpl in *. rewrite Hservice.
  destruct (forallb hasVolumeInfo items) eqn:Hall;
    [|now rewrite (convertItems_panics marshal t d items [] Hall)].
  destruct (convertItems_complete marshal t d items [] Hall) as (rs & Hrs & HF).
  rewrite Hrs. simpl. intros H. injection H as <-.
  refine (Forall2_impl _ _ HF). clear HF Hrs Hall Hservice.
  intros v r (r0 & Hr0 & ->).
  destruct (books.VolumeInfo v) as [info|] eqn:Hinfo;
    [|unfold volumeToBookResult in Hr0; rewrite Hinfo in Hr0; discriminate].
  exists info. split; [reflexivity|].
  destruct (@volumeToBookResult_fields v info t d Hinfo)
    as (r' & Hr' & _ & _ & H10 & H13 & _).
  rewrite Hr0 in Hr'. injection Hr' as <-.
  destruct (@extracted_fields v info t) as (E10 & E13 & _).
  assert (F10 : ISBN10 (setGoogleBooksData (marshal v) r0) = ISBN10 r0) by reflexivity.
  assert (F13 : ISBN13 (setGoogleBooksData (marshal v) r0) = ISBN13 r0) by reflexivity.
  cbv zeta. rewrite F10, F13, H10, H13.
  split; [now apply backfillISBN_filled|].
  unfold backfillISBN. rewrite E10, E13, (len_nonempty _ Hlen). simpl negb.
  rewrite !andb_true_l.
  split.
  - intros Hown.
    assert (Hguard : isEmpty (lastOfType (str "ISBN_10") (books.IndustryIdentifiers info) [])
                     && isEmpty (lastOfType (str "ISBN_13") (books.IndustryIdentifiers info) [])
                     = false).
    { destruct (lastOfType (str "ISBN_10") (books.IndustryIdentifiers info) []);
        [destruct (lastOfType (str "ISBN_13") (books.IndustryIdentifiers info) []);
           [destruct Hown; contradiction|]|]; reflexivity. }
    rewrite Hguard. auto.
  - intros O10 O13. rewrite O10, O13. simpl.
    destruct Hlen as [Hl|Hl]; rewrite Hl; simpl; [left|right];
      rewrite ?E10, ?E13, ?O10, ?O13; auto.
Qed.

Lemma X15_isbn_query_results_witness :
  Forall2 (fun v r =>
    exists info, books.VolumeInfo v = Some info /\
      let own10 := lastOfType (str "ISBN_10") (books.IndustryIdentifiers info) [] in
      let own13 := lastOfType (str "ISBN_13") (books.IndustryIdentifiers info) [] in
      let d := snd (ParseQuery detected13) in
      (ISBN10 r <> [] \/ ISBN13 r <> []) /\
      (own10 <> [] \/ own13 <> [] -> ISBN10 r = own10 /\ ISBN13 r = own13) /\
      (own10 = [] -> own13 = [] ->
         (len d = 10%nat /\ ISBN10 r = d /\ ISBN13 r = []) \/
         (len d = 13%nat /\ ISBN10 r = [] /\ ISBN13 r = d)))
    [noIdentifier]
    (match Search noIdentifierService noMarshal detected13 with
     | Returns _ results => results
     | _ => []
     end).
Proof.
  exact (@X15_isbn_query_results unit noIdentifierService noMarshal detected13
           [noIdentifier] _ eq_refl eq_refl eq_refl).
Defined.

(* ================================================================= *)
(** * The author step, conversely *)

Section MatchInversion.

Variable A : Type.
Variable isWord : A -> bool.

Lemma ms_Seq_inv (r1 r2 : re A) (prev : option A) (s : list A) (y : mstate A) :
  In y (ms isWord (Seq r1 r2) prev s) ->
  exists x, In x (ms isWord r1 prev s) /\ In y (ms isWord r2 (fst x) (snd x)).
Proof. simpl. intros H. apply in_flat_map in H. exact H. Qed.

Lemma ms_Chr_inv (p : A -> bool) (prev : option A) (s : list A) (x : mstate A) :
  In x (ms isWord (Chr p) prev s) ->
  exists c, s = c :: snd x /\ p c = true /\ fst x = Some c.
Proof.
  simpl. destruct s as [|c s]; [contradiction|].
  destruct (p c) eqn:Hp; [|contradiction].
  intros [<- | []]. now exists c.
Qed.

Lemma ms_WordB_inv (prev : option A) (s : list A) (x : mstate A) :
  In x (ms isWord WordB prev s) -> boundary isWord prev s = true /\ x = (prev, s).
Proof.
  simpl. destruct (boundary isWord prev s); [|contradiction].
  intros [<- | []]. auto.
Qed.

(** What a repetition of a class consumes is a run of the class. *)
Lemma rep_class_inv (p : A -> bool) (x : mstate A) : forall hi lo prev s,
  In x (rep (ms isWord (Chr p)) lo hi prev s) ->
  exists ws, s = ws ++ snd x /\ forallb p ws = true /\ (lo <= length ws)%nat.
Proof.
  induction hi as [|hi IH]; intros lo prev s; simpl.
  - destruct (Nat.eqb_spec lo 0); [|contradiction].
    intros [<- | []]. exists []. simpl. split; [reflexivity|]. split; [reflexivity|lia].
  - intros H. apply in_app_or in H as [H|H].
    + apply in_flat_map in H as (z & Hz & Hx).
      destruct s as [|c s]; [contradiction|].
      destruct (p c) eqn:Hp; [|contradiction].
      destruct Hz as [<- | []]. simpl in Hx.
      destruct (IH _ _ _ Hx) as (ws & -> & Hws & Hlen).
      exists (c :: ws). simpl. rewrite Hp, Hws.
      split; [reflexivity|]. split; [reflexivity|lia].
    + destruct (Nat.eqb_spec lo 0); [|contradiction].
      destruct H as [<- | []]. exists []. simpl.
      split; [reflexivity|]. split; [reflexivity|lia].
Qed.

(** [find] succeeds only where a match starts. *)
Lemma find_position (r : re A) (s : list A) : forall prev m,
  find isWord r prev s = Some m ->
  exists pre suffix, s = pre ++ suffix /\ ms isWord r (lastSymbol prev pre) suffix <> [].
Proof.
  induction s as [|c s IH]; intros prev m; simpl.
  - destruct (ms isWord r prev []) eqn:Hm; [discriminate|].
    intros _. exists [], []. simpl. rewrite Hm. split; [reflexivity|discriminate].
  - destruct (ms isWord r prev (c :: s)) eqn:Hm.
    + intros H. destruct (IH _ _ H) as (pre & suffix & -> & Hs).
      exists (c :: pre), suffix. split; [reflexivity|exact Hs].
    + intros _. exists [], (c :: s). simpl. rewrite Hm. split; [reflexivity|discriminate].
Qed.

End MatchInversion.

Lemma Plus_class_inv (p : rune -> bool) (prev : option rune) (s : gostring)
    (x : mstate rune) :
  In x (ms isWordRune (Plus (Chr p)) prev s) ->
  exists c ws, s = (c :: ws) ++ snd x /\ p c = true /\ forallb p ws = true.
Proof.
  intros H.
  change (ms isWordRune (Plus (Chr p)) prev s)
    with (rep (ms isWordRune (Chr p)) 1 (length s) prev s) in H.
  apply rep_class_inv in H. destruct H as (ws & Hs & Hws & Hlen).
  destruct ws as [|c ws]; [simpl in Hlen; lia|].
  simpl in Hws. apply andb_true_iff in Hws as [Hc Hws]. now exists c, ws.
Qed.

(** A rune matched by a letter of a token under (?i) folds to the letter. *)
Lemma letter_toLower (c l : rune) :
  ((c =? l)%N || (isLower l && (c + 32 =? l)%N)) = true -> isLower l = true ->
  toLower c = l.
Proof.
  intros H Hl. unfold toLower, isUpper. unfold isLower in Hl.
  apply andb_true_iff in Hl as [Hl1 Hl2]. apply N.leb_le in Hl1, Hl2.
  apply orb_true_iff in H as [H|H].
  - apply N.eqb_eq in H. subst c.
    destruct (N.leb_spec 65 l); simpl; [|reflexivity].
    destruct (N.leb_spec l 90); [lia|reflexivity].
  - apply andb_true_iff in H as [_ H]. apply N.eqb_eq in H.
    destruct (N.leb_spec 65 c); simpl; [|lia].
    destruct (N.leb_spec c 90); [exact H|lia].
Qed.

Ltac invert_literal H :=
  repeat match type of H with
  | In _ (ms _ (Seq (Chr _) _) _ _) =>
      let x := fresh "x" in let Hx := fresh "Hx" in
      apply ms_Seq_inv in H as (x & Hx & H);
      apply ms_Chr_inv in Hx as (? & -> & Hx & ?);
      destruct x as [? ?]; cbn [fst snd] in *; subst
  end;
  match type of H with
  | In _ (ms _ (Chr _) _ _) => apply ms_Chr_inv in H as (? & -> & H & ?)
  end.

Ltac fold_letters :=
  repeat match goal with
  | H : ((?c =? ?l)%N || (isLower ?l && (?c + 32 =? ?l)%N)) = true |- _ =>
      apply letter_toLower in H; [|reflexivity]
  | H : (?c =? ?l)%N = true |- _ => apply N.eqb_eq in H
  end.

(** What the alternation of the author pattern consumes is a token. *)
Lemma token_inv (prev : option rune) (s : gostring) (x : mstate rune) :
  In x (ms isWordRune (Alt reBy (Alt reAuthorColon reWrittenBy)) prev s) ->
  exists tok, isAuthorToken tok = true /\ s = tok ++ snd x.
Proof.
  intros H.
  change (In x (ms isWordRune reBy prev s ++
                (ms isWordRune reAuthorColon prev s ++ ms isWordRune reWrittenBy prev s)))
    in H.
  apply in_app_or in H as [H|H]; [|apply in_app_or in H as [H|H]].
  - unfold reBy, lit_i in H. invert_literal H. fold_letters.
    eexists [_; _]. split; [|reflexivity].
    unfold isAuthorToken, eqFold. simpl map.
    repeat match goal with Hl : toLower _ = _ |- _ => rewrite Hl; clear Hl end.
    reflexivity.
  - unfold reAuthorColon, lit_i, lit in H. invert_literal H. fold_letters. subst.
    eexists [_; _; _; _; _; _; _]. split; [|reflexivity].
    unfold isAuthorToken, eqFold. simpl map.
    repeat match goal with Hl : toLower _ = _ |- _ => rewrite Hl; clear Hl end.
    reflexivity.
  - unfold reWrittenBy, lit_i, lit in H. invert_literal H. fold_letters. subst.
    eexists [_; _; _; _; _; _; _; _; _; _]. split; [|reflexivity].
    unfold isAuthorToken, eqFold. simpl map.
    repeat match goal with Hl : toLower _ = _ |- _ => rewrite Hl; clear Hl end.
    reflexivity.
Qed.

(** A match of the author pattern is an author marker. *)
Lemma authorPattern_marker_inv (s : gostring) :
  FindStringSubmatch authorPattern s <> None -> hasAuthorMarker s.
Proof.
  unfold FindStringSubmatch. intros Hfind.
  destruct (find isWordRune authorPattern None s) as [m|] eqn:Hm;
    [|exfalso; apply Hfind; reflexivity].
  apply find_position in Hm. destruct Hm as (pre & suffix & -> & Hms).
  destruct (ms isWordRune authorPattern (lastSymbol None pre) suffix) as [|y L] eqn:Hy;
    [exfalso; apply Hms; reflexivity|].
  assert (Hin : In y (ms isWordRune authorPattern (lastSymbol None pre) suffix))
    by (rewrite Hy; now left).
  unfold authorPattern in Hin.
  apply ms_Seq_inv in Hin as (x0 & Hb & Hin).
  apply ms_WordB_inv in Hb as [Hb ->]. simpl fst in Hin. simpl snd in Hin.
  apply ms_Seq_inv in Hin as (x1 & Htok & Hin).
  apply ms_Seq_inv in Hin as (x2 & Hws & Hname).
  apply token_inv in Htok. destruct Htok as (tok & Hok & Hsuffix).
  apply Plus_class_inv in Hws. destruct Hws as (w & ws & Hx1 & Hw & Hwss).
  apply Plus_class_inv in Hname. destruct Hname as (c & name & Hx2 & Hc & _).
  exists pre, tok, (w :: ws), c, (name ++ snd y).
  split; [rewrite Hsuffix, Hx1, Hx2; reflexivity|].
  split.
  - destruct (token_match tok Hok) as [Hhead _].
    unfold boundary in Hb. rewrite Hsuffix in Hb.
    destruct tok as [|t0 tok]; [discriminate|]. simpl in Hb, Hhead.
    rewrite Hhead in Hb. now destruct (wordAt isWordRune (lastSymbol None pre)).
  - split; [exact Hok|]. split; [discriminate|]. split; [|exact Hc].
    simpl. now rewrite Hw, Hwss.
Qed.

(** X16: [ParseQuery] returns mode TitleAuthor exactly when neither
    identifier step accepts the trimmed input and the trimmed input holds
    an author marker: one of the tokens "by", "author:" and "written by"
    in any letter case, not preceded by a word character, followed by
    white space and a character other than a comma or a line break. *)
Theorem X16_title_author_iff (input : gostring) :
  snd (fst (ParseQuery input)) = SearchTypeTitleAuthor <->
  isbnStep isbn13Pattern validateISBN13 (TrimSpace input) = None /\
  isbnStep isbn10Pattern validateISBN10 (TrimSpace input) = None /\
  hasAuthorMarker (TrimSpace input).
Proof.
  unfold ParseQuery.
  destruct (isbnStep isbn13Pattern validateISBN13 (TrimSpace input)) as [i|] eqn:H13.
  { simpl. split; [discriminate|]. intros (H & _). discriminate. }
  destruct (isbnStep isbn10Pattern validateISBN10 (TrimSpace input)) as [i|] eqn:H10.
  { simpl. split; [discriminate|]. intros (_ & H & _). discriminate. }
  unfold parseText.
  destruct (FindStringSubmatch authorPattern (TrimSpace input)) as [m|] eqn:Hfind; simpl.
  - split; [|reflexivity]. intros _. split; [reflexivity|]. split; [reflexivity|].
    apply authorPattern_marker_inv. rewrite Hfind. discriminate.
  - split.
    + destruct (negb (containsNumbers (TrimSpace input))
                && Nat.ltb (len (TrimSpace input)) 100); simpl; discriminate.
    + intros (_ & _ & Hmarker). exfalso.
      now apply (authorPattern_marker Hmarker).
Qed.

(** ** Queries with few digits *)

Lemma isbn10_step_digits (s isbn : gostring) :
  isbnStep isbn10Pattern validateISBN10 s = Some isbn -> (10 <= countDigits s)%nat.
Proof.
  intros H. destruct (isbnStep_part _ _ _ H) as (pre & m & post & -> & Hm).
  destruct (validateISBN10_spec _ (isbnStep_valid _ _ _ H)) as (Hd & Hl).
  rewrite !countDigits_app, <- (countDigits_cleanISBN m), Hm, (countDigits_all _ Hd). lia.
Qed.

(** X17: a query whose trimmed text holds fewer than ten digits is never
    classified as an identifier; its result is that of the author, title
    and general steps on the trimmed text. *)
Theorem X17_few_digits (input : gostring) :
  (countDigits (TrimSpace input) < 10)%nat ->
  snd (fst (ParseQuery input)) <> SearchTypeISBN /\
  ParseQuery input = parseText (TrimSpace input).
Proof.
  intros Hcount.
  assert (H13 : isbnStep isbn13Pattern validateISBN13 (TrimSpace input) = None).
  { destruct (isbnStep isbn13Pattern validateISBN13 (TrimSpace input)) eqn:H; [|reflexivity].
    apply isbn13_step_digits in H. lia. }
  assert (H10 : isbnStep isbn10Pattern validateISBN10 (TrimSpace input) = None).
  { destruct (isbnStep isbn10Pattern validateISBN10 (TrimSpace input)) eqn:H; [|reflexivity].
    apply isbn10_step_digits in H. lia. }
  unfold ParseQuery. rewrite H13, H10. split; [|reflexivity].
  unfold parseText.
  destruct (isSome (FindStringSubmatch authorPattern (TrimSpace input))); simpl;
    [discriminate|].
  destruct (negb (containsNumbers (TrimSpace input))
            && Nat.ltb (len (TrimSpace input)) 100); simpl; discriminate.
Qed.

Lemma X17_few_digits_witness :
  ParseQuery (str "classic american literature 1920s") =
  (str "classic american literature 1920s", SearchTypeGeneralQuery, []).
Proof.
  refine (eq_trans (proj2 (@X17_few_digits (str "classic american literature 1920s") _)) _).
  - vm_compute. lia.
  - reflexivity.
Defined.

(** ** The band of the score over binary64 *)

Module Binary64Band.

(** X18: computed with the operations of [float64], the score lies
    between 0.7 times the table entry of the mode and the entry itself. *)
Theorem X18_score_band_binary64 (m : SearchType) (v : books.Volume) :
  (0.7 * mapIndex baseConfidence m <=? calculateConfidence m v)%float
  && (calculateConfidence m v <=? mapIndex baseConfidence m)%float = true.
Proof.
  unfold calculateConfidence.
  destruct v as [id [[title authors ids publisher lang date links]|]]; simpl.
  - destruct m, title, authors, ids, publisher; vm_compute; reflexivity.
  - destruct m; vm_compute; reflexivity.
Qed.

End Binary64Band.

(* ================================================================= *)
(** * Groups of 13 digits with an invalid prefix *)

Lemma checkGroup13Shapes_true : checkGroup13Shapes = true.
Proof. vm_compute. reflexivity. Qed.

Lemma group13_shape_match (prev : option cls) (g r p : nat) (b0 b1 b2 b3 : bool)
    (after : list cls) :
  In prev quietPrevs ->
  (1 <= g <= 5)%nat -> (1 <= r)%nat -> (1 <= p)%nat -> (g + r + p = 9)%nat ->
  In after afterShapes ->
  firstMatch clsWord isbn10PatternC prev (group13Shape g r p b0 b1 b2 b3 ++ after)
    = Some (group13Left g r p b0 b1 b2 b3 + length after)%nat /\
  (group13Left g r p b0 b1 b2 b3 <= length (group13Shape g r p b0 b1 b2 b3))%nat /\
  Nat.eqb (countCls (firstn (length (group13Shape g r p b0 b1 b2 b3)
                             - group13Left g r p b0 b1 b2 b3)
                       (group13Shape g r p b0 b1 b2 b3))) 10
    = cutShape g p b0 b1 b2.
Proof.
  intros Hprev Hg Hr Hp Hsum Hafter.
  pose proof checkGroup13Shapes_true as Hall. unfold checkGroup13Shapes in Hall.
  rewrite forallb_forall in Hall. specialize (Hall prev Hprev).
  rewrite forallb_forall in Hall. specialize (Hall g).
  rewrite in_seq in Hall. specialize (Hall ltac:(lia)).
  rewrite forallb_forall in Hall. specialize (Hall r).
  rewrite in_seq in Hall. specialize (Hall ltac:(lia)).
  apply orb_true_iff in Hall as [Hall|Hall]; [apply Nat.leb_le in Hall; lia|].
  assert (Hbool : forall b : bool, In b [true; false]) by (intros []; simpl; auto).
  rewrite forallb_forall in Hall. specialize (Hall b0 (Hbool b0)).
  rewrite forallb_forall in Hall. specialize (Hall b1 (Hbool b1)).
  rewrite forallb_forall in Hall. specialize (Hall b2 (Hbool b2)).
  rewrite forallb_forall in Hall. specialize (Hall b3 (Hbool b3)).
  rewrite forallb_forall in Hall. specialize (Hall after Hafter).
  unfold group13ShapeOk in Hall. replace (9 - g - r)%nat with p in Hall by lia.
  cbv zeta in Hall.
  apply andb_true_iff in Hall as [Hall Hcut].
  apply andb_true_iff in Hall as [Hmatch Hle].
  split; [|split].
  - destruct (firstMatch clsWord isbn10PatternC prev
                (group13Shape g r p b0 b1 b2 b3 ++ after)) as [k|]; [|discriminate].
    simpl in Hmatch. apply Nat.eqb_eq in Hmatch. now subst.
  - now apply Nat.leb_le.
  - now apply eqb_prop.
Qed.

(** The first match in a quiet context, when it ends inside the text
    [w]: it depends only on the classes of the start of what follows. *)
Lemma quiet_firstMatch_at (r : re rune) (prev : option rune) (w post : gostring)
    (k : nat) :
  (forall c, isDigit c = false -> isSep c = false -> rejects r c) ->
  (forall after, In (map classify after) afterShapes ->
     firstMatch isWordRune r prev (w ++ after) = Some (k + length after)%nat) ->
  quietAfter post = true ->
  firstMatch isWordRune r prev (w ++ post) = Some (k + length post)%nat.
Proof.
  intros Hrej Hshape Hpost. destruct post as [|c0 rest].
  - apply Hshape. simpl. auto.
  - simpl in Hpost. destruct (isSep c0) eqn:Hs0.
    + destruct rest as [|c1 rest'].
      * apply Hshape. simpl. rewrite (classify_sep_rune _ Hs0). auto.
      * apply andb_true_iff in Hpost as [Hd1 Hs1].
        apply negb_true_iff in Hd1, Hs1.
        change (w ++ c0 :: c1 :: rest') with (w ++ [c0] ++ c1 :: rest').
        rewrite app_assoc, firstMatch_tail by now apply Hrej.
        rewrite <- app_assoc, (Hshape ([c0] ++ [c1])).
        -- simpl. f_equal. lia.
        -- simpl. rewrite (classify_sep_rune _ Hs0). unfold classify.
           rewrite Hd1, Hs1. destruct (isWordRune c1); auto 6.
    + apply negb_true_iff in Hpost.
      assert (Hd0 : isDigit c0 = false).
      { destruct (isDigit c0) eqn:Hd; [|reflexivity].
        rewrite (digit_word _ Hd) in Hpost. discriminate. }
      rewrite firstMatch_tail by now apply Hrej.
      rewrite (Hshape [c0]).
      * simpl. f_equal. lia.
      * simpl. unfold classify. rewrite Hd0, Hs0, Hpost. auto.
Qed.

(** *** Digits of a text and of its parts *)

Lemma countDigits_classify (s : gostring) : countDigits s = countCls (map classify s).
Proof.
  unfold countDigits, countCls. induction s as [|c s IH]; simpl; [reflexivity|].
  rewrite <- classify_digit. destruct (isDigit c); simpl; now rewrite IH.
Qed.

Lemma firstn_app_within (T : Type) (n : nat) (w post : list T) :
  (n <= length w)%nat -> firstn n (w ++ post) = firstn n w.
Proof.
  intros Hn. rewrite firstn_app. replace (n - length w)%nat with 0%nat by lia.
  apply app_nil_r.
Qed.

Lemma filter_firstn (T : Type) (f : T -> bool) (l : list T) : forall n,
  filter f (firstn n l) = firstn (length (filter f (firstn n l))) (filter f l).
Proof.
  induction l as [|c l IH]; intros [|n]; simpl; try reflexivity.
  destruct (f c); simpl; [f_equal|]; apply IH.
Qed.

Lemma forallb_firstn (T : Type) (f : T -> bool) (l : list T) : forall n,
  forallb f l = true -> forallb f (firstn n l) = true.
Proof.
  induction l as [|c l IH]; intros [|n] H; simpl; try reflexivity.
  simpl in H. apply andb_true_iff in H as [Hc Hl]. now rewrite Hc, IH.
Qed.

Lemma forallb_filter (T : Type) (f : T -> bool) (l : list T) :
  forallb f (filter f l) = true.
Proof.
  induction l as [|c l IH]; simpl; [reflexivity|].
  destruct (f c) eqn:Hc; simpl; [now rewrite Hc|exact IH].
Qed.

Lemma filter_none (s : gostring) : countDigits s = 0%nat -> filter isDigit s = [].
Proof. unfold countDigits. apply length_zero_iff_nil. Qed.

(** A cleaned text that consists of digits is the digits of the text. *)
Lemma cleanISBN_all_digits (m : gostring) :
  forallb isDigit (cleanISBN m) = true -> filter isDigit m = cleanISBN m.
Proof.
  induction m as [|c m IH]; [reflexivity|].
  change (c :: m) with ([c] ++ m). rewrite cleanISBN_app, filter_app, forallb_app.
  intros H. apply andb_true_iff in H as [Hc Hm]. rewrite (IH Hm). f_equal.
  revert Hc. unfold cleanISBN, removeAll. simpl.
  destruct (N.eqb_spec c 45) as [->|Hh]; [reflexivity|]. simpl.
  destruct (N.eqb_spec c 32) as [->|Hs]; [reflexivity|]. simpl.
  destruct (isDigit c); [reflexivity|discriminate].
Qed.

(** Cleaning a text of digits, hyphens and spaces leaves its digits. *)
Lemma cleanISBN_written_runes (s : gostring) :
  forallb isWrittenRune s = true -> cleanISBN s = filter isDigit s.
Proof.
  induction s as [|c s IH]; [reflexivity|].
  change (c :: s) with ([c] ++ s). rewrite cleanISBN_app, filter_app, forallb_app.
  intros H. apply andb_true_iff in H as [Hc Hs]. rewrite (IH Hs). f_equal.
  revert Hc. unfold isWrittenRune, cleanISBN, removeAll. simpl.
  destruct (N.eqb_spec c 45) as [->|Hh]; [reflexivity|]. simpl.
  destruct (N.eqb_spec c 32) as [->|Hsp]; [reflexivity|]. simpl.
  destruct (isDigit c); [reflexivity|discriminate].
Qed.

Lemma digits_written (s : gostring) :
  forallb isDigit s = true -> forallb isWrittenRune s = true.
Proof.
  induction s as [|c s IH]; simpl; [reflexivity|].
  intros H. apply andb_true_iff in H as [Hc Hs].
  unfold isWrittenRune at 1. now rewrite Hc, IH.
Qed.

Lemma sepText_written (x : separator) : forallb isWrittenRune (sepText x) = true.
Proof. destruct x; reflexivity. Qed.

Lemma filter_digits (s : gostring) : forallb isDigit s = true -> filter isDigit s = s.
Proof.
  induction s as [|c s IH]; simpl; [reflexivity|].
  intros H. apply andb_true_iff in H as [Hc Hs]. now rewrite Hc, IH.
Qed.

Lemma HasPrefix_app (p rest q : gostring) :
  length p = length q -> HasPrefix (p ++ rest) q = true -> p = q.
Proof.
  revert p. induction q as [|b q IH]; intros [|a p] Hlen H; simpl in *;
    try discriminate; [reflexivity|].
  apply andb_true_iff in H as [Hab Hq]. apply N.eqb_eq in Hab. subst b.
  f_equal. apply IH; [lia|exact Hq].
Qed.

Section InvalidGroup.

Variable p : gostring.
Variable i : isbn10.
Variables s0 s1 s2 s3 : separator.
Hypothesis Hprefix : invalidPrefix p = true.
Hypothesis Hvalid : validIsbn10 i = true.

Let w : gostring := group13Written p i s0 s1 s2 s3.
Let k : nat :=
  group13Left (length (group10 i)) (length (registrant10 i)) (length (publication10 i))
    (sepPresent s0) (sepPresent s1) (sepPresent s2) (sepPresent s3).

Lemma invalidPrefix_parts :
  length p = 3%nat /\ forallb isDigit p = true /\ p <> str "978" /\ p <> str "979".
Proof.
  unfold invalidPrefix in Hprefix.
  repeat (apply andb_true_iff in Hprefix as [Hprefix ?]).
  apply Nat.eqb_eq in Hprefix.
  repeat match goal with
  | H : negb _ = true |- _ => apply negb_true_iff in H
  end.
  repeat split; try assumption; intros ->; discriminate.
Qed.

Lemma classify_group13 (after : gostring) :
  map classify (w ++ after) =
  group13Shape (length (group10 i)) (length (registrant10 i)) (length (publication10 i))
    (sepPresent s0) (sepPresent s1) (sepPresent s2) (sepPresent s3)
  ++ map classify after.
Proof.
  destruct invalidPrefix_parts as (Hlen & Hdigits & _).
  unfold w, group13Written, group13Shape.
  rewrite <- !app_assoc, !map_app, classify_sepText, (classify_digits _ Hdigits), Hlen.
  rewrite <- map_app, (@classify_isbn10 i s1 s2 s3 Hvalid after).
  unfold isbn10Shape. now rewrite app_nil_r.
Qed.

Lemma group13_shape :
  map classify w =
  group13Shape (length (group10 i)) (length (registrant10 i)) (length (publication10 i))
    (sepPresent s0) (sepPresent s1) (sepPresent s2) (sepPresent s3).
Proof. rewrite <- (app_nil_r w), classify_group13. apply app_nil_r. Qed.

Lemma group13_facts (prev : option rune) :
  wordAt isWordRune prev = false ->
  (forall after, In (map classify after) afterShapes ->
     firstMatch isWordRune isbn10Pattern prev (w ++ after)
     = Some (k + length after)%nat) /\
  (k <= length w)%nat /\
  Nat.eqb (countDigits (firstn (length w - k) w)) 10 = cutAfterTen i s0 s1 s2.
Proof.
  intros Hprev.
  destruct (@validIsbn10_parts i Hvalid) as (_ & _ & _ & _ & Hlg & Hlr & Hlp & Hsum).
  split; [|split].
  - intros after Hafter.
    rewrite (@firstMatch_classify _ _ prev _ sim_isbn10Pattern), classify_group13.
    destruct (@group13_shape_match _ _ _ _ (sepPresent s0) (sepPresent s1)
                (sepPresent s2) (sepPresent s3) _
                (classify_quiet_prev _ Hprev) Hlg Hlr Hlp Hsum Hafter) as (Hm & _).
    unfold isbn10PatternC in Hm. rewrite Hm.
    now rewrite length_map.
  - destruct (@group13_shape_match None _ _ _ (sepPresent s0) (sepPresent s1)
                (sepPresent s2) (sepPresent s3) []
                (or_introl eq_refl) Hlg Hlr Hlp Hsum (or_introl eq_refl)) as (_ & Hle & _).
    rewrite <- (length_map classify), group13_shape. exact Hle.
  - destruct (@group13_shape_match None _ _ _ (sepPresent s0) (sepPresent s1)
                (sepPresent s2) (sepPresent s3) []
                (or_introl eq_refl) Hlg Hlr Hlp Hsum (or_introl eq_refl)) as (_ & _ & Hcut).
    rewrite countDigits_classify, <- firstn_map, <- (length_map classify w), group13_shape.
    exact Hcut.
Qed.

(** The text that the ISBN-10 pattern finds: a part of the group that
    starts with its first digit. *)
Lemma group13_find (pre post : gostring) :
  quietBefore pre = true -> quietAfter post = true ->
  FindStringSubmatch isbn10Pattern (pre ++ w ++ post) = Some (firstn (length w - k) w).
Proof.
  intros Hpre Hpost. unfold quietBefore in Hpre.
  apply andb_true_iff in Hpre as [Hpre Hlast]. apply negb_true_iff in Hpre, Hlast.
  destruct (group13_facts _ Hlast) as (Hshape & Hle & _).
  unfold FindStringSubmatch. rewrite find_skip.
  - rewrite (@find_first _ _ _ _ _ _
               (@quiet_firstMatch_at _ _ w post k rejects_isbn10Pattern Hshape Hpost)).
    rewrite length_app.
    replace (length w + length post - (k + length post))%nat with (length w - k)%nat by lia.
    now rewrite firstn_app_within by lia.
  - intros c Hc prev s. apply isbn10Pattern_not_digit.
    destruct (isDigit c) eqn:Hd; [|reflexivity].
    assert (Hex : existsb isDigit pre = true) by (apply existsb_exists; now exists c).
    congruence.
Qed.

Lemma group13_written_runes : forallb isWrittenRune w = true.
Proof.
  destruct invalidPrefix_parts as (_ & Hdigits & _).
  destruct (@validIsbn10_parts i Hvalid) as (Hg & Hr & Hp & Hc & _).
  unfold w, group13Written, isbn10Written.
  rewrite !forallb_app, !sepText_written, !digits_written by assumption.
  simpl. unfold isWrittenRune. now rewrite Hc.
Qed.

Lemma group13_digits : filter isDigit w = group13Digits p i.
Proof.
  destruct invalidPrefix_parts as (_ & Hdigits & _).
  rewrite <- (cleanISBN_written_runes _ group13_written_runes).
  unfold w, group13Written.
  rewrite !cleanISBN_app, cleanISBN_sepText, (cleanISBN_digits _ Hdigits),
    (@cleanISBN_isbn10 i s1 s2 s3 Hvalid).
  reflexivity.
Qed.

Lemma group13Digits_length : length (group13Digits p i) = 13%nat.
Proof.
  destruct invalidPrefix_parts as (Hlen & _).
  unfold group13Digits, group13Written. simpl sepText. simpl app at 2.
  rewrite length_app, Hlen.
  change (isbn10Written i NoSep NoSep NoSep) with (isbn10Digits i).
  now rewrite (@isbn10Digits_length i Hvalid).
Qed.

Lemma group13_countDigits : countDigits w = 13%nat.
Proof. unfold countDigits. rewrite group13_digits. apply group13Digits_length. Qed.

(** The ISBN-13 step accepts nothing: an accepted identifier would be the
    13 digits of the group, whose prefix is invalid. *)
Lemma group13_step13 (pre post : gostring) :
  existsb isDigit pre = false -> existsb isDigit post = false ->
  isbnStep isbn13Pattern validateISBN13 (pre ++ w ++ post) = None.
Proof.
  intros Hpre Hpost.
  destruct (isbnStep isbn13Pattern validateISBN13 (pre ++ w ++ post)) as [x|] eqn:H13;
    [exfalso|reflexivity].
  destruct (isbnStep_part _ _ _ H13) as (a & m & b & Htext & Hm).
  destruct (validateISBN13_spec _ (isbnStep_valid _ _ _ H13)) as (Hd & Hl & Hp).
  destruct invalidPrefix_parts as (Hlen & _ & H978 & H979).
  assert (Hfm : filter isDigit m = x)
    by (rewrite <- Hm; apply cleanISBN_all_digits; now rewrite Hm).
  assert (Hcount : (countDigits a + countDigits m + countDigits b = 13)%nat).
  { rewrite <- !countDigits_app, <- app_assoc, <- Htext, !countDigits_app,
      (countDigits_none _ Hpre), (countDigits_none _ Hpost), group13_countDigits. lia. }
  assert (Hcm : countDigits m = 13%nat) by (unfold countDigits; now rewrite Hfm).
  assert (Hx : x = group13Digits p i).
  { rewrite <- group13_digits.
    assert (Hall : filter isDigit (pre ++ w ++ post) = filter isDigit w).
    { rewrite !filter_app, (filter_none pre), (filter_none post), app_nil_r;
        [reflexivity| |]; now apply countDigits_none. }
    rewrite <- Hall, Htext, !filter_app, (filter_none a), (filter_none b), app_nil_r by lia.
    now rewrite Hfm. }
  rewrite Hx in Hp. unfold group13Digits, group13Written in Hp.
  destruct Hp as [Hp|Hp]; apply HasPrefix_app in Hp; auto.
Qed.

(** The ISBN-10 step accepts the first ten digits for the written forms
    of [cutAfterTen] and nothing for the others. *)
Lemma group13_step10 (pre post : gostring) :
  quietBefore pre = true -> quietAfter post = true ->
  isbnStep isbn10Pattern validateISBN10 (pre ++ w ++ post) =
  if cutAfterTen i s0 s1 s2 then Some (firstn 10 (group13Digits p i)) else None.
Proof.
  intros Hpre Hpost. unfold isbnStep. rewrite (group13_find _ _ Hpre Hpost).
  assert (Hlast : wordAt isWordRune (lastSymbol None pre) = false).
  { unfold quietBefore in Hpre. apply andb_true_iff in Hpre as [_ Hlast].
    now apply negb_true_iff in Hlast. }
  destruct (group13_facts _ Hlast) as (_ & _ & Hcut).
  cbv zeta.
  assert (Hclean : cleanISBN (firstn (length w - k) w)
                   = filter isDigit (firstn (length w - k) w))
    by (apply cleanISBN_written_runes, forallb_firstn, group13_written_runes).
  rewrite Hclean. destruct (cutAfterTen i s0 s1 s2).
  - apply Nat.eqb_eq in Hcut. unfold countDigits in Hcut.
    unfold validateISBN10, isAllDigits.
    rewrite forallb_filter, (len_digits _ (forallb_filter isDigit _)), Hcut. simpl.
    now rewrite filter_firstn, Hcut, group13_digits.
  - destruct (validateISBN10 (filter isDigit (firstn (length w - k) w))) eqn:Hv;
      [exfalso|reflexivity].
    apply validateISBN10_spec in Hv as [_ Hv].
    apply Nat.eqb_neq in Hcut. apply Hcut. exact Hv.
Qed.

Lemma group13_containsNumbers (pre post : gostring) :
  containsNumbers (pre ++ w ++ post) = true.
Proof.
  destruct invalidPrefix_parts as (Hlen & Hdigits & _).
  unfold containsNumbers, w, group13Written. rewrite !existsb_app.
  destruct p as [|c p']; [discriminate|]. simpl in Hdigits.
  apply andb_true_iff in Hdigits as [Hc _]. simpl. rewrite Hc.
  now rewrite orb_true_r.
Qed.

End InvalidGroup.

(** C4 (amended): let the trimmed input hold, in a text without other
    digits and between quiet boundaries, a group of 13 digits whose prefix
    is neither 978 nor 979, written with nothing, a hyphen or a single
    space at each of the four boundaries of its elements.  The ISBN-13
    step accepts nothing.  Unless the publication has two digits,
    separators are written on both sides of the registrant, and a
    separator follows the prefix or the registration group has at least
    three digits ([cutAfterTen]), the ISBN-10 step accepts nothing either
    and [ParseQuery] returns what the author, title and general steps make
    of the whole trimmed text: mode TitleAuthor when the text holds an
    author marker and mode General when it does not, with the trimmed text
    as query and no identifier.  In the excepted written forms the
    ISBN-10 step accepts the first ten digits of the group and the mode is
    ISBN. *)
Theorem C4_invalid_prefix_group (input pre post p : gostring) (i : isbn10)
    (s0 s1 s2 s3 : separator) :
  invalidPrefix p = true ->
  validIsbn10 i = true ->
  quietBefore pre = true ->
  quietAfter post = true ->
  existsb isDigit post = false ->
  TrimSpace input = pre ++ group13Written p i s0 s1 s2 s3 ++ post ->
  isbnStep isbn13Pattern validateISBN13 (TrimSpace input) = None /\
  if cutAfterTen i s0 s1 s2 then
    ParseQuery input =
    (str "isbn:" ++ firstn 10 (group13Digits p i), SearchTypeISBN,
     firstn 10 (group13Digits p i))
  else
    isbnStep isbn10Pattern validateISBN10 (TrimSpace input) = None /\
    ParseQuery input = parseText (TrimSpace input) /\
    (hasAuthorMarker (TrimSpace input) ->
       ParseQuery input = (TrimSpace input, SearchTypeTitleAuthor, [])) /\
    (~ hasAuthorMarker (TrimSpace input) ->
       ParseQuery input = (TrimSpace input, SearchTypeGeneralQuery, [])).
Proof.
  intros Hprefix Hvalid Hpre Hpost Hnodigit Htrim.
  assert (Hpre' : existsb isDigit pre = false).
  { unfold quietBefore in Hpre. apply andb_true_iff in Hpre as [Hpre _].
    now apply negb_true_iff in Hpre. }
  pose proof (@group13_step13 p i s0 s1 s2 s3 Hprefix Hvalid pre post Hpre' Hnodigit) as H13.
  pose proof (@group13_step10 p i s0 s1 s2 s3 Hprefix Hvalid pre post Hpre Hpost) as H10.
  pose proof (@group13_containsNumbers p i s0 s1 s2 s3 Hprefix pre post) as Hnum.
  unfold ParseQuery. rewrite Htrim, H13, H10. split; [reflexivity|].
  destruct (cutAfterTen i s0 s1 s2); [reflexivity|].
  split; [reflexivity|]. split; [reflexivity|].
  unfold parseText. rewrite Hnum. simpl.
  destruct (FindStringSubmatch authorPattern
              (pre ++ group13Written p i s0 s1 s2 s3 ++ post)) as [m|] eqn:Hfind; simpl.
  - split; [reflexivity|]. intros Hno. exfalso. apply Hno.
    apply authorPattern_marker_inv. rewrite Hfind. discriminate.
  - split; [|reflexivity]. intros Hmarker. exfalso.
    now apply (authorPattern_marker Hmarker).
Qed.

Lemma C4_invalid_prefix_group_witness :
  ParseQuery (str "9770743273565 by John Smith") =
  (str "9770743273565 by John Smith", SearchTypeTitleAuthor, []).
Proof.
  refine (proj1 (proj2 (proj2 (proj2 (@C4_invalid_prefix_group
            (str "9770743273565 by John Smith") [] (str " by John Smith")
            (str "977") gatsbyElements NoSep NoSep NoSep NoSep
            eq_refl eq_refl eq_refl eq_refl eq_refl eq_refl)))) _).
  exists (str "9770743273565 "), (str "by"), (str " "), (chr "J"), (str "ohn Smith").
  repeat split; try reflexivity. discriminate.
Defined.

(** The hyphenated group of the scenarios with prefix 977, alone and
    after a label: no author marker, mode General. *)
Example invalid_prefix_hyphenated :
  ParseQuery (str "977-0-7432-7356-5") =
  (str "977-0-7432-7356-5", SearchTypeGeneralQuery, []).
Proof. vm_compute. reflexivity. Qed.

Example invalid_prefix_labelled :
  ParseQuery (str "ISBN 9770743273565") =
  (str "ISBN 9770743273565", SearchTypeGeneralQuery, []).
Proof. vm_compute. reflexivity. Qed.
